(** * WishListWoocommerce: the reminder worker and its orchestrator

    A shallow embedding of [wishlist_reminder.py] (configuration, time
    windows, candidate selection, template and product cards, the send
    loop, the sent log) and of [orchestrator.py] (lock file, per-stage retry
    loop with backoff, pauses of the local test mode, exit status),
    followed by the properties of the specification that these two scripts
    decide and by further properties of the code.

    Conventions of the embedding:
    - a [datetime] is an integer number of microseconds since the epoch
      (Python's resolution), a [timedelta] is an integer number of
      microseconds, a [date] is a day number; the range limits of Python's
      [datetime]/[timedelta] (years 1..9999) are not part of the model;
    - a Python [str] is the [string] of its code points, one character for
      each, and the code points are below 256 (U+0000 to U+00FF): on these
      [strip], [lower] and [int] are those of Python; a text with other
      code points is outside the model, except the subjects, which the
      scripts only pass on and which are written as the bytes of their
      UTF-8 encoding;
    - a function that can raise returns [res], the Python exception being
      the [Raise] case;
    - the outside world (clock, file system, MySQL store, SMTP server,
      worker subprocess) is explicit state plus oracles for what the
      program cannot decide; writing to the console and to the log file of
      the orchestrator always succeeds. *)

From Stdlib Require Import ZArith List String Ascii Bool Lia.
From stdpp Require Import base list strings gmap pretty.

Open Scope Z_scope.

(** ** Python built-ins *)

Module Py.

Inductive exn :=
  | ValueError      (* int() of a malformed literal, unpacking of a wrong length *)
  | IndexError
  | OSError         (* open() of the template *)
  | DatabaseError   (* any mysql.connector error *)
  | SMTPError       (* any smtplib error *)
  | RuntimeError.   (* raised by _base_url *)

Inductive res (A : Type) :=
  | Ok (a : A)
  | Raise (e : exn).
Arguments Ok {A} a.
Arguments Raise {A} e.

Definition bind {A B} (r : res A) (k : A -> res B) : res B :=
  match r with
  | Ok a => k a
  | Raise e => Raise e
  end.

Definition code (c : ascii) : Z := Z.of_nat (nat_of_ascii c).

(** [str.isspace] on the code points below 256: TAB, LF, VT, FF, CR, FS,
    GS, RS, US, space, NEL (U+0085) and the no-break space (U+00A0). *)
Definition isspace (c : ascii) : bool :=
  ((9 <=? code c) && (code c <=? 13)) || ((28 <=? code c) && (code c <=? 32))
  || (code c =? 133) || (code c =? 160).

Fixpoint lstrip_by (p : ascii -> bool) (l : list ascii) : list ascii :=
  match l with
  | [] => []
  | c :: t => if p c then lstrip_by p t else l
  end.

Definition rstrip_by (p : ascii -> bool) (l : list ascii) : list ascii :=
  rev (lstrip_by p (rev l)).

(** [s.strip()] *)
Definition strip (s : string) : string :=
  string_of_list_ascii (rstrip_by isspace (lstrip_by isspace (list_ascii_of_string s))).

(** [s.lstrip(chars)] *)
Definition lstrip_chars (chars : list ascii) (s : string) : string :=
  string_of_list_ascii
    (lstrip_by (fun c => existsb (Ascii.eqb c) chars) (list_ascii_of_string s)).

(** [s.rstrip(chars)] *)
Definition rstrip_chars (chars : list ascii) (s : string) : string :=
  string_of_list_ascii
    (rstrip_by (fun c => existsb (Ascii.eqb c) chars) (list_ascii_of_string s)).

(** The small letter of a character: the capital letters below 256 are A
    to Z and U+00C0 to U+00DE without the multiplication sign U+00D7; the
    small letter of each lies 32 code points higher. *)
Definition lower_ascii (c : ascii) : ascii :=
  if ((65 <=? code c) && (code c <=? 90))
     || ((192 <=? code c) && (code c <=? 222) && negb (code c =? 215))
  then ascii_of_nat (nat_of_ascii c + 32) else c.

(** [s.lower()] *)
Definition lower (s : string) : string :=
  string_of_list_ascii (map lower_ascii (list_ascii_of_string s)).

(** [s.startswith(c)] for a one-character prefix. *)
Definition startswith (c : ascii) (s : string) : bool :=
  match s with
  | String d _ => Ascii.eqb c d
  | EmptyString => false
  end.

(** [s.split(sep)] for a one-character separator: never the empty list. *)
Fixpoint split_on (sep : ascii) (cur : list ascii) (l : list ascii) : list string :=
  match l with
  | [] => [string_of_list_ascii (rev cur)]
  | c :: t =>
      if Ascii.eqb c sep
      then string_of_list_ascii (rev cur) :: split_on sep [] t
      else split_on sep (c :: cur) t
  end.

Definition split (sep : ascii) (s : string) : list string :=
  split_on sep [] (list_ascii_of_string s).

Fixpoint starts_with (p l : list ascii) : bool :=
  match p, l with
  | [], _ => true
  | a :: p', b :: l' => Ascii.eqb a b && starts_with p' l'
  | _ :: _, [] => false
  end.

(** The occurrences of [old] in [l] that do not overlap, from the left,
    replaced by [new]; [skip] characters of an occurrence are still to be
    passed. *)
Fixpoint replace_from (old new : list ascii) (skip : nat) (l : list ascii)
    : list ascii :=
  match l with
  | [] => []
  | c :: t =>
      match skip with
      | Datatypes.S k => replace_from old new k t
      | O =>
          if starts_with old l
          then new ++ replace_from old new (length old - 1) t
          else c :: replace_from old new 0 t
      end
  end.

(** [s.replace(old, new)]; with an empty [old], [new] goes before every
    character and at the end. *)
Definition replace (old new s : string) : string :=
  let n := list_ascii_of_string new in
  match list_ascii_of_string old with
  | [] =>
      string_of_list_ascii
        (flat_map (fun c => n ++ [c]) (list_ascii_of_string s) ++ n)
  | o => string_of_list_ascii (replace_from o n 0 (list_ascii_of_string s))
  end.

(** The digits of a decimal literal: a single underscore may stand between
    two digits, nowhere else. [sep] tells that a digit must come next. *)
Fixpoint digits (acc : Z) (sep : bool) (l : list ascii) : option Z :=
  match l with
  | [] => if sep then None else Some acc
  | c :: t =>
      if Ascii.eqb c "_"%char
      then (if sep then None else digits acc true t)
      else if (48 <=? code c) && (code c <=? 57)
           then digits (10 * acc + (code c - 48)) false t
           else None
  end.

(** The white space that [int] skips around a literal: that of [strip]
    without FS, GS, RS and US. *)
Definition int_space (c : ascii) : bool :=
  ((9 <=? code c) && (code c <=? 13)) || (code c =? 32)
  || (code c =? 133) || (code c =? 160).

(** [int(s)] in base ten: surrounding white space, an optional sign, digits. *)
Definition int (s : string) : res Z :=
  let body := rstrip_by int_space (lstrip_by int_space (list_ascii_of_string s)) in
  let '(sign, ds) :=
    match body with
    | c :: t =>
        if Ascii.eqb c "-"%char then (-1, t)
        else if Ascii.eqb c "+"%char then (1, t)
        else (1, body)
    | [] => (1, body)
    end in
  match digits 0 true ds with
  | Some n => Ok (sign * n)
  | None => Raise ValueError
  end.

(** [l[i]] with Python's negative indices. *)
Definition getitem {A} (l : list A) (i : Z) : res A :=
  let n := Z.of_nat (length l) in
  let j := if i <? 0 then i + n else i in
  if (0 <=? j) && (j <? n)
  then match nth_error l (Z.to_nat j) with
       | Some x => Ok x
       | None => Raise IndexError
       end
  else Raise IndexError.

(** [os.getenv(..., "false").strip().lower() == "true"] *)
Definition flag (raw : string) : bool :=
  String.eqb (lower (strip raw)) "true".

End Py.

(** ** datetime *)

Module datetime.

Definition US_PER_SECOND : Z := 1000000.
Definition US_PER_MINUTE : Z := 60 * US_PER_SECOND.
Definition US_PER_HOUR : Z := 3600 * US_PER_SECOND.
Definition US_PER_DAY : Z := 86400 * US_PER_SECOND.

(** [timedelta(days=d, hours=h, minutes=m)] *)
Definition timedelta (d h m : Z) : Z :=
  d * US_PER_DAY + h * US_PER_HOUR + m * US_PER_MINUTE.

(** [dt.date()], as a day number. *)
Definition date (dt : Z) : Z := dt / US_PER_DAY.

(** [time(h, m, s, us)], as an offset into the day. *)
Definition time (h m s us : Z) : Z :=
  h * US_PER_HOUR + m * US_PER_MINUTE + s * US_PER_SECOND + us.

(** [datetime.min.time()] and [datetime.max.time()] *)
Definition min_time : Z := time 0 0 0 0.
Definition max_time : Z := time 23 59 59 999999.

(** [datetime.combine(d, t)] *)
Definition combine (d t : Z) : Z := d * US_PER_DAY + t.

(** What [dt.strftime("%Y-%m-%d %H:%M:%S")] keeps of [dt]: the fraction of
    the second is dropped. The value is the instant the text denotes. *)
Definition strftime_seconds (dt : Z) : Z := dt / US_PER_SECOND * US_PER_SECOND.

End datetime.

(** ** wishlist_reminder.py *)

Module wishlist_reminder.
Import Py datetime.

#[export] Instance res_bind : MBind res := fun A B k r => Py.bind r k.
#[export] Instance res_ret : MRet res := @Ok.

(** The module-level configuration, read once from the environment. *)
Record Config := {
  STAGE : Z;
  TARGET_HOURS : Z;
  WINDOW_TOLERANCE_H : Z;
  CAMPAIGN_KEY : string;
  MAX_BATCH : Z;
  SEND_EMAILS : bool;
  FIXED_8AM_MODE : bool;
  LOCAL_TZ_OFFSET : string;
  TEMPLATE_FILE : string;
  SUBJECT : string;
  (** not empty: the module raises at import otherwise *)
  WISHLIST_URL : string
}.

(** *** Time windows *)

Definition parse_tz_offset_to_delta (tz_str : string) : res Z :=
  let s := strip tz_str in
  let sign := if startswith "-" s then -1 else 1 in
  match split ":" (lstrip_chars ["+"; "-"]%char s) with
  | [hh; mm] =>
      h ← int hh;
      m ← int mm;
      Ok (sign * timedelta 0 h m)
  | _ => Raise ValueError
  end.

(** [now] is the reading of [_now_utc()]. *)
Definition stage_window_bounds_relative (cfg : Config) (now : Z) : Z * Z :=
  let start := now - timedelta 0 (TARGET_HOURS cfg + WINDOW_TOLERANCE_H cfg) 0 in
  let end_ := now - timedelta 0 (TARGET_HOURS cfg - WINDOW_TOLERANCE_H cfg) 0 in
  (start, end_).

(** The first line of [day_bounds_utc_for_target_fixed_8am]:
    [max(1, target_hours // 24)]. *)
Definition days_back (target_hours : Z) : Z := Z.max 1 (target_hours / 24).

Definition day_bounds_utc_for_target_fixed_8am
    (now : Z) (target_hours : Z) (tz_offset_str : string) : res (Z * Z) :=
  let days_back := days_back target_hours in
  offset ← parse_tz_offset_to_delta tz_offset_str;
  let now_local := now + offset in
  let target_local_date := date now_local - days_back in
  let start_local := combine target_local_date min_time in
  let end_local := combine target_local_date max_time in
  let start_utc := start_local - offset in
  let end_utc := end_local - offset in
  Ok (start_utc, end_utc).

Definition compute_window (cfg : Config) (now : Z) : res (Z * Z * string) :=
  if FIXED_8AM_MODE cfg then
    '(s, e) ← day_bounds_utc_for_target_fixed_8am now (TARGET_HOURS cfg) (LOCAL_TZ_OFFSET cfg);
    Ok (s, e, "fixed_8am")
  else
    let '(s, e) := stage_window_bounds_relative cfg now in
    Ok (s, e, "relative").

(** *** The store *)

(** What the MySQL server decides and the scripts do not: how two strings of
    a column compare (its collation) and what [CONVERT_TZ] makes of an
    offset text. *)
Class Store := {
  (** [a = b] on the email columns *)
  email_eq : string -> string -> bool;
  (** [a = b] on [campaign_key] *)
  key_eq : string -> string -> bool;
  (** [CONVERT_TZ(dt, from_tz, '+00:00')]; [None] is NULL *)
  convert_tz : Z -> string -> option Z
}.

(** The comparisons are equivalences, as those of a collation are. *)
Class StoreLaws (St : Store) : Prop := {
  email_eq_refl a : email_eq a a = true;
  email_eq_sym a b : email_eq a b = email_eq b a;
  email_eq_trans a b c : email_eq a b = true -> email_eq b c = true -> email_eq a c = true;
  key_eq_refl a : key_eq a a = true;
  key_eq_sym a b : key_eq a b = key_eq b a;
  key_eq_trans a b c : key_eq a b = true -> key_eq b c = true -> key_eq a c = true
}.

(** wp_wishlist_guest_emails; [created_at] is a wall-clock reading in the
    shop's local time. *)
Record GuestEmail := {
  ge_email : string;
  ge_wishlist_id : Z;
  ge_created_at : Z
}.

(** wp_tinvwl_lists *)
Record WList := { wl_ID : Z }.

(** wp_tinvwl_items *)
Record Item := {
  it_ID : Z;
  it_wishlist_id : Z;
  it_product_id : Z
}.

(** wp_wishlist_email_log *)
Record LogRow := {
  log_email : string;
  log_wishlist_id : Z;
  log_campaign_key : string;
  log_sent_at : Z
}.

Record DB := {
  guest_emails : list GuestEmail;
  lists : list WList;
  items : list Item;
  email_log : list LogRow
}.

(** A row of the result of [select_candidates]. *)
Record Row := {
  email : string;
  wishlist_id : Z
}.

Section Queries.
Context {St : Store}.

(** The ON condition of [LEFT JOIN ... log_same]. *)
Definition log_same_on (e : GuestEmail) (wl : WList) (campaign_key : string)
    (l : LogRow) : bool :=
  email_eq (log_email l) (ge_email e)
  && (log_wishlist_id l =? wl_ID wl)
  && key_eq (log_campaign_key l) campaign_key.

(** The same condition, read on a row of the result: the log row [l] stands
    against the candidate [r] in the campaign [campaign_key]. *)
Definition blocks (l : LogRow) (campaign_key : string) (r : Row) : bool :=
  email_eq (log_email l) (email r)
  && (log_wishlist_id l =? wishlist_id r)
  && key_eq (log_campaign_key l) campaign_key.

(** A left join keeps an unmatched left row once, with NULLs on the right. *)
Definition left_join {A} (matches : list A) : list (option A) :=
  match matches with
  | [] => [None]
  | _ => map Some matches
  end.

(** FROM e JOIN wl ON wl.ID = e.wishlist_id JOIN it ON it.wishlist_id = wl.ID
    LEFT JOIN log_same ON ..., rows in nested-loop order. *)
Definition joined (db : DB) (campaign_key : string)
    : list (GuestEmail * WList * Item * option LogRow) :=
  flat_map (fun e =>
    flat_map (fun wl =>
      flat_map (fun it =>
        map (fun lg => (e, wl, it, lg))
            (left_join (List.filter (log_same_on e wl campaign_key) (email_log db))))
        (List.filter (fun it => it_wishlist_id it =? wl_ID wl) (items db)))
      (List.filter (fun wl => wl_ID wl =? ge_wishlist_id e) (lists db)))
    (guest_emails db).

(** CONVERT_TZ(e.created_at, tz, '+00:00') BETWEEN lo AND hi; a NULL is not
    between anything. *)
Definition in_window (tz : string) (lo hi : Z) (e : GuestEmail) : bool :=
  match convert_tz (ge_created_at e) tz with
  | Some t => (lo <=? t) && (t <=? hi)
  | None => false
  end.

(** WHERE CONVERT_TZ(e.created_at, tz, '+00:00') BETWEEN lo AND hi
      AND log_same.wishlist_id IS NULL *)
Definition where_clause (tz : string) (lo hi : Z)
    (r : GuestEmail * WList * Item * option LogRow) : bool :=
  let '(e, _, _, lg) := r in
  in_window tz lo hi e
  && match lg with
     | None => true
     | Some _ => false
     end.

(** SELECT e.email, wl.ID AS wishlist_id *)
Definition row_of (e : GuestEmail) (wl : WList) : Row :=
  {| email := ge_email e; wishlist_id := wl_ID wl |}.

Definition project (r : GuestEmail * WList * Item * option LogRow) : Row :=
  let '(e, wl, _, _) := r in row_of e wl.

Definition row_eq (a b : Row) : bool :=
  email_eq (email a) (email b) && (wishlist_id a =? wishlist_id b).

(** DISTINCT: a row equal (under the collation) to one already produced is
    dropped. *)
Fixpoint distinct (seen : list Row) (l : list Row) : list Row :=
  match l with
  | [] => []
  | r :: t =>
      if existsb (row_eq r) seen then distinct seen t
      else r :: distinct (r :: seen) t
  end.

(** The query of [select_candidates] without its LIMIT. *)
Definition candidates_query (db : DB) (campaign_key tz : string) (lo hi : Z)
    : list Row :=
  distinct [] (map project (List.filter (where_clause tz lo hi) (joined db campaign_key))).

(** [select_candidates(conn, start_utc, end_utc)]: the bounds go to the
    server as text with whole seconds; a negative LIMIT is refused by the
    server. *)
Definition select_candidates (cfg : Config) (db : DB) (start_utc end_utc : Z)
    : res (list Row) :=
  if MAX_BATCH cfg <? 0 then Raise DatabaseError
  else Ok (take (Z.to_nat (MAX_BATCH cfg))
             (candidates_query db (CAMPAIGN_KEY cfg) (LOCAL_TZ_OFFSET cfg)
                (strftime_seconds start_utc) (strftime_seconds end_utc))).

(** Modelled from the spec: the unique key of the sent-log table, which
    decides when [ON DUPLICATE KEY UPDATE] applies. The table's definition is
    not in the repository; the specification keys the upsert by (recipient,
    subject entity, campaign identity). *)
Definition log_unique_key (a b : LogRow) : bool :=
  email_eq (log_email a) (log_email b)
  && (log_wishlist_id a =? log_wishlist_id b)
  && key_eq (log_campaign_key a) (log_campaign_key b).

(** INSERT ... ON DUPLICATE KEY UPDATE campaign_key = VALUES(campaign_key),
    sent_at = VALUES(sent_at) *)
Fixpoint upsert (new : LogRow) (tbl : list LogRow) : list LogRow :=
  match tbl with
  | [] => [new]
  | r :: t =>
      if log_unique_key r new
      then {| log_email := log_email r;
              log_wishlist_id := log_wishlist_id r;
              log_campaign_key := log_campaign_key new;
              log_sent_at := log_sent_at new |} :: t
      else r :: upsert new t
  end.

(** The VALUES of the INSERT of [insert_log]: the email in lower case and
    stripped, the time of the server. *)
Definition log_values (email : string) (wishlist_id : Z)
    (campaign_key : string) (utc_timestamp : Z) : LogRow :=
  {| log_email := strip (lower email);
     log_wishlist_id := wishlist_id;
     log_campaign_key := campaign_key;
     log_sent_at := utc_timestamp |}.

(** [insert_log(conn, email, wishlist_id, campaign_key)];
    [utc_timestamp] is the server's UTC_TIMESTAMP(). *)
Definition insert_log (db : DB) (email : string) (wishlist_id : Z)
    (campaign_key : string) (utc_timestamp : Z) : DB :=
  let new := log_values email wishlist_id campaign_key utc_timestamp in
  {| guest_emails := guest_emails db;
     lists := lists db;
     items := items db;
     email_log := upsert new (email_log db) |}.

(** The sent log as later inserts leave it: the scripts never delete from
    it. *)
Inductive log_later : list LogRow -> list LogRow -> Prop :=
  | log_later_now tbl : log_later tbl tbl
  | log_later_insert tbl tbl' new :
      log_later tbl tbl' -> log_later tbl (upsert new tbl').

End Queries.

(** *** The run of the worker *)

Record Mail := {
  mail_to : string;
  mail_subject : string;
  mail_html : string
}.

(** The lines the worker prints. *)
Inductive Line :=
  | ErrorTemplate                                 (* [ERROR] No se pudo cargar la plantilla *)
  | ErrorMySQL                                    (* [ERROR] Conectando MySQL *)
  | Boot                                          (* the [BOOT] lines *)
  | DebugCandidates (n : nat)                     (* [DEBUG] candidatos encontrados *)
  | NoRecipients                                  (* No hay destinatarios ... *)
  | Enviado (email : string) (wishlist_id : Z) (message_id : string)
  | ErrorEnviando (email : string) (wishlist_id : Z) (e : exn)
  | Preview (email : string) (wishlist_id : Z)
  | Fatal (e : exn).

(** The state the worker acts on: the store, the history of the calls of
    [send_email] with their results, and the console. *)
Record World := {
  db : DB;
  smtp_calls : list (Mail * res string);
  stdout : list Line
}.

(** What the worker cannot decide. Calls made for a candidate are indexed by
    the position of the candidate in the list of the run. *)
Record Env := {
  (** [_now_utc()] *)
  env_now_utc : Z;
  (** [load_template(TEMPLATE_FILE)] *)
  env_load_template : res string;
  (** [mysql_conn()] *)
  env_mysql_conn : res unit;
  (** an error of the connection while the selection runs *)
  env_select_fault : option exn;
  (** [render_products_html(conn, wishlist_id)]: the cards of the products
      of the wishlist, read from the shop's tables; it raises on a failed
      query, on a thumbnail id that is no number, on an invalid WISHLIST_URL *)
  env_render_products_html : nat -> Z -> res string;
  (** [urlparse(url)]: its scheme and its netloc *)
  env_urlparse : string -> string * string;
  (** [datetime.now().year] *)
  env_year : Z;
  (** [os.getenv("LOGO_URL")] *)
  env_LOGO_URL : option string;
  (** what the SMTP dialogue of [send_email] ends in: a Message-ID or an error *)
  env_smtp : nat -> Mail -> res string;
  (** an error of the connection while [insert_log] runs *)
  env_insert_fault : nat -> option exn;
  (** UTC_TIMESTAMP() of the server at that insert *)
  env_utc_timestamp : nat -> Z
}.

Inductive Exit :=
  | Return
  | SysExit (status : Z)
  | Uncaught (e : exn).

Definition print (l : Line) (w : World) : World :=
  {| db := db w; smtp_calls := smtp_calls w; stdout := stdout w ++ [l] |}.

Definition send_email (env : Env) (i : nat) (to_email subject html : string)
    (w : World) : World * res string :=
  let m := {| mail_to := to_email; mail_subject := subject; mail_html := html |} in
  let r := env_smtp env i m in
  ({| db := db w; smtp_calls := smtp_calls w ++ [(m, r)]; stdout := stdout w |}, r).

Definition _base_url (cfg : Config) (env : Env) : res string :=
  let url := rstrip_chars ["/"]%char (WISHLIST_URL cfg) in
  let '(scheme, netloc) := env_urlparse env url in
  if negb (String.eqb scheme "") && negb (String.eqb netloc "")
  then Ok url else Raise RuntimeError.

Definition wishlist_link (cfg : Config) (env : Env) (wishlist_id : Z) : res string :=
  base ← _base_url cfg env;
  Ok (base ++ "/lista-de-deseos/?wl=" ++ pretty wishlist_id)%string.

(** [render_template(conn, wishlist_id, base_html)], called for the
    candidate at position [i]: both spellings of each key are replaced, key
    after key. *)
Definition render_template (cfg : Config) (env : Env) (i : nat) (wishlist_id : Z)
    (base_html : string) : res string :=
  products_html ← env_render_products_html env i wishlist_id;
  link ← wishlist_link cfg env wishlist_id;
  let year := pretty (env_year env) in
  base ← _base_url cfg env;
  let logo :=
    default (base ++ "/wp-content/uploads/2024/01/logo-curren.png")%string
            (env_LOGO_URL env) in
  let mapping :=
    [("PRODUCTS", products_html); ("WISHLIST_LINK", link);
     ("YEAR", year); ("LOGO_URL", logo)] in
  Ok (fold_left
        (fun html '(k, v) =>
           replace ("${" ++ k ++ "}")%string v
             (replace ("{{" ++ k ++ "}}")%string v html))
        mapping base_html).

(** A text in which no placeholder starts: it has no opening brace and no
    dollar sign. *)
Definition plain (s : string) : Prop :=
  ~ In "{"%char (list_ascii_of_string s) /\ ~ In "$"%char (list_ascii_of_string s).

(** The message that the loop of [main] hands to [send_email] for a
    candidate. *)
Definition mail_for (cfg : Config) (r : Row) (html : string) : Mail :=
  {| mail_to := lower (strip (email r)); mail_subject := SUBJECT cfg; mail_html := html |}.

Section Run.
Context {St : Store}.

(** [insert_log] on the connection of the run. *)
Definition insert_log_conn (env : Env) (i : nat) (email : string)
    (wishlist_id : Z) (campaign_key : string) (w : World) : World * res unit :=
  match env_insert_fault env i with
  | Some e => (w, Raise e)
  | None =>
      ({| db := insert_log (db w) email wishlist_id campaign_key (env_utc_timestamp env i);
          smtp_calls := smtp_calls w;
          stdout := stdout w |}, Ok tt)
  end.

(** The loop [for r in rows] of [main]; [i] is the position of the head of
    [rows] in the list of the run. *)
Fixpoint send_loop (cfg : Config) (env : Env) (base_template : string)
    (i : nat) (rows : list Row) (w : World) : World * res unit :=
  match rows with
  | [] => (w, Ok tt)
  | r :: rest =>
      let email := lower (strip (email r)) in
      let wishlist_id := wishlist_id r in
      match render_template cfg env i wishlist_id base_template with
      | Raise e => (w, Raise e)
      | Ok html =>
          if SEND_EMAILS cfg then
            match send_email env i email (SUBJECT cfg) html w with
            | (w1, Ok message_id) =>
                match insert_log_conn env i email wishlist_id (CAMPAIGN_KEY cfg) w1 with
                | (w2, Ok _) =>
                    send_loop cfg env base_template (Datatypes.S i) rest
                      (print (Enviado email wishlist_id message_id) w2)
                | (w2, Raise e) =>
                    send_loop cfg env base_template (Datatypes.S i) rest
                      (print (ErrorEnviando email wishlist_id e) w2)
                end
            | (w1, Raise e) =>
                send_loop cfg env base_template (Datatypes.S i) rest
                  (print (ErrorEnviando email wishlist_id e) w1)
            end
          else
            send_loop cfg env base_template (Datatypes.S i) rest
              (print (Preview email wishlist_id) w)
      end
  end.

Definition main (cfg : Config) (env : Env) (w : World) : World * Exit :=
  match compute_window cfg (env_now_utc env) with
  | Raise e => (w, Uncaught e)
  | Ok (start_utc, end_utc, mode) =>
      match env_load_template env with
      | Raise _ => (print ErrorTemplate w, SysExit 2)
      | Ok base_template =>
          match env_mysql_conn env with
          | Raise _ => (print ErrorMySQL w, SysExit 3)
          | Ok _ =>
              let w := print Boot w in
              let selected :=
                match env_select_fault env with
                | Some e => Raise e
                | None => select_candidates cfg (db w) start_utc end_utc
                end in
              match selected with
              | Raise e => (w, Uncaught e)
              | Ok rows =>
                  let w := print (DebugCandidates (length rows)) w in
                  match rows with
                  | [] => (print NoRecipients w, Return)
                  | _ =>
                      match send_loop cfg env base_template 0 rows w with
                      | (w, Ok _) => (w, Return)
                      | (w, Raise e) => (w, Uncaught e)
                      end
                  end
              end
          end
      end
  end.

(** The [if __name__ == "__main__"] block: the exit status of the process. *)
Definition script (cfg : Config) (env : Env) (w : World) : World * Z :=
  match main cfg env w with
  | (w, Return) => (w, 0)
  | (w, SysExit status) => (w, status)
  | (w, Uncaught e) => (print (Fatal e) w, 1)
  end.

End Run.

(** *** Reading a run *)

(** The configuration with the switch SEND_EMAILS set to [b]. *)
Definition with_SEND_EMAILS (b : bool) (cfg : Config) : Config :=
  {| STAGE := STAGE cfg;
     TARGET_HOURS := TARGET_HOURS cfg;
     WINDOW_TOLERANCE_H := WINDOW_TOLERANCE_H cfg;
     CAMPAIGN_KEY := CAMPAIGN_KEY cfg;
     MAX_BATCH := MAX_BATCH cfg;
     SEND_EMAILS := b;
     FIXED_8AM_MODE := FIXED_8AM_MODE cfg;
     LOCAL_TZ_OFFSET := LOCAL_TZ_OFFSET cfg;
     TEMPLATE_FILE := TEMPLATE_FILE cfg;
     SUBJECT := SUBJECT cfg;
     WISHLIST_URL := WISHLIST_URL cfg |}.

(** The addresses of the [PREVIEW] lines, in order. *)
Definition previews (out : list Line) : list string :=
  omap (fun l => match l with Preview email _ => Some email | _ => None end) out.

(** *** The configuration *)

(** [os.getenv(key, dflt)] on the environment of the process. *)
Definition getenv (environ : gmap string string) (key dflt : string) : string :=
  default dflt (environ !! key).

(** The module-level assignments of the worker, in the order in which they
    are evaluated when the script starts: every [int(...)] can raise, and
    an empty WISHLIST_URL raises at the end. An exception here ends the
    interpreter with status 1. *)
Definition load_config (environ : gmap string string) : res Config :=
  _ ← int (getenv environ "SMTP_PORT" "587");
  stage ← int (getenv environ "STAGE" "24");
  target_hours ← int (getenv environ "TARGET_HOURS" (pretty stage));
  window_tolerance_h ← int (getenv environ "WINDOW_TOLERANCE_H" "6");
  let campaign_key :=
    getenv environ "CAMPAIGN_KEY" ("wishlist_v1_" ++ pretty stage ++ "h")%string in
  _ ← int (getenv environ "COOLDOWN_HOURS" "168");
  max_batch ← int (getenv environ "MAX_BATCH" "300");
  let send_emails := flag (getenv environ "SEND_EMAILS" "false") in
  let fixed_8am_mode := flag (getenv environ "FIXED_8AM_MODE" "false") in
  let local_tz_offset := getenv environ "LOCAL_TZ_OFFSET" "-06:00" in
  let template_file :=
    getenv environ "TEMPLATE_FILE" "templates/wishlist_email_24h.html" in
  let subject := getenv environ "SUBJECT" "Tu reloj favorito te espera ⌚" in
  let wishlist_url := strip (getenv environ "WISHLIST_URL" "") in
  if String.eqb wishlist_url "" then Raise RuntimeError
  else Ok {| STAGE := stage;
             TARGET_HOURS := target_hours;
             WINDOW_TOLERANCE_H := window_tolerance_h;
             CAMPAIGN_KEY := campaign_key;
             MAX_BATCH := max_batch;
             SEND_EMAILS := send_emails;
             FIXED_8AM_MODE := fixed_8am_mode;
             LOCAL_TZ_OFFSET := local_tz_offset;
             TEMPLATE_FILE := template_file;
             SUBJECT := subject;
             WISHLIST_URL := wishlist_url |}.

(** *** The product cards *)

(** The double quote and the line feed of the HTML literals. *)
Definition dq : string := String (ascii_of_nat 34) EmptyString.
Definition nl : string := String (ascii_of_nat 10) EmptyString.

(** wp_postmeta; [meta_value] can be NULL. *)
Record PostMeta := {
  pm_post_id : Z;
  pm_meta_key : string;
  pm_meta_value : option string
}.

(** wp_posts; a column read as [None] is NULL. *)
Record Post := {
  post_ID : Z;
  post_guid : option string;
  post_title : option string
}.

(** The tables of the shop that the cards are made from. *)
Record Shop := {
  postmeta : list PostMeta;
  posts : list Post
}.

(** ORDER BY it.ID DESC *)
Fixpoint insert_desc (it : Item) (l : list Item) : list Item :=
  match l with
  | [] => [it]
  | x :: t => if it_ID x <? it_ID it then it :: l else x :: insert_desc it t
  end.

Definition order_by_ID_desc (l : list Item) : list Item :=
  fold_right insert_desc [] l.

(** The rows of the first query of [render_products_html]:
    WHERE it.wishlist_id = %s ORDER BY it.ID DESC LIMIT 6. *)
Definition shown_items (db : DB) (wishlist_id : Z) : list Item :=
  take 6 (order_by_ID_desc
            (List.filter (fun it => it_wishlist_id it =? wishlist_id) (items db))).

(** The card of one product. *)
Definition card_html (product_url img_url title : string) : string :=
  (nl ++
   "                <td align=" ++ dq ++ "left" ++ dq ++ " valign=" ++ dq ++ "top" ++ dq ++ " width=" ++ dq ++ "50%" ++ dq ++ " style=" ++ dq ++ "width:50%; padding:12px;" ++ dq ++ ">" ++ nl ++
   "                  <table role=" ++ dq ++ "presentation" ++ dq ++ " cellpadding=" ++ dq ++ "0" ++ dq ++ " cellspacing=" ++ dq ++ "0" ++ dq ++ " border=" ++ dq ++ "0" ++ dq ++ " width=" ++ dq ++ "100%" ++ dq ++ nl ++
   "                         style=" ++ dq ++ "border:1px solid #e5e7eb; border-radius:8px; overflow:hidden; box-shadow:0 1px 2px rgba(0,0,0,0.06);" ++ dq ++ ">" ++ nl ++
   "                    <tr>" ++ nl ++
   "                      <td align=" ++ dq ++ "center" ++ dq ++ " style=" ++ dq ++ "padding:16px 16px 8px 16px;" ++ dq ++ ">" ++ nl ++
   "                        <a href=" ++ dq ++ product_url ++ dq ++ " target=" ++ dq ++ "_blank" ++ dq ++ " style=" ++ dq ++ "text-decoration:none;" ++ dq ++ ">" ++ nl ++
   "                          <img src=" ++ dq ++ img_url ++ dq ++ " alt=" ++ dq ++ title ++ dq ++ " width=" ++ dq ++ "240" ++ dq ++ nl ++
   "                               style=" ++ dq ++ "display:block; width:100%; max-width:240px; height:auto; border:0;" ++ dq ++ "/>" ++ nl ++
   "                        </a>" ++ nl ++
   "                      </td>" ++ nl ++
   "                    </tr>" ++ nl ++
   "                    <tr>" ++ nl ++
   "                      <td style=" ++ dq ++ "padding:0 16px 12px 16px; color:#111; font-size:14px; line-height:1.35;" ++ dq ++ ">" ++ nl ++
   "                        " ++ title ++ nl ++
   "                      </td>" ++ nl ++
   "                    </tr>" ++ nl ++
   "                    <tr>" ++ nl ++
   "                      <td style=" ++ dq ++ "padding:0 16px 16px 16px;" ++ dq ++ ">" ++ nl ++
   "                        <a href=" ++ dq ++ product_url ++ dq ++ " target=" ++ dq ++ "_blank" ++ dq ++ nl ++
   "                           style=" ++ dq ++ "display:inline-block; padding:8px 12px; border-radius:6px; background:#111827; color:#ffffff; font-size:13px; text-decoration:none;" ++ dq ++ ">" ++ nl ++
   "                           Ver producto" ++ nl ++
   "                        </a>" ++ nl ++
   "                      </td>" ++ nl ++
   "                    </tr>" ++ nl ++
   "                  </table>" ++ nl ++
   "                </td>" ++ nl ++
   "                ")%string.

(** The empty cell that fills a row of one card. *)
Definition empty_cell : string :=
  ("<td width=" ++ dq ++ "50%" ++ dq ++ " style=" ++ dq ++ "width:50%; padding:12px;" ++ dq ++ "></td>")%string.

(** The rows of the grid: [for i in range(0, len(cards), 2)]. *)
Fixpoint grid_rows (cards : list string) : list string :=
  match cards with
  | [] => []
  | [left_] => [("<tr>" ++ left_ ++ empty_cell ++ "</tr>")%string]
  | left_ :: right_ :: rest =>
      ("<tr>" ++ left_ ++ right_ ++ "</tr>")%string :: grid_rows rest
  end.

Section Cards.

(** How the server compares [meta_key] with a text (the collation of the
    column), and [PLACEHOLDER_IMG]. A query with LIMIT 1 and no ORDER BY is
    read as returning the first matching row of the table. *)
Variable meta_key_eq : string -> string -> bool.
Variable PLACEHOLDER_IMG : string.

(** [thumb_id]: [int(m["meta_value"])] when the row exists and the value
    is neither NULL nor empty. *)
Definition thumbnail_id (shop : Shop) (pid : Z) : res (option Z) :=
  match List.find (fun m => (pm_post_id m =? pid)
                            && meta_key_eq (pm_meta_key m) "_thumbnail_id")
          (postmeta shop) with
  | Some m =>
      match pm_meta_value m with
      | Some (String c t) => v ← int (String c t); Ok (Some v)
      | _ => Ok None
      end
  | None => Ok None
  end.

(** [img_url] *)
Definition image_url (shop : Shop) (thumb_id : option Z) : string :=
  match thumb_id with
  | Some id =>
      if id =? 0 then PLACEHOLDER_IMG
      else
        match List.find (fun p => post_ID p =? id) (posts shop) with
        | Some img =>
            match post_guid img with
            | Some (String c t) => String c t
            | _ => PLACEHOLDER_IMG
            end
        | None => PLACEHOLDER_IMG
        end
  | None => PLACEHOLDER_IMG
  end.

(** [title] *)
Definition product_title (shop : Shop) (pid : Z) : string :=
  let fallback := ("Producto " ++ pretty pid)%string in
  match List.find (fun p => post_ID p =? pid) (posts shop) with
  | Some t =>
      match post_title t with
      | Some (String c s) => String c s
      | _ => fallback
      end
  | None => fallback
  end.

(** The body of the loop [for row in products]. *)
Definition product_card (cfg : Config) (env : Env) (shop : Shop) (pid : Z)
    : res string :=
  base ← _base_url cfg env;
  let product_url := (base ++ "/?post_type=product&p=" ++ pretty pid)%string in
  thumb_id ← thumbnail_id shop pid;
  let img_url := image_url shop thumb_id in
  let title := product_title shop pid in
  Ok (card_html product_url img_url title).

(** The loop [for row in products]: the first exception ends it. *)
Fixpoint product_cards (cfg : Config) (env : Env) (shop : Shop) (products : list Z)
    : res (list string) :=
  match products with
  | [] => Ok []
  | pid :: rest =>
      card ← product_card cfg env shop pid;
      cards ← product_cards cfg env shop rest;
      Ok (card :: cards)
  end.

(** [render_products_html(conn, wishlist_id)], with queries that do not
    fail. *)
Definition render_products_html (cfg : Config) (env : Env) (db : DB) (shop : Shop)
    (wishlist_id : Z) : res string :=
  let products := map it_product_id (shown_items db wishlist_id) in
  match products with
  | [] => Ok EmptyString
  | _ =>
      cards ← product_cards cfg env shop products;
      let rows := grid_rows cards in
      Ok (strip
            (nl ++
             "        <table role=" ++ dq ++ "presentation" ++ dq ++ " cellpadding=" ++ dq ++ "0" ++ dq ++ " cellspacing=" ++ dq ++ "0" ++ dq ++ " border=" ++ dq ++ "0" ++ dq ++ " width=" ++ dq ++ "100%" ++ dq ++ ">" ++ nl ++
             "          " ++ String.concat EmptyString rows ++ nl ++
             "        </table>" ++ nl ++
             "        ")%string)
  end.

End Cards.

End wishlist_reminder.

(** ** orchestrator.py *)

Module orchestrator.
Import Py.

Definition WORKER_FILE : string := "wishlist_reminder.py".
Definition BACKOFF_SECS : list Z := [10; 30].

(** One entry of the list [stages] of [main]. *)
Record Stage := {
  STAGE : string;
  TARGET_HOURS : string;
  WINDOW_TOLERANCE_H : string;
  CAMPAIGN_KEY : string;
  TEMPLATE_FILE : string;
  SUBJECT : string;
  DELAY_AFTER_MIN : Z
}.

Definition stage_24 : Stage :=
  {| STAGE := "24";
     TARGET_HOURS := "24";
     WINDOW_TOLERANCE_H := "6";
     CAMPAIGN_KEY := "wishlist_v1_24h";
     TEMPLATE_FILE := "templates/wishlist_email_24h.html";
     SUBJECT := "Tu reloj favorito te espera ⌚";
     DELAY_AFTER_MIN := 2 |}.

Definition stage_48 : Stage :=
  {| STAGE := "48";
     TARGET_HOURS := "48";
     WINDOW_TOLERANCE_H := "6";
     CAMPAIGN_KEY := "wishlist_v1_48h";
     TEMPLATE_FILE := "templates/wishlist_email_48h.html";
     SUBJECT := "Aún estás a tiempo — 10% OFF termina pronto";
     DELAY_AFTER_MIN := 2 |}.

Definition stage_72 : Stage :=
  {| STAGE := "72";
     TARGET_HOURS := "72";
     WINDOW_TOLERANCE_H := "6";
     CAMPAIGN_KEY := "wishlist_v1_72h";
     TEMPLATE_FILE := "templates/wishlist_email_72h.html";
     SUBJECT := "Última oportunidad ⏰ se están agotando";
     DELAY_AFTER_MIN := 0 |}.

Definition stages : list Stage := [stage_24; stage_48; stage_72].

(** The stage as the dictionary of environment overrides it is; the worker
    receives every value as text ([str(v)] in [run_worker]). *)
Definition stage_dict (st : Stage) : gmap string string :=
  {[ "STAGE" := STAGE st;
     "TARGET_HOURS" := TARGET_HOURS st;
     "WINDOW_TOLERANCE_H" := WINDOW_TOLERANCE_H st;
     "CAMPAIGN_KEY" := CAMPAIGN_KEY st;
     "TEMPLATE_FILE" := TEMPLATE_FILE st;
     "SUBJECT" := SUBJECT st;
     "DELAY_AFTER_MIN" := pretty (DELAY_AFTER_MIN st) ]}.

(** What the orchestrator cannot decide. Calls of [run_worker] are numbered
    from the start of the run. *)
Record Env := {
  (** [os.getpid()] *)
  getpid : Z;
  (** [os.environ], after [load_dotenv] *)
  environ : gmap string string;
  (** the module-level [int(os.getenv("ORCH_MAX_RETRIES", "2"))] *)
  MAX_RETRIES : Z;
  (** [worker_path.exists()] at that call *)
  worker_exists : nat -> bool;
  (** [proc.returncode] of the worker launched by that call *)
  returncode : nat -> Z
}.

Definition getenv (env : Env) (key dflt : string) : string :=
  default dflt (environ env !! key).

Inductive Msg :=
  | LocalTestMode
  | LocalTestDelay (test_delay_min : string)
  | ProductionMode
  | LockPresent                                  (* Otro proceso está corriendo *)
  | WorkerNotFound
  | WorkerStart (overrides : gmap string string)
  | WorkerDone (rc : Z)
  | FatalStage (max_retries rc : Z) (stage : string)
  | WarnRetry (stage : string) (attempt max_retries sleep_for : Z)
  | Waiting (delay_min : Z)
  | Remaining (s : Z).

Inductive Event :=
  | Log (m : Msg)                                       (* log(msg) *)
  | Popen (env : gmap string string)                    (* the worker process *)
  | Sleep (secs : Z)                                    (* time.sleep(secs) *)
  | RunWorker (overrides : gmap string string) (rc : Z) (* run_worker(overrides) returned rc *).

(** The lock file (its content when it exists), the number of calls of
    [run_worker] so far, and what happened, oldest first. *)
Record World := {
  lock_file : option string;
  calls : nat;
  trace : list Event
}.

Definition emit (ev : Event) (w : World) : World :=
  {| lock_file := lock_file w; calls := calls w; trace := trace w ++ [ev] |}.

Definition log (m : Msg) (w : World) : World := emit (Log m) w.

Definition sleep (secs : Z) (w : World) : World := emit (Sleep secs) w.

Definition acquire_lock (env : Env) (w : World) : World * bool :=
  match lock_file w with
  | Some _ => (w, false)
  | None =>
      ({| lock_file := Some (pretty (getpid env)); calls := calls w; trace := trace w |},
       true)
  end.

Definition release_lock (w : World) : World :=
  {| lock_file := None; calls := calls w; trace := trace w |}.

Definition _redact_env_for_log (env_overrides : gmap string string)
    : gmap string string :=
  map_imap (fun k v =>
    Some (if bool_decide (k ∈ ["SUBJECT"; "SMTP_PASS"; "DB_PASS"])
          then "***redacted***" else v)) env_overrides.

Definition run_worker (env : Env) (env_overrides : gmap string string)
    (w : World) : World * Z :=
  let n := calls w in
  let w := {| lock_file := lock_file w; calls := Datatypes.S n; trace := trace w |} in
  if negb (worker_exists env n) then
    (emit (RunWorker env_overrides 127) (log WorkerNotFound w), 127)
  else
    let w := log (WorkerStart (_redact_env_for_log env_overrides)) w in
    let w := emit (Popen (env_overrides ∪ environ env)) w in
    let rc := returncode env n in
    let w := log (WorkerDone rc) w in
    (emit (RunWorker env_overrides rc) w, rc).

(** [BACKOFF_SECS[min(attempt-1, len(BACKOFF_SECS)-1)]] *)
Definition sleep_for_attempt (attempt : Z) : res Z :=
  getitem BACKOFF_SECS (Z.min (attempt - 1) (Z.of_nat (length BACKOFF_SECS) - 1)).

(** How the body of [for st in stages] is left. *)
Inductive Ctl :=
  | Break
  | Return (rc : Z)
  | Raised (e : exn).

(** The loop [while True] of [main], entered with the current value of
    [attempt]. [fuel] bounds the number of iterations. *)
Fixpoint retry_loop (fuel : nat) (env : Env) (st : Stage)
    (overrides : gmap string string) (attempt : Z) (w : World)
    : option (World * Ctl) :=
  match fuel with
  | O => None
  | Datatypes.S fuel =>
      let '(w, rc) := run_worker env overrides w in
      if rc =? 0 then Some (w, Break)
      else
        let attempt := attempt + 1 in
        if attempt >? MAX_RETRIES env then
          Some (log (FatalStage (MAX_RETRIES env) rc (STAGE st)) w, Return rc)
        else
          match sleep_for_attempt attempt with
          | Py.Raise e => Some (w, Raised e)
          | Ok sleep_for =>
              let w := log (WarnRetry (STAGE st) attempt (MAX_RETRIES env) sleep_for) w in
              retry_loop fuel env st overrides attempt (sleep sleep_for w)
          end
  end.

(** [for s in range(total_sec, 0, -1)] with [n] seconds left. *)
Fixpoint countdown (n : nat) (w : World) : World :=
  match n with
  | O => w
  | Datatypes.S k =>
      let s := Z.of_nat n in
      let w := sleep 1 w in
      let w := if (s mod 10 =? 0) || (s <=? 5) then log (Remaining s) w else w in
      countdown k w
  end.

(** The pause between stages, in local test mode only. *)
Definition pause_after (env : Env) (st : Stage) (w : World) : World * res unit :=
  let LOCAL_TEST_MODE := flag (getenv env "LOCAL_TEST_MODE" "false") in
  let TEST_DELAY_MIN := environ env !! "TEST_DELAY_MIN" in
  if LOCAL_TEST_MODE then
    let delay :=
      match TEST_DELAY_MIN with
      | Some (String c t) => int (String c t)
      | _ => Ok (DELAY_AFTER_MIN st)
      end in
    match delay with
    | Py.Raise e => (w, Py.Raise e)
    | Ok delay_min =>
        if delay_min >? 0 then
          let total_sec := delay_min * 60 in
          (countdown (Z.to_nat total_sec) (log (Waiting delay_min) w), Ok tt)
        else (w, Ok tt)
    end
  else (w, Ok tt).

(** How [main] ends: with a return value or with an exception. *)
Inductive Outcome :=
  | Returned (rc : Z)
  | Failed (e : exn).

(** The loop [for st in stages]. *)
Fixpoint run_stages (fuel : nat) (env : Env) (common_overrides : gmap string string)
    (sts : list Stage) (w : World) : option (World * Outcome) :=
  match sts with
  | [] => Some (w, Returned 0)
  | st :: rest =>
      let overrides := stage_dict st ∪ common_overrides in
      match retry_loop fuel env st overrides 0 w with
      | None => None
      | Some (w, Return rc) => Some (w, Returned rc)
      | Some (w, Raised e) => Some (w, Failed e)
      | Some (w, Break) =>
          match pause_after env st w with
          | (w, Py.Raise e) => Some (w, Failed e)
          | (w, Ok _) => run_stages fuel env common_overrides rest w
          end
      end
  end.

(** Iterations that the retry loop of one stage can need. *)
Definition retry_fuel (env : Env) : nat := Datatypes.S (Z.to_nat (MAX_RETRIES env)).

Definition main (env : Env) (w : World) : option (World * Outcome) :=
  let LOCAL_TEST_MODE := flag (getenv env "LOCAL_TEST_MODE" "false") in
  let TEST_DELAY_MIN := environ env !! "TEST_DELAY_MIN" in
  let w :=
    if LOCAL_TEST_MODE then
      let w := log LocalTestMode w in
      match TEST_DELAY_MIN with
      | Some (String c t) => log (LocalTestDelay (String c t)) w
      | _ => w
      end
    else log ProductionMode w in
  let common_overrides : gmap string string :=
    {[ "MAX_BATCH" := getenv env "MAX_BATCH" "300";
       "SEND_EMAILS" := getenv env "SEND_EMAILS" "false" ]} in
  match acquire_lock env w with
  | (w, false) => Some (log LockPresent w, Returned 0)
  | (w, true) =>
      (* try ... finally: release_lock() *)
      match run_stages (retry_fuel env) env common_overrides stages w with
      | None => None
      | Some (w, out) => Some (release_lock w, out)
      end
  end.

(** [sys.exit(main())]: the exit status of the process, which on a POSIX
    system is the low byte of the value that [main] returns ([rc & 0xFF]:
    247 for the -9 that [Popen.returncode] gives for a worker killed by
    signal 9); an exception that leaves [main] ends the interpreter with
    status 1. *)
Definition exit_status (out : Outcome) : Z :=
  match out with
  | Returned rc => Z.land rc 255
  | Failed _ => 1
  end.

(** *** Reading a trace *)

(** What the call number [n] of [run_worker] returns. *)
Definition call_result (env : Env) (n : nat) : Z :=
  if worker_exists env n then returncode env n else 127.

(** The events of [w'] that are not yet in [w]. *)
Definition new_events (w w' : World) : list Event :=
  drop (length (trace w)) (trace w').

(** The seconds slept, in order. *)
Definition sleeps (tr : list Event) : list Z :=
  omap (fun ev => match ev with Sleep secs => Some secs | _ => None end) tr.

(** The calls of [run_worker], in order: the stage of the overrides and the
    code returned. *)
Definition runs (tr : list Event) : list (option string * Z) :=
  omap (fun ev => match ev with
                  | RunWorker overrides rc => Some (overrides !! "STAGE", rc)
                  | _ => None
                  end) tr.

(** The exception that [int(TEST_DELAY_MIN)] raises in local test mode, if
    it does. *)
Definition test_delay_error (env : Env) : option exn :=
  if flag (getenv env "LOCAL_TEST_MODE" "false") then
    match environ env !! "TEST_DELAY_MIN" with
    | Some (String c t) =>
        match int (String c t) with
        | Py.Raise e => Some e
        | Ok _ => None
        end
    | _ => None
    end
  else None.

(** The calls for the stage [stage] that returned a failure. *)
Definition failures (stage : string) (rs : list (option string * Z)) : list Z :=
  omap (fun r => if bool_decide (r.1 = Some stage) && negb (r.2 =? 0)
                 then Some r.2 else None) rs.

(** The calls of the worker that a run of the stage loop makes, stage by
    stage: a stage is left on a call that returns 0 after failures that its
    budget allowed, or on the failure that uses the budget up, which ends
    the loop. *)
Inductive stages_shape (env : Env)
    : list Stage -> list (option string * Z) -> Outcome -> Prop :=
  | shape_done :
      stages_shape env [] [] (Returned 0)
  | shape_fatal st rest fails rc :
      Forall (fun x => x <> 0) fails ->
      rc <> 0 ->
      MAX_RETRIES env < Z.of_nat (length fails) + 1 ->
      fails = [] \/ Z.of_nat (length fails) <= MAX_RETRIES env ->
      stages_shape env (st :: rest)
        (map (fun x => (Some (STAGE st), x)) (fails ++ [rc])) (Returned rc)
  | shape_pause_error st rest fails e :
      Forall (fun x => x <> 0) fails ->
      fails = [] \/ Z.of_nat (length fails) <= MAX_RETRIES env ->
      test_delay_error env = Some e ->
      stages_shape env (st :: rest)
        (map (fun x => (Some (STAGE st), x)) (fails ++ [0])) (Failed e)
  | shape_next st rest fails rs out :
      Forall (fun x => x <> 0) fails ->
      fails = [] \/ Z.of_nat (length fails) <= MAX_RETRIES env ->
      test_delay_error env = None ->
      stages_shape env rest rs out ->
      stages_shape env (st :: rest)
        (map (fun x => (Some (STAGE st), x)) (fails ++ [0]) ++ rs) out.

(** The environments of the worker processes launched, in order. *)
Definition popens (tr : list Event) : list (gmap string string) :=
  omap (fun ev => match ev with Popen e => Some e | _ => None end) tr.

(** The seconds announced by the lines of a countdown, in order. *)
Definition remaining (tr : list Event) : list Z :=
  omap (fun ev => match ev with Log (Remaining s) => Some s | _ => None end) tr.

(** What the call number [n] of [run_worker] adds to the trace. *)
Definition worker_events (env : Env) (overrides : gmap string string) (n : nat)
    : list Event :=
  if worker_exists env n then
    [Log (WorkerStart (_redact_env_for_log overrides));
     Popen (overrides ∪ environ env);
     Log (WorkerDone (returncode env n));
     RunWorker overrides (returncode env n)]
  else [Log WorkerNotFound; RunWorker overrides 127].

(** The dictionary [common_overrides] of [main]. *)
Definition common_overrides_of (env : Env) : gmap string string :=
  {[ "MAX_BATCH" := getenv env "MAX_BATCH" "300";
     "SEND_EMAILS" := getenv env "SEND_EMAILS" "false" ]}.

(** The minutes of the pause after a stage in local test mode:
    [int(TEST_DELAY_MIN) if TEST_DELAY_MIN else int(st.get("DELAY_AFTER_MIN", 0))]. *)
Definition delay_min_of (env : Env) (st : Stage) : res Z :=
  match environ env !! "TEST_DELAY_MIN" with
  | Some (String c t) => int (String c t)
  | _ => Ok (DELAY_AFTER_MIN st)
  end.

(** The first lines that [main] logs. *)
Definition mode_logs (env : Env) : list Event :=
  if flag (getenv env "LOCAL_TEST_MODE" "false") then
    match environ env !! "TEST_DELAY_MIN" with
    | Some (String c t) => [Log LocalTestMode; Log (LocalTestDelay (String c t))]
    | _ => [Log LocalTestMode]
    end
  else [Log ProductionMode].

(** *** What the worker does, read off the oracle *)

(** The retries that a stage is allowed: max(0, MAX_RETRIES). *)
Definition budget (env : Env) : nat := Z.to_nat (MAX_RETRIES env).

(** A stage entered at the call number [n] succeeds within its budget, at
    its call number [k] (counted from 0): the calls before it fail. *)
Definition succeeds_at (env : Env) (n k : nat) : Prop :=
  (k <= budget env)%nat
  /\ (forall i, (i < k)%nat -> call_result env (n + i)%nat <> 0)
  /\ call_result env (n + k)%nat = 0.

(** A stage entered at the call number [n] exhausts its budget: the first
    call and every retry fail. *)
Definition exhausts (env : Env) (n : nat) : Prop :=
  forall i, (i <= budget env)%nat -> call_result env (n + i)%nat <> 0.

(** The calls number [n] to [n + k], as calls for the stage [label]. *)
Definition attempts (env : Env) (label : string) (n k : nat)
    : list (option string * Z) :=
  map (fun i => (Some label, call_result env (n + i)%nat)) (seq 0 (Datatypes.S k)).

(** The stages [sts], entered one after the other from the call number
    [n], succeed at their calls number [ks]. *)
Fixpoint all_succeed (env : Env) (n : nat) (sts : list Stage) (ks : list nat) : Prop :=
  match sts, ks with
  | [], [] => True
  | _ :: sts, k :: ks =>
      succeeds_at env n k /\ all_succeed env (n + Datatypes.S k)%nat sts ks
  | _, _ => False
  end.

(** The calls made for these stages. *)
Fixpoint attempts_of (env : Env) (n : nat) (sts : list Stage) (ks : list nat)
    : list (option string * Z) :=
  match sts, ks with
  | st :: sts, k :: ks =>
      attempts env (STAGE st) n k ++ attempts_of env (n + Datatypes.S k)%nat sts ks
  | _, _ => []
  end.

(** Their number. *)
Definition calls_made (ks : list nat) : nat :=
  fold_right (fun k m => (Datatypes.S k + m)%nat) 0%nat ks.

End orchestrator.

(** ** Concrete configurations, stores and runs

    The data of the examples below: the stage of 24 hours as the
    orchestrator configures it, and day 20000 after the epoch as "day D". *)

Module Samples.
Import Py datetime.

Definition day_D : Z := 20000.

(** Day [d] at h:m:s.us *)
Definition at_ (d h m s us : Z) : Z := combine d (time h m s us).

Definition cfg_24h : wishlist_reminder.Config :=
  {| wishlist_reminder.STAGE := 24;
     wishlist_reminder.TARGET_HOURS := 24;
     wishlist_reminder.WINDOW_TOLERANCE_H := 6;
     wishlist_reminder.CAMPAIGN_KEY := "wishlist_v1_24h";
     wishlist_reminder.MAX_BATCH := 300;
     wishlist_reminder.SEND_EMAILS := true;
     wishlist_reminder.FIXED_8AM_MODE := false;
     wishlist_reminder.LOCAL_TZ_OFFSET := "-06:00";
     wishlist_reminder.TEMPLATE_FILE := "templates/wishlist_email_24h.html";
     wishlist_reminder.SUBJECT := "Tu reloj favorito te espera ⌚";
     wishlist_reminder.WISHLIST_URL := "https://www.relojescurrenmexico.com.mx" |}.

(** The same stage with a target below its tolerance. *)
Definition cfg_3h : wishlist_reminder.Config :=
  {| wishlist_reminder.STAGE := 3;
     wishlist_reminder.TARGET_HOURS := 3;
     wishlist_reminder.WINDOW_TOLERANCE_H := 6;
     wishlist_reminder.CAMPAIGN_KEY := "wishlist_v1_3h";
     wishlist_reminder.MAX_BATCH := 300;
     wishlist_reminder.SEND_EMAILS := true;
     wishlist_reminder.FIXED_8AM_MODE := false;
     wishlist_reminder.LOCAL_TZ_OFFSET := "-06:00";
     wishlist_reminder.TEMPLATE_FILE := "templates/wishlist_email_24h.html";
     wishlist_reminder.SUBJECT := "Tu reloj favorito te espera ⌚";
     wishlist_reminder.WISHLIST_URL := "https://www.relojescurrenmexico.com.mx" |}.

(** The same stage with the live-send toggle off. *)
Definition cfg_preview : wishlist_reminder.Config :=
  {| wishlist_reminder.STAGE := 24;
     wishlist_reminder.TARGET_HOURS := 24;
     wishlist_reminder.WINDOW_TOLERANCE_H := 6;
     wishlist_reminder.CAMPAIGN_KEY := "wishlist_v1_24h";
     wishlist_reminder.MAX_BATCH := 300;
     wishlist_reminder.SEND_EMAILS := flag "false";
     wishlist_reminder.FIXED_8AM_MODE := false;
     wishlist_reminder.LOCAL_TZ_OFFSET := "-06:00";
     wishlist_reminder.TEMPLATE_FILE := "templates/wishlist_email_24h.html";
     wishlist_reminder.SUBJECT := "Tu reloj favorito te espera ⌚";
     wishlist_reminder.WISHLIST_URL := "https://www.relojescurrenmexico.com.mx" |}.

(** The same stage with a negative batch limit. *)
Definition cfg_negative_batch : wishlist_reminder.Config :=
  {| wishlist_reminder.STAGE := 24;
     wishlist_reminder.TARGET_HOURS := 24;
     wishlist_reminder.WINDOW_TOLERANCE_H := 6;
     wishlist_reminder.CAMPAIGN_KEY := "wishlist_v1_24h";
     wishlist_reminder.MAX_BATCH := -1;
     wishlist_reminder.SEND_EMAILS := true;
     wishlist_reminder.FIXED_8AM_MODE := false;
     wishlist_reminder.LOCAL_TZ_OFFSET := "-06:00";
     wishlist_reminder.TEMPLATE_FILE := "templates/wishlist_email_24h.html";
     wishlist_reminder.SUBJECT := "Tu reloj favorito te espera ⌚";
     wishlist_reminder.WISHLIST_URL := "https://www.relojescurrenmexico.com.mx" |}.

(** The same stage with a negative tolerance. *)
Definition cfg_negative_tolerance : wishlist_reminder.Config :=
  {| wishlist_reminder.STAGE := 24;
     wishlist_reminder.TARGET_HOURS := 24;
     wishlist_reminder.WINDOW_TOLERANCE_H := -6;
     wishlist_reminder.CAMPAIGN_KEY := "wishlist_v1_24h";
     wishlist_reminder.MAX_BATCH := 300;
     wishlist_reminder.SEND_EMAILS := true;
     wishlist_reminder.FIXED_8AM_MODE := false;
     wishlist_reminder.LOCAL_TZ_OFFSET := "-06:00";
     wishlist_reminder.TEMPLATE_FILE := "templates/wishlist_email_24h.html";
     wishlist_reminder.SUBJECT := "Tu reloj favorito te espera ⌚";
     wishlist_reminder.WISHLIST_URL := "https://www.relojescurrenmexico.com.mx" |}.

(** The same stage with a shop address that has no scheme. *)
Definition cfg_bad_url : wishlist_reminder.Config :=
  {| wishlist_reminder.STAGE := 24;
     wishlist_reminder.TARGET_HOURS := 24;
     wishlist_reminder.WINDOW_TOLERANCE_H := 6;
     wishlist_reminder.CAMPAIGN_KEY := "wishlist_v1_24h";
     wishlist_reminder.MAX_BATCH := 300;
     wishlist_reminder.SEND_EMAILS := true;
     wishlist_reminder.FIXED_8AM_MODE := false;
     wishlist_reminder.LOCAL_TZ_OFFSET := "-06:00";
     wishlist_reminder.TEMPLATE_FILE := "templates/wishlist_email_24h.html";
     wishlist_reminder.SUBJECT := "Tu reloj favorito te espera ⌚";
     wishlist_reminder.WISHLIST_URL := "www.relojescurrenmexico.com.mx/" |}.

(** The same stage with slashes at the end of the shop address. *)
Definition cfg_slashes : wishlist_reminder.Config :=
  {| wishlist_reminder.STAGE := 24;
     wishlist_reminder.TARGET_HOURS := 24;
     wishlist_reminder.WINDOW_TOLERANCE_H := 6;
     wishlist_reminder.CAMPAIGN_KEY := "wishlist_v1_24h";
     wishlist_reminder.MAX_BATCH := 300;
     wishlist_reminder.SEND_EMAILS := true;
     wishlist_reminder.FIXED_8AM_MODE := false;
     wishlist_reminder.LOCAL_TZ_OFFSET := "-06:00";
     wishlist_reminder.TEMPLATE_FILE := "templates/wishlist_email_24h.html";
     wishlist_reminder.SUBJECT := "Tu reloj favorito te espera ⌚";
     wishlist_reminder.WISHLIST_URL := "https://www.relojescurrenmexico.com.mx//" |}.

(** The 48 hour stage. *)
Definition cfg_48h : wishlist_reminder.Config :=
  {| wishlist_reminder.STAGE := 48;
     wishlist_reminder.TARGET_HOURS := 48;
     wishlist_reminder.WINDOW_TOLERANCE_H := 6;
     wishlist_reminder.CAMPAIGN_KEY := "wishlist_v1_48h";
     wishlist_reminder.MAX_BATCH := 300;
     wishlist_reminder.SEND_EMAILS := true;
     wishlist_reminder.FIXED_8AM_MODE := false;
     wishlist_reminder.LOCAL_TZ_OFFSET := "-06:00";
     wishlist_reminder.TEMPLATE_FILE := "templates/wishlist_email_48h.html";
     wishlist_reminder.SUBJECT := "Aún estás a tiempo — 10% OFF termina pronto";
     wishlist_reminder.WISHLIST_URL := "https://www.relojescurrenmexico.com.mx" |}.

(** A server whose columns have a case-insensitive collation that ignores
    trailing spaces, on ASCII texts; offsets are read as sign, two digits,
    colon, two digits. *)
Definition collate (s : string) : string :=
  lower (string_of_list_ascii
           (rstrip_by (Ascii.eqb " "%char) (list_ascii_of_string s))).

Definition ci_eq (a b : string) : bool := String.eqb (collate a) (collate b).

Definition digit (c : ascii) : option Z :=
  if (48 <=? code c) && (code c <=? 57) then Some (code c - 48) else None.

Definition offset_of_text (tz : string) : option Z :=
  match list_ascii_of_string tz with
  | [sg; h1; h2; colon; m1; m2] =>
      match digit h1, digit h2, digit m1, digit m2 with
      | Some a, Some b, Some c, Some d =>
          let v := timedelta 0 (10 * a + b) (10 * c + d) in
          if negb (Ascii.eqb colon ":"%char) then None
          else if Ascii.eqb sg "-"%char then Some (- v)
          else if Ascii.eqb sg "+"%char then Some v
          else None
      | _, _, _, _ => None
      end
  | _ => None
  end.

Definition ci_store : wishlist_reminder.Store :=
  {| wishlist_reminder.email_eq := ci_eq;
     wishlist_reminder.key_eq := ci_eq;
     wishlist_reminder.convert_tz := fun dt tz =>
       match offset_of_text tz with
       | Some off => Some (dt - off)
       | None => None
       end |}.

(** A server whose columns have a binary collation. *)
Definition binary_store : wishlist_reminder.Store :=
  {| wishlist_reminder.email_eq := String.eqb;
     wishlist_reminder.key_eq := String.eqb;
     wishlist_reminder.convert_tz := fun dt tz =>
       match offset_of_text tz with
       | Some off => Some (dt - off)
       | None => None
       end |}.

Lemma ci_store_laws : wishlist_reminder.StoreLaws ci_store.
Proof.
  split; cbn; unfold ci_eq; intros.
  - apply String.eqb_refl.
  - apply String.eqb_sym.
  - apply String.eqb_eq in H, H0. apply String.eqb_eq. congruence.
  - apply String.eqb_refl.
  - apply String.eqb_sym.
  - apply String.eqb_eq in H, H0. apply String.eqb_eq. congruence.
Qed.

Definition guest (email : string) (wishlist_id created_at : Z)
    : wishlist_reminder.GuestEmail :=
  {| wishlist_reminder.ge_email := email;
     wishlist_reminder.ge_wishlist_id := wishlist_id;
     wishlist_reminder.ge_created_at := created_at |}.

Definition item (id wishlist_id product_id : Z) : wishlist_reminder.Item :=
  {| wishlist_reminder.it_ID := id;
     wishlist_reminder.it_wishlist_id := wishlist_id;
     wishlist_reminder.it_product_id := product_id |}.

Definition wlist (id : Z) : wishlist_reminder.WList :=
  {| wishlist_reminder.wl_ID := id |}.

Definition row (email : string) (wishlist_id : Z) : wishlist_reminder.Row :=
  {| wishlist_reminder.email := email; wishlist_reminder.wishlist_id := wishlist_id |}.

(** Two guests who saved their wishlists on day D-1, at 10:00 and at 11:00
    local time; nothing sent yet. *)
Definition db_two : wishlist_reminder.DB :=
  {| wishlist_reminder.guest_emails :=
       [guest "ana@example.com" 7 (at_ (day_D - 1) 10 0 0 0);
        guest "luis@example.com" 8 (at_ (day_D - 1) 11 0 0 0)];
     wishlist_reminder.lists := [wlist 7; wlist 8];
     wishlist_reminder.items := [item 1 7 501; item 2 8 502; item 3 8 503];
     wishlist_reminder.email_log := [] |}.

(** One guest whose address was stored with a space in front. *)
Definition db_space : wishlist_reminder.DB :=
  {| wishlist_reminder.guest_emails :=
       [guest " ana@example.com" 7 (at_ (day_D - 1) 10 0 0 0)];
     wishlist_reminder.lists := [wlist 7];
     wishlist_reminder.items := [item 1 7 501];
     wishlist_reminder.email_log := [] |}.

(** One guest whose address was stored with capital letters and with a
    space at each end. *)
Definition db_mixed : wishlist_reminder.DB :=
  {| wishlist_reminder.guest_emails :=
       [guest " Ana@Example.COM " 7 (at_ (day_D - 1) 10 0 0 0)];
     wishlist_reminder.lists := [wlist 7];
     wishlist_reminder.items := [item 1 7 501];
     wishlist_reminder.email_log := [] |}.

(** An address with a no-break space (U+00A0) at its end. *)
Definition ana_nbsp : string :=
  ("ana@example.com" ++ String (ascii_of_nat 160) EmptyString)%string.

(** One guest whose address was stored with a no-break space at its end. *)
Definition db_nbsp : wishlist_reminder.DB :=
  {| wishlist_reminder.guest_emails := [guest ana_nbsp 7 (at_ (day_D - 1) 10 0 0 0)];
     wishlist_reminder.lists := [wlist 7];
     wishlist_reminder.items := [item 1 7 501];
     wishlist_reminder.email_log := [] |}.

(** One guest whose address was stored with capital letters. *)
Definition db_upper : wishlist_reminder.DB :=
  {| wishlist_reminder.guest_emails :=
       [guest "Ana@Example.com" 7 (at_ (day_D - 1) 10 0 0 0)];
     wishlist_reminder.lists := [wlist 7];
     wishlist_reminder.items := [item 1 7 501];
     wishlist_reminder.email_log := [] |}.

(** One guest who saved the wishlist at local midnight of day D-1, which is
    D-1 06:00:00 UTC. *)
Definition db_edge : wishlist_reminder.DB :=
  {| wishlist_reminder.guest_emails :=
       [guest "eva@example.com" 9 (at_ (day_D - 1) 0 0 0 0)];
     wishlist_reminder.lists := [wlist 9];
     wishlist_reminder.items := [item 4 9 504];
     wishlist_reminder.email_log := [] |}.

(** The products of [db_two]: product 503 has a title and a picture,
    product 502 has neither. *)
Definition shop_two : wishlist_reminder.Shop :=
  {| wishlist_reminder.postmeta :=
       [ {| wishlist_reminder.pm_post_id := 503;
            wishlist_reminder.pm_meta_key := "_thumbnail_id";
            wishlist_reminder.pm_meta_value := Some "900" |};
         {| wishlist_reminder.pm_post_id := 502;
            wishlist_reminder.pm_meta_key := "_thumbnail_id";
            wishlist_reminder.pm_meta_value := None |} ];
     wishlist_reminder.posts :=
       [ {| wishlist_reminder.post_ID := 503;
            wishlist_reminder.post_guid := Some "https://www.relojescurrenmexico.com.mx/?p=503";
            wishlist_reminder.post_title := Some "Curren 8329" |};
         {| wishlist_reminder.post_ID := 900;
            wishlist_reminder.post_guid :=
              Some "https://www.relojescurrenmexico.com.mx/wp-content/uploads/8329.jpg";
            wishlist_reminder.post_title := Some "8329" |} ] |}.

(** The same shop with a thumbnail id that is no number. *)
Definition shop_bad_thumbnail : wishlist_reminder.Shop :=
  {| wishlist_reminder.postmeta :=
       [ {| wishlist_reminder.pm_post_id := 503;
            wishlist_reminder.pm_meta_key := "_thumbnail_id";
            wishlist_reminder.pm_meta_value := Some "x900" |} ];
     wishlist_reminder.posts := [] |}.

(** The default of PLACEHOLDER_IMG. *)
Definition placeholder_img : string :=
  "https://via.placeholder.com/300x300?text=Producto".

Definition world_of (d : wishlist_reminder.DB) : wishlist_reminder.World :=
  {| wishlist_reminder.db := d;
     wishlist_reminder.smtp_calls := [];
     wishlist_reminder.stdout := [] |}.

(** A run at day D 12:00 UTC in which nothing fails. *)
Definition env_fine : wishlist_reminder.Env :=
  {| wishlist_reminder.env_now_utc := at_ day_D 12 0 0 0;
     wishlist_reminder.env_load_template := Ok "<html>{{PRODUCTS}}</html>";
     wishlist_reminder.env_mysql_conn := Ok tt;
     wishlist_reminder.env_select_fault := None;
     wishlist_reminder.env_render_products_html := fun _ _ => Ok "<table></table>";
     wishlist_reminder.env_urlparse := fun _ => ("https", "www.relojescurrenmexico.com.mx");
     wishlist_reminder.env_year := 2024;
     wishlist_reminder.env_LOGO_URL := None;
     wishlist_reminder.env_smtp := fun _ _ => Ok "<1@example.com>";
     wishlist_reminder.env_insert_fault := fun _ => None;
     wishlist_reminder.env_utc_timestamp := fun _ => at_ day_D 12 0 1 0 |}.

(** The same run, except that rendering fails for the first candidate: the
    thumbnail id of one of its products is no number. *)
Definition env_render_fails_first : wishlist_reminder.Env :=
  {| wishlist_reminder.env_now_utc := at_ day_D 12 0 0 0;
     wishlist_reminder.env_load_template := Ok "<html>{{PRODUCTS}}</html>";
     wishlist_reminder.env_mysql_conn := Ok tt;
     wishlist_reminder.env_select_fault := None;
     wishlist_reminder.env_render_products_html := fun i _ =>
       match i with O => Raise ValueError | _ => Ok "<table></table>" end;
     wishlist_reminder.env_urlparse := fun _ => ("https", "www.relojescurrenmexico.com.mx");
     wishlist_reminder.env_year := 2024;
     wishlist_reminder.env_LOGO_URL := None;
     wishlist_reminder.env_smtp := fun _ _ => Ok "<1@example.com>";
     wishlist_reminder.env_insert_fault := fun _ => None;
     wishlist_reminder.env_utc_timestamp := fun _ => at_ day_D 12 0 1 0 |}.

(** The same run, except that the SMTP server refuses the first message. *)
Definition env_smtp_fails_first : wishlist_reminder.Env :=
  {| wishlist_reminder.env_now_utc := at_ day_D 12 0 0 0;
     wishlist_reminder.env_load_template := Ok "<html>{{PRODUCTS}}</html>";
     wishlist_reminder.env_mysql_conn := Ok tt;
     wishlist_reminder.env_select_fault := None;
     wishlist_reminder.env_render_products_html := fun _ _ => Ok "<table></table>";
     wishlist_reminder.env_urlparse := fun _ => ("https", "www.relojescurrenmexico.com.mx");
     wishlist_reminder.env_year := 2024;
     wishlist_reminder.env_LOGO_URL := None;
     wishlist_reminder.env_smtp := fun i _ =>
       match i with O => Raise SMTPError | _ => Ok "<2@example.com>" end;
     wishlist_reminder.env_insert_fault := fun _ => None;
     wishlist_reminder.env_utc_timestamp := fun _ => at_ day_D 12 0 1 0 |}.

(** The same run for a shop address in which [urlparse] finds no scheme
    and no host. *)
Definition env_bad_url : wishlist_reminder.Env :=
  {| wishlist_reminder.env_now_utc := at_ day_D 12 0 0 0;
     wishlist_reminder.env_load_template := Ok "<html>{{PRODUCTS}}</html>";
     wishlist_reminder.env_mysql_conn := Ok tt;
     wishlist_reminder.env_select_fault := None;
     wishlist_reminder.env_render_products_html := fun _ _ => Raise RuntimeError;
     wishlist_reminder.env_urlparse := fun _ => ("", "");
     wishlist_reminder.env_year := 2024;
     wishlist_reminder.env_LOGO_URL := None;
     wishlist_reminder.env_smtp := fun _ _ => Ok "<1@example.com>";
     wishlist_reminder.env_insert_fault := fun _ => None;
     wishlist_reminder.env_utc_timestamp := fun _ => at_ day_D 12 0 1 0 |}.

(** An orchestrator whose worker fails twice and then succeeds. *)
Definition env_fails_twice : orchestrator.Env :=
  {| orchestrator.getpid := 4242;
     orchestrator.environ := ∅;
     orchestrator.MAX_RETRIES := 2;
     orchestrator.worker_exists := fun _ => true;
     orchestrator.returncode := fun n => if (n <? 2)%nat then 1 else 0 |}.

(** An orchestrator whose worker always exits with status 3. *)
Definition env_always_fails : orchestrator.Env :=
  {| orchestrator.getpid := 4242;
     orchestrator.environ := ∅;
     orchestrator.MAX_RETRIES := 2;
     orchestrator.worker_exists := fun _ => true;
     orchestrator.returncode := fun _ => 3 |}.

(** An orchestrator whose worker is killed by signal 9 at every call. *)
Definition env_killed : orchestrator.Env :=
  {| orchestrator.getpid := 4242;
     orchestrator.environ := ∅;
     orchestrator.MAX_RETRIES := 2;
     orchestrator.worker_exists := fun _ => true;
     orchestrator.returncode := fun _ => -9 |}.

(** No lock file, nothing done yet. *)
Definition world_free : orchestrator.World :=
  {| orchestrator.lock_file := None;
     orchestrator.calls := 0;
     orchestrator.trace := [] |}.

(** An orchestrator in local test mode with a pause of one minute after
    every stage; the worker succeeds. *)
Definition env_test_mode : orchestrator.Env :=
  {| orchestrator.getpid := 4242;
     orchestrator.environ :=
       {[ "LOCAL_TEST_MODE" := "true"; "TEST_DELAY_MIN" := "1" ]};
     orchestrator.MAX_RETRIES := 2;
     orchestrator.worker_exists := fun _ => true;
     orchestrator.returncode := fun _ => 0 |}.

(** The same with a delay that is no number. *)
Definition env_bad_delay : orchestrator.Env :=
  {| orchestrator.getpid := 4242;
     orchestrator.environ :=
       {[ "LOCAL_TEST_MODE" := " True"; "TEST_DELAY_MIN" := "dos" ]};
     orchestrator.MAX_RETRIES := 2;
     orchestrator.worker_exists := fun _ => true;
     orchestrator.returncode := fun _ => 0 |}.

(** A production orchestrator whose environment holds settings of its own,
    a credential, a stray [STAGE] and the address of the shop. *)
Definition env_live : orchestrator.Env :=
  {| orchestrator.getpid := 4242;
     orchestrator.environ :=
       {[ "SEND_EMAILS" := "true"; "MAX_BATCH" := "50";
          "SMTP_PASS" := "secret"; "STAGE" := "99";
          "WISHLIST_URL" := "https://www.relojescurrenmexico.com.mx" ]};
     orchestrator.MAX_RETRIES := 2;
     orchestrator.worker_exists := fun _ => true;
     orchestrator.returncode := fun _ => 0 |}.

End Samples.

(** * Properties *)

(** ** Time windows *)

Section Windows.
Import Py datetime wishlist_reminder Samples.

Lemma timedelta_hours (h : Z) : timedelta 0 h 0 = h * US_PER_HOUR.
Proof. unfold timedelta. lia. Qed.

(** C4. In relative mode the window is (now - (T+W)h, now - (T-W)h): it is
    2W hours wide whatever the configuration, it moves by exactly [dt] when
    [now] moves by [dt], and with T < W its end lies after [now], as
    computed. *)
Theorem relative_window_arithmetic (cfg : Config) (now dt : Z) :
  let T := TARGET_HOURS cfg in
  let W := WINDOW_TOLERANCE_H cfg in
  let win := stage_window_bounds_relative cfg now in
  win = (now - (T + W) * US_PER_HOUR, now - (T - W) * US_PER_HOUR)
  /\ win.2 - win.1 = 2 * W * US_PER_HOUR
  /\ stage_window_bounds_relative cfg (now + dt) = (win.1 + dt, win.2 + dt)
  /\ (T < W -> now < win.2 /\ win.2 = now + (W - T) * US_PER_HOUR)
  /\ (FIXED_8AM_MODE cfg = false ->
      compute_window cfg now = Ok (win.1, win.2, "relative")).
Proof.
  cbv zeta. unfold compute_window, stage_window_bounds_relative.
  rewrite !timedelta_hours. cbn [fst snd].
  repeat split.
  - unfold US_PER_HOUR, US_PER_SECOND. lia.
  - f_equal; lia.
  - unfold US_PER_HOUR, US_PER_SECOND. lia.
  - lia.
  - intros ->. reflexivity.
Qed.

Lemma relative_window_arithmetic_witness :
  at_ day_D 12 0 0 0 < (stage_window_bounds_relative cfg_3h (at_ day_D 12 0 0 0)).2
  /\ compute_window cfg_3h (at_ day_D 12 0 0 0)
     = Ok (at_ day_D 3 0 0 0, at_ day_D 15 0 0 0, "relative").
Proof.
  pose proof (relative_window_arithmetic cfg_3h (at_ day_D 12 0 0 0) 0) as H.
  cbv zeta in H. destruct H as (_ & _ & _ & Hend & Hcw).
  split.
  - apply Hend. vm_compute. reflexivity.
  - rewrite Hcw by reflexivity. reflexivity.
Defined.

(** The scenario of the specification: T = 24, W = 6, now = day D 12:00 UTC
    gives the window from D-1 06:00 to D-1 18:00. *)
Example relative_window_scenario :
  stage_window_bounds_relative cfg_24h (at_ day_D 12 0 0 0)
  = (at_ (day_D - 1) 6 0 0 0, at_ (day_D - 1) 18 0 0 0).
Proof. reflexivity. Qed.

Lemma day_bounds_eq (now T : Z) (tz : string) (off : Z) :
  parse_tz_offset_to_delta tz = Ok off ->
  day_bounds_utc_for_target_fixed_8am now T tz
  = Ok (combine (date (now + off) - days_back T) (time 0 0 0 0) - off,
        combine (date (now + off) - days_back T) (time 23 59 59 999999) - off).
Proof.
  intros Hp. unfold day_bounds_utc_for_target_fixed_8am. rewrite Hp. reflexivity.
Qed.

(** C5, as the code has it. With the offset text read as [off], the fixed
    local day mode goes back days_back = max(1, floor(T/24)) days (1, 2, 3
    for T = 24, 48, 72) from the local date of [now] and returns the UTC
    instants of 00:00:00.000000 and of 23:59:59.999999 of that local date,
    the last microsecond of the day; the result is the same for every [now]
    of one local day. *)
Theorem fixed_local_day_window (now T : Z) (tz : string) (off : Z) :
  parse_tz_offset_to_delta tz = Ok off ->
  let day := date (now + off) - days_back T in
  days_back T = Z.max 1 (T / 24)
  /\ days_back 24 = 1 /\ days_back 48 = 2 /\ days_back 72 = 3
  /\ day_bounds_utc_for_target_fixed_8am now T tz
     = Ok (combine day (time 0 0 0 0) - off, combine day (time 23 59 59 999999) - off)
  /\ (forall now', date (now' + off) = date (now + off) ->
      day_bounds_utc_for_target_fixed_8am now' T tz
      = day_bounds_utc_for_target_fixed_8am now T tz).
Proof.
  intros Hp day. repeat split.
  - apply day_bounds_eq, Hp.
  - intros now' Hd. rewrite !(day_bounds_eq _ _ _ _ Hp), Hd. reflexivity.
Qed.

Lemma fixed_local_day_window_witness :
  day_bounds_utc_for_target_fixed_8am (at_ day_D 9 0 0 0) 24 "-06:00"
  = Ok (at_ (day_D - 1) 6 0 0 0, at_ day_D 5 59 59 999999)
  /\ day_bounds_utc_for_target_fixed_8am (at_ day_D 23 30 0 0) 24 "-06:00"
     = day_bounds_utc_for_target_fixed_8am (at_ day_D 9 0 0 0) 24 "-06:00".
Proof.
  assert (Hp : parse_tz_offset_to_delta "-06:00" = Ok (- (6 * US_PER_HOUR)))
    by (vm_compute; reflexivity).
  pose proof (fixed_local_day_window (at_ day_D 9 0 0 0) 24 "-06:00" _ Hp) as H.
  cbv zeta in H. destruct H as (_ & _ & _ & _ & Hb & Hs).
  split.
  - rewrite Hb. vm_compute. reflexivity.
  - apply Hs. vm_compute. reflexivity.
Defined.

(** C5, as the specification words it, fails on the end of the day: for
    T = 24, offset -06:00 and now = D 09:00 UTC the code returns
    D 05:59:59.999999 UTC, which is 23:59:59.999999 local, and not the
    instant of 23:59:59.999 local. And not every offset text gives a
    window: "0600" raises ValueError. *)
Lemma fixed_local_day_end_is_not_999_milliseconds :
  exists s e,
    day_bounds_utc_for_target_fixed_8am (at_ day_D 9 0 0 0) 24 "-06:00" = Ok (s, e)
    /\ s = at_ (day_D - 1) 0 0 0 0 + 6 * US_PER_HOUR
    /\ e = at_ (day_D - 1) 23 59 59 999999 + 6 * US_PER_HOUR
    /\ e <> at_ (day_D - 1) 23 59 59 999000 + 6 * US_PER_HOUR
    /\ day_bounds_utc_for_target_fixed_8am (at_ day_D 9 0 0 0) 24 "0600"
       = Raise ValueError.
Proof.
  eexists _, _. split; [vm_compute; reflexivity|].
  repeat split; vm_compute; congruence.
Qed.

(** In fixed mode [compute_window] is that window, and it raises when the
    offset text cannot be read. *)
Lemma compute_window_fixed (cfg : Config) (now : Z) :
  FIXED_8AM_MODE cfg = true ->
  compute_window cfg now
  = match day_bounds_utc_for_target_fixed_8am now (TARGET_HOURS cfg) (LOCAL_TZ_OFFSET cfg) with
    | Ok (s, e) => Ok (s, e, "fixed_8am")
    | Raise e => Raise e
    end.
Proof.
  intros Hm. unfold compute_window. rewrite Hm.
  destruct (day_bounds_utc_for_target_fixed_8am _ _ _) as [[s e]|e]; reflexivity.
Qed.

End Windows.

(** ** The orchestrator *)

Section Orchestrator.
Import Py orchestrator Samples.

Lemma sleeps_app (a b : list Event) : sleeps (a ++ b) = sleeps a ++ sleeps b.
Proof. apply omap_app. Qed.

Lemma runs_app (a b : list Event) : runs (a ++ b) = runs a ++ runs b.
Proof. apply omap_app. Qed.

Lemma new_events_app (w w' : World) (evs : list Event) :
  trace w' = trace w ++ evs -> new_events w w' = evs.
Proof. intros H. unfold new_events. rewrite H. apply drop_app_length. Qed.

(** One call of [run_worker]: it returns what the call yields, counts the
    call, records it, and neither sleeps nor touches the lock. *)
Lemma run_worker_spec (env : Env) (ov : gmap string string) (w : World) :
  exists evs,
    run_worker env ov w
    = ({| lock_file := lock_file w; calls := Datatypes.S (calls w);
          trace := trace w ++ evs |}, call_result env (calls w))
    /\ runs evs = [(ov !! "STAGE", call_result env (calls w))]
    /\ sleeps evs = [].
Proof.
  unfold run_worker, call_result.
  destruct (worker_exists env (calls w)); cbn [negb].
  - eexists [_; _; _; _]. unfold log, emit; cbn [trace lock_file calls].
    rewrite <- !app_assoc. cbn [app]. split; [reflexivity|]. split; reflexivity.
  - eexists [_; _]. unfold log, emit; cbn [trace lock_file calls].
    rewrite <- !app_assoc. cbn [app]. split; [reflexivity|]. split; reflexivity.
Qed.

Lemma sleep_for_attempt_pos (k : Z) :
  1 <= k -> sleep_for_attempt k = Ok (if k =? 1 then 10 else 30).
Proof.
  intros Hk. unfold sleep_for_attempt, getitem, BACKOFF_SECS. cbn [length].
  destruct (Z.eqb_spec k 1) as [->|Hne]; [reflexivity|].
  replace (Z.min (k - 1) (Z.of_nat 2 - 1)) with 1 by lia. reflexivity.
Qed.

Ltac world_simpl :=
  repeat (unfold sleep, log, emit in *; cbn [trace lock_file calls] in * ).

(** What one run of the retry loop of a stage does, entered with [attempt]:
    it calls the worker [n + 1] times, the first [n] calls fail and are each
    followed by one sleep, read from the backoff table at the number of the
    retry; the loop is left by [break] on a call that returns 0, or by
    [return rc] on a failing call that finds the budget used up. *)
Lemma retry_loop_spec (env : Env) (st : Stage) (ov : gmap string string) (fuel : nat) :
  forall (attempt : Z) (w w' : World) (c : Ctl),
    0 <= attempt ->
    retry_loop fuel env st ov attempt w = Some (w', c) ->
    exists (evs : list Event) (n : nat),
      trace w' = trace w ++ evs
      /\ lock_file w' = lock_file w
      /\ calls w' = (calls w + Datatypes.S n)%nat
      /\ runs evs = map (fun i => (ov !! "STAGE", call_result env (calls w + i)%nat))
                        (seq 0 (Datatypes.S n))
      /\ (forall i, (i < n)%nat -> call_result env (calls w + i)%nat <> 0)
      /\ length (sleeps evs) = n
      /\ (forall j d, sleeps evs !! j = Some d ->
                      sleep_for_attempt (attempt + Z.of_nat j + 1) = Ok d)
      /\ (n = 0%nat \/ attempt + Z.of_nat n <= MAX_RETRIES env)
      /\ match c with
         | Break => call_result env (calls w + n)%nat = 0
         | Return rc => rc = call_result env (calls w + n)%nat /\ rc <> 0
                        /\ MAX_RETRIES env < attempt + Z.of_nat n + 1
         | Raised _ => False
         end.
Proof.
  induction fuel as [|fuel IH]; intros attempt w w' c Hatt Hrun; [discriminate|].
  cbn [retry_loop] in Hrun.
  destruct (run_worker_spec env ov w) as (evs1 & Hw1 & Hruns1 & Hsl1).
  rewrite Hw1 in Hrun.
  destruct (Z.eqb_spec (call_result env (calls w)) 0) as [Hz|Hnz].
  - (* break *)
    injection Hrun as <- <-. exists evs1, 0%nat. cbn [trace lock_file calls].
    rewrite Hsl1, Hruns1. cbn [seq map length]. rewrite !Nat.add_0_r.
    repeat split; auto; try lia.
    intros j d Hj. rewrite lookup_nil in Hj. discriminate.
  - destruct (attempt + 1 >? MAX_RETRIES env) eqn:Hgt.
    + (* the budget is used up *)
      injection Hrun as <- <-.
      exists (evs1 ++ [Log (FatalStage (MAX_RETRIES env) (call_result env (calls w)) (STAGE st))]), 0%nat.
      world_simpl. rewrite sleeps_app, runs_app, Hsl1, Hruns1.
      cbn. rewrite !Nat.add_0_r.
      repeat split; auto; try lia.
      * rewrite <- app_assoc. reflexivity.
      * intros j d Hj. rewrite lookup_nil in Hj. discriminate.
    + (* one more attempt *)
      assert (Hle : attempt + 1 <= MAX_RETRIES env) by lia.
      rewrite (sleep_for_attempt_pos (attempt + 1)) in Hrun by lia.
      apply IH in Hrun; [|lia].
      destruct Hrun as (evs & n & Htr & Hlock & Hcalls & Hruns & Hfail & Hlen & Hsl & Hbud & Hc).
      world_simpl.
      set (d := if attempt + 1 =? 1 then 10 else 30) in *.
      exists (evs1 ++ [Log (WarnRetry (STAGE st) (attempt + 1) (MAX_RETRIES env) d); Sleep d] ++ evs),
             (Datatypes.S n).
      rewrite !sleeps_app, !runs_app, Hsl1, Hruns1, Hruns.
      cbn [app sleeps runs omap list_omap length].
      repeat split.
      * rewrite Htr, <- !app_assoc. reflexivity.
      * exact Hlock.
      * lia.
      * rewrite <- (cons_seq (Datatypes.S n) 0), <- seq_shift.
        cbn [map]. rewrite Nat.add_0_r. f_equal.
        rewrite map_map. apply map_ext. intros i.
        do 2 f_equal. lia.
      * intros [|i] Hi; [rewrite Nat.add_0_r; exact Hnz|].
        replace (calls w + Datatypes.S i)%nat with (Datatypes.S (calls w) + i)%nat by lia.
        apply Hfail. lia.
      * cbn. rewrite Hlen. reflexivity.
      * intros [|j] d' Hj.
        -- injection Hj as <-. rewrite sleep_for_attempt_pos by lia.
           replace (attempt + Z.of_nat 0 + 1) with (attempt + 1) by lia. reflexivity.
        -- cbn in Hj. apply Hsl in Hj. rewrite <- Hj. f_equal. lia.
      * right. lia.
      * replace (calls w + Datatypes.S n)%nat with (Datatypes.S (calls w) + n)%nat by lia.
        destruct c as [|rc|e]; [exact Hc| |exact Hc].
        destruct Hc as (? & ? & ?). repeat split; auto. lia.
Qed.

(** The loop ends within the iterations its budget allows. *)
Lemma retry_loop_total (env : Env) (st : Stage) (ov : gmap string string) (fuel : nat) :
  forall (attempt : Z) (w : World),
    0 <= attempt ->
    (Z.to_nat (MAX_RETRIES env - attempt) < fuel)%nat ->
    exists w' c, retry_loop fuel env st ov attempt w = Some (w', c).
Proof.
  induction fuel as [|fuel IH]; intros attempt w Hatt Hfuel; [lia|].
  cbn [retry_loop].
  destruct (run_worker_spec env ov w) as (evs1 & Hw1 & _). rewrite Hw1.
  destruct (call_result env (calls w) =? 0); [eauto|].
  destruct (attempt + 1 >? MAX_RETRIES env) eqn:Hgt; [eauto|].
  rewrite (sleep_for_attempt_pos (attempt + 1)) by lia.
  apply IH; lia.
Qed.

(** C6. The retry loop of a stage always ends, by [break] or by [return],
    and the sleep before retry number k is the entry of [10, 30] at index
    min(k-1, 1): 10, then 30, then 30 again. With at most 2 retries, a worker
    that fails twice and then succeeds is run exactly 3 times with sleeps of
    10 and 30 seconds; a worker that always fails is run exactly
    MAX_RETRIES + 1 times (MAX_RETRIES being a count, not negative), with
    MAX_RETRIES sleeps, and the loop returns its last exit code, which is
    not 0. *)
Theorem retry_backoff_schedule (env : Env) (st : Stage) (ov : gmap string string)
    (w : World) :
  (exists w' c,
      retry_loop (retry_fuel env) env st ov 0 w = Some (w', c)
      /\ (forall e, c <> Raised e)
      /\ (forall (j : nat) d, sleeps (new_events w w') !! j = Some d ->
           sleep_for_attempt (Z.of_nat j + 1) = Ok d))
  /\ (sleep_for_attempt 1 = Ok 10
      /\ forall k, 2 <= k -> sleep_for_attempt k = Ok 30)
  /\ (MAX_RETRIES env = 2 ->
      call_result env (calls w) <> 0 ->
      call_result env (calls w + 1)%nat <> 0 ->
      call_result env (calls w + 2)%nat = 0 ->
      exists w',
        retry_loop (retry_fuel env) env st ov 0 w = Some (w', Break)
        /\ length (runs (new_events w w')) = 3%nat
        /\ sleeps (new_events w w') = [10; 30])
  /\ (0 <= MAX_RETRIES env ->
      (forall n, call_result env n <> 0) ->
      exists w' rc,
        retry_loop (retry_fuel env) env st ov 0 w = Some (w', Return rc)
        /\ rc <> 0
        /\ Z.of_nat (length (runs (new_events w w'))) = MAX_RETRIES env + 1
        /\ Z.of_nat (length (sleeps (new_events w w'))) = MAX_RETRIES env).
Proof.
  destruct (retry_loop_total env st ov (retry_fuel env) 0 w) as (w' & c & Hrun);
    [lia | unfold retry_fuel; lia |].
  destruct (retry_loop_spec env st ov _ _ _ _ _ (Z.le_refl 0) Hrun)
    as (evs & n & Htr & _ & _ & Hruns & Hfail & Hlen & Hsl & Hbud & Hc).
  pose proof (new_events_app _ _ _ Htr) as Hne. rewrite Hrun.
  assert (Hrl : length (runs evs) = Datatypes.S n)
    by (rewrite Hruns, length_map, length_seq; reflexivity).
  split; [|split; [|split]].
  - exists w', c. rewrite Hne. split; [reflexivity|]. split.
    + intros e ->. exact Hc.
    + intros j d Hj. apply Hsl in Hj. exact Hj.
  - split; [reflexivity|]. intros k Hk. rewrite sleep_for_attempt_pos by lia.
    destruct (Z.eqb_spec k 1); [lia|reflexivity].
  - intros Hmax Hf0 Hf1 Hok2.
    assert (Hn : n = 2%nat).
    { destruct (Nat.lt_trichotomy n 2) as [Hlt|[Heq|Hgt]]; [|exact Heq|].
      - exfalso. destruct c as [|rc|e]; [| |exact Hc].
        + destruct n as [|[|n]]; [|rewrite Hc in Hf1|lia].
          * rewrite Nat.add_0_r in Hc. 
            apply Hf0; exact Hc.
          * apply Hf1; reflexivity.
        + destruct Hc as (_ & _ & Hc). lia.
      - exfalso. apply (Hfail 2%nat); [lia | exact Hok2]. }
    revert Hn. intros ->. exists w'. rewrite Hne. destruct c as [|rc|e]; [| |destruct Hc].
    + split; [reflexivity|]. split; [exact Hrl|].
      destruct (sleeps evs) as [|d0 [|d1 [|d2 l]]] eqn:Hs; try discriminate Hlen.
      pose proof (Hsl 0%nat d0 eq_refl) as H0.
      pose proof (Hsl 1%nat d1 eq_refl) as H1.
      cbn in H0, H1. injection H0 as <-. injection H1 as <-. reflexivity.
    + destruct Hc as (-> & Hnz & _). exfalso. apply Hnz, Hok2.
  - intros Hmax Hall.
    destruct c as [|rc|e]; [exfalso; apply (Hall _ Hc)| |destruct Hc].
    exists w', rc. rewrite Hne. destruct Hc as (_ & Hnz & Hgt).
    split; [reflexivity|]. split; [exact Hnz|].
    rewrite Hrl, Hlen. lia.
Qed.

Lemma retry_backoff_schedule_witness :
  (exists w',
      retry_loop (retry_fuel env_fails_twice) env_fails_twice stage_24
        (stage_dict stage_24) 0 world_free = Some (w', Break)
      /\ length (runs (new_events world_free w')) = 3%nat
      /\ sleeps (new_events world_free w') = [10; 30])
  /\ (exists w' rc,
      retry_loop (retry_fuel env_always_fails) env_always_fails stage_24
        (stage_dict stage_24) 0 world_free = Some (w', Return rc)
      /\ rc <> 0
      /\ Z.of_nat (length (runs (new_events world_free w'))) = 3
      /\ Z.of_nat (length (sleeps (new_events world_free w'))) = 2).
Proof.
  split.
  - apply (retry_backoff_schedule env_fails_twice stage_24 (stage_dict stage_24) world_free).
    + reflexivity.
    + vm_compute. discriminate.
    + vm_compute. discriminate.
    + vm_compute. reflexivity.
  - apply (retry_backoff_schedule env_always_fails stage_24 (stage_dict stage_24) world_free).
    + vm_compute. discriminate.
    + intros n. vm_compute. discriminate.
Defined.

(** *** The lock *)




(** *** The pipeline *)

Lemma stage_label (st : Stage) (common : gmap string string) :
  (stage_dict st ∪ common) !! "STAGE" = Some (STAGE st).
Proof. apply lookup_union_Some_l. reflexivity. Qed.

Lemma countdown_spec (n : nat) :
  forall w, exists evs,
    countdown n w = {| lock_file := lock_file w; calls := calls w; trace := trace w ++ evs |}
    /\ runs evs = [].
Proof.
  induction n as [|n IH]; intros w.
  - exists []. rewrite app_nil_r. destruct w; auto.
  - cbn [countdown].
    destruct ((Z.of_nat (Datatypes.S n) mod 10 =? 0) || (Z.of_nat (Datatypes.S n) <=? 5)).
    + destruct (IH (log (Remaining (Z.of_nat (Datatypes.S n))) (sleep 1 w))) as (evs & -> & Hr).
      world_simpl. eexists (_ :: _ :: evs). rewrite <- !app_assoc. split; [reflexivity|].
      exact Hr.
    + destruct (IH (sleep 1 w)) as (evs & -> & Hr).
      world_simpl. eexists (_ :: evs). rewrite <- !app_assoc. split; [reflexivity|].
      exact Hr.
Qed.

Lemma pause_after_spec (env : Env) (st : Stage) (w : World) :
  exists evs r,
    pause_after env st w
    = ({| lock_file := lock_file w; calls := calls w; trace := trace w ++ evs |}, r)
    /\ runs evs = []
    /\ match r with
       | Ok _ => test_delay_error env = None
       | Py.Raise e => test_delay_error env = Some e
       end.
Proof.
  assert (Hw : w = {| lock_file := lock_file w; calls := calls w; trace := trace w ++ [] |})
    by (rewrite app_nil_r; destruct w; reflexivity).
  unfold pause_after, test_delay_error.
  destruct (flag (getenv env "LOCAL_TEST_MODE" "false")).
  2:{ exists [], (Ok tt). rewrite <- Hw. auto. }
  set (delay := match environ env !! "TEST_DELAY_MIN" with
                | Some (String c t) => int (String c t)
                | _ => Ok (DELAY_AFTER_MIN st)
                end).
  assert (Hd : match delay with
               | Ok _ => match environ env !! "TEST_DELAY_MIN" with
                         | Some (String c t) =>
                             match int (String c t) with Py.Raise e => Some e | Ok _ => None end
                         | _ => None
                         end = None
               | Py.Raise e => match environ env !! "TEST_DELAY_MIN" with
                         | Some (String c t) =>
                             match int (String c t) with Py.Raise e => Some e | Ok _ => None end
                         | _ => None
                         end = Some e
               end).
  { subst delay. destruct (environ env !! "TEST_DELAY_MIN") as [[|c t]|]; auto.
    destruct (int (String c t)); auto. }
  destruct delay as [delay_min|e].
  - destruct (delay_min >? 0).
    + destruct (countdown_spec (Z.to_nat (delay_min * 60)) (log (Waiting delay_min) w))
        as (evs & -> & Hr).
      world_simpl. eexists (_ :: evs), (Ok tt). rewrite <- app_assoc.
      split; [reflexivity|]. split; [exact Hr | exact Hd].
    + exists [], (Ok tt). rewrite <- Hw. auto.
  - exists [], (Py.Raise e). rewrite <- Hw. auto.
Qed.

Lemma run_stages_shape (env : Env) (common : gmap string string) (fuel : nat)
    (sts : list Stage) :
  forall w w' out,
    run_stages fuel env common sts w = Some (w', out) ->
    exists evs,
      trace w' = trace w ++ evs
      /\ lock_file w' = lock_file w
      /\ stages_shape env sts (runs evs) out.
Proof.
  induction sts as [|st rest IH]; intros w w' out Hrun.
  - injection Hrun as <- <-. exists []. rewrite app_nil_r. repeat split. constructor.
  - cbn [run_stages] in Hrun.
    destruct (retry_loop fuel env st (stage_dict st ∪ common) 0 w) as [[w1 c]|] eqn:Hloop;
      [|discriminate].
    destruct (retry_loop_spec env st _ _ _ _ _ _ (Z.le_refl 0) Hloop)
      as (evs & n & Htr & Hlock & _ & Hruns & Hfail & _ & _ & Hbud & Hc).
    rewrite stage_label, seq_S, map_app in Hruns. cbn [map] in Hruns.
    rewrite Nat.add_0_l in Hruns.
    set (fails := map (fun i => call_result env (calls w + i)%nat) (seq 0 n)).
    assert (Hshape : runs evs = map (fun x => (Some (STAGE st), x))
                                    (fails ++ [call_result env (calls w + n)%nat])).
    { rewrite Hruns, map_app. subst fails. rewrite map_map. reflexivity. }
    assert (Hnz : Forall (fun x => x <> 0) fails).
    { subst fails. apply Forall_map, Forall_forall. intros i Hi.
      apply elem_of_seq in Hi. apply Hfail. lia. }
    assert (Hlen : length fails = n) by (subst fails; rewrite length_map, length_seq; reflexivity).
    assert (Hb : fails = [] \/ Z.of_nat (length fails) <= MAX_RETRIES env).
    { rewrite Hlen. destruct Hbud as [->|Hbud]; [left; reflexivity | right; lia]. }
    destruct c as [|rc|e]; [| |destruct Hc].
    + rewrite Hc in Hshape.
      destruct (pause_after_spec env st w1) as (evs2 & r & Hp & Hr2 & Hr).
      rewrite Hp in Hrun. destruct r as [[]|e].
      * apply IH in Hrun. destruct Hrun as (evs3 & Htr3 & Hlock3 & Hsh3).
        cbn [trace lock_file] in Htr3, Hlock3.
        exists (evs ++ evs2 ++ evs3). rewrite Htr3, Htr, Hlock3, <- !app_assoc.
        repeat split; [exact Hlock|].
        rewrite !runs_app, Hr2, Hshape. cbn [app].
        apply shape_next; assumption.
      * injection Hrun as <- <-. cbn [trace lock_file].
        exists (evs ++ evs2). rewrite Htr, <- app_assoc.
        repeat split; [exact Hlock|].
        rewrite runs_app, Hr2, app_nil_r, Hshape.
        apply shape_pause_error; assumption.
    + injection Hrun as <- <-. destruct Hc as (-> & Hrc & Hgt).
      exists evs. repeat split; [exact Htr | exact Hlock |].
      rewrite Hshape. apply shape_fatal; auto. lia.
Qed.

Lemma failures_app (lbl : string) (a b : list (option string * Z)) :
  failures lbl (a ++ b) = failures lbl a ++ failures lbl b.
Proof. apply omap_app. Qed.

Lemma failures_other (lbl lbl' : string) (l : list Z) :
  lbl <> lbl' -> failures lbl (map (fun x => (Some lbl', x)) l) = [].
Proof.
  intros Hne. induction l as [|x l IH]; [reflexivity|].
  cbn. rewrite bool_decide_eq_false_2 by congruence. exact IH.
Qed.

Lemma failures_same (lbl : string) (fails : list Z) (x : Z) :
  Forall (fun y => y <> 0) fails ->
  failures lbl (map (fun y => (Some lbl, y)) (fails ++ [x]))
  = fails ++ (if x =? 0 then [] else [x]).
Proof.
  induction 1 as [|y l Hy _ IH].
  - cbn. rewrite bool_decide_eq_true_2 by reflexivity. destruct (x =? 0); reflexivity.
  - cbn. rewrite bool_decide_eq_true_2 by reflexivity.
    destruct (Z.eqb_spec y 0); [contradiction|]. cbn. f_equal. exact IH.
Qed.

Lemma shape_labels (env : Env) (sts : list Stage) (rs : list (option string * Z))
    (out : Outcome) :
  stages_shape env sts rs out ->
  forall r, r ∈ rs -> exists st, st ∈ sts /\ r.1 = Some (STAGE st).
Proof.
  induction 1 as [|st rest fails rc|st rest fails e|st rest fails rs out ? ? ? ? IH];
    intros r Hr.
  - inversion Hr.
  - apply list_elem_of_fmap in Hr as (x & -> & _). exists st. split; [left|reflexivity].
  - apply list_elem_of_fmap in Hr as (x & -> & _). exists st. split; [left|reflexivity].
  - apply elem_of_app in Hr as [Hr|Hr].
    + apply list_elem_of_fmap in Hr as (x & -> & _). exists st. split; [left|reflexivity].
    + destruct (IH r Hr) as (st' & Hin & Hl). exists st'. split; [right; exact Hin|exact Hl].
Qed.

Lemma failures_absent (lbl : string) (rs : list (option string * Z)) :
  (forall r, r ∈ rs -> r.1 <> Some lbl) -> failures lbl rs = [].
Proof.
  induction rs as [|r rs IH]; intros Hno; [reflexivity|].
  cbn. rewrite bool_decide_eq_false_2 by (apply Hno; left). cbn.
  apply IH. intros r' Hr'. apply Hno. right. exact Hr'.
Qed.

(** A stage whose failures exceed the budget is the one that ended the
    loop: the loop returned its last exit code and called no later stage. *)
Lemma shape_exhausted (env : Env) (sts : list Stage) (rs : list (option string * Z))
    (out : Outcome) :
  stages_shape env sts rs out ->
  NoDup (map STAGE sts) ->
  forall st, st ∈ sts ->
    Z.max 0 (MAX_RETRIES env) < Z.of_nat (length (failures (STAGE st) rs)) ->
    exists rc pre post,
      sts = pre ++ st :: post
      /\ out = Returned rc
      /\ rc <> 0
      /\ last rs = Some (Some (STAGE st), rc)
      /\ forall st' rc', st' ∈ post -> (Some (STAGE st'), rc') ∉ rs.
Proof.
  induction 1 as [|h rest fails rc Hnz Hrc Hgt Hb|h rest fails e Hnz Hb He
                  |h rest fails rs out Hnz Hb He Hsh IH];
    intros Hnd st Hin Hex.
  - inversion Hin.
  - apply NoDup_cons in Hnd as [Hh Hnd].
    destruct (decide (STAGE st = STAGE h)) as [Heq|Hne].
    + assert (st = h) as ->.
      { apply elem_of_cons in Hin as [->|Hin]; [reflexivity|].
        exfalso. apply Hh. rewrite <- Heq. apply list_elem_of_fmap. eauto. }
      exists rc, [], rest. repeat split; auto.
      * rewrite map_app. cbn [map]. apply last_snoc.
      * intros st' rc' Hst' Hr. apply list_elem_of_fmap in Hr as (x & [= Hl _] & _).
        apply Hh. rewrite <- Hl. apply list_elem_of_fmap. eauto.
    + rewrite failures_other in Hex by exact Hne. cbn in Hex. lia.
  - destruct (decide (STAGE st = STAGE h)) as [Heq|Hne].
    + rewrite Heq, failures_same in Hex by exact Hnz. cbn in Hex. rewrite app_nil_r in Hex.
      destruct Hb as [->|Hb]; cbn in Hex; lia.
    + rewrite failures_other in Hex by exact Hne. cbn in Hex. lia.
  - apply NoDup_cons in Hnd as [Hh Hnd].
    rewrite failures_app in Hex.
    destruct (decide (STAGE st = STAGE h)) as [Heq|Hne].
    + rewrite Heq, failures_same in Hex by exact Hnz. cbn [Z.eqb] in Hex.
      rewrite app_nil_r, (failures_absent (STAGE h) rs) in Hex.
      * rewrite app_nil_r in Hex. destruct Hb as [->|Hb]; cbn in Hex; lia.
      * intros r Hr [= Hl]. destruct (shape_labels _ _ _ _ Hsh r Hr) as (st' & Hst' & Hl').
        apply Hh. rewrite Hl' in Hl. injection Hl as <-. apply list_elem_of_fmap. eauto.
    + rewrite failures_other in Hex by exact Hne. cbn [app] in Hex.
      assert (Hin' : st ∈ rest).
      { apply elem_of_cons in Hin as [->|Hin]; [contradiction|exact Hin]. }
      destruct (IH Hnd st Hin' Hex) as (rc & pre & post & -> & -> & Hrc & Hlast & Hpost).
      exists rc, (h :: pre), post. repeat split; auto.
      * rewrite last_app, Hlast. reflexivity.
      * intros st' rc' Hst' Hr. apply elem_of_app in Hr as [Hr|Hr].
        -- apply list_elem_of_fmap in Hr as (x & [= Hl _] & _).
           apply Hh. rewrite <- Hl. apply list_elem_of_fmap. exists st'. split; [reflexivity|].
           apply elem_of_app. right. right. exact Hst'.
        -- exact (Hpost st' rc' Hst' Hr).
Qed.

Lemma shape_all_succeed_quiet (env : Env) (sts : list Stage)
    (rs : list (option string * Z)) (out : Outcome) :
  stages_shape env sts rs out ->
  test_delay_error env = None ->
  NoDup (map STAGE sts) ->
  (forall st, st ∈ sts -> (Some (STAGE st), 0) ∈ rs) ->
  out = Returned 0.
Proof.
  induction 1 as [|h rest fails rc Hnz Hrc Hgt Hb|h rest fails e Hnz Hb He
                  |h rest fails rs out Hnz Hb He Hsh IH];
    intros Hq Hnd Hall.
  - reflexivity.
  - exfalso. specialize (Hall h (list_elem_of_here _ _)).
    apply list_elem_of_fmap in Hall as (x & [= <-] & Hx).
    apply elem_of_app in Hx as [Hx|Hx].
    + rewrite Forall_forall in Hnz. exact (Hnz 0 Hx eq_refl).
    + apply list_elem_of_singleton in Hx. congruence.
  - congruence.
  - apply NoDup_cons in Hnd as [Hh Hnd]. apply IH; [exact Hq | exact Hnd |].
    intros st Hst. specialize (Hall st (list_elem_of_further _ _ _ Hst)).
    apply elem_of_app in Hall as [Hx|Hx]; [|exact Hx].
    exfalso. apply list_elem_of_fmap in Hx as (x & [= Hl _] & _).
    apply Hh. rewrite <- Hl. apply list_elem_of_fmap. eauto.
Qed.

Lemma shape_all_succeed (env : Env) (h h2 : Stage) (rest : list Stage)
    (rs : list (option string * Z)) (out : Outcome) :
  stages_shape env (h :: h2 :: rest) rs out ->
  NoDup (map STAGE (h :: h2 :: rest)) ->
  (forall st, st ∈ h :: h2 :: rest -> (Some (STAGE st), 0) ∈ rs) ->
  out = Returned 0.
Proof.
  intros Hsh Hnd Hall.
  destruct (test_delay_error env) as [e|] eqn:He;
    [|exact (shape_all_succeed_quiet _ _ _ _ Hsh He Hnd Hall)].
  exfalso. apply NoDup_cons in Hnd as [Hh _].
  assert (H2 : forall fails x, (Some (STAGE h2), 0)
                 ∉ map (fun y => (Some (STAGE h), y)) (fails ++ [x])).
  { intros fails x Hx. apply list_elem_of_fmap in Hx as (y & [= Hl _] & _).
    apply Hh. rewrite <- Hl. left. }
  specialize (Hall h2 (list_elem_of_further _ _ _ (list_elem_of_here _ _))).
  inversion Hsh; subst; try congruence; exact (H2 _ _ Hall).
Qed.

Lemma run_stages_total (env : Env) (common : gmap string string) (sts : list Stage) :
  forall w, exists w' out, run_stages (retry_fuel env) env common sts w = Some (w', out).
Proof.
  induction sts as [|st rest IH]; intros w; cbn [run_stages]; [eauto|].
  destruct (retry_loop_total env st (stage_dict st ∪ common) (retry_fuel env) 0 w)
    as (w1 & c & ->); [lia | unfold retry_fuel; lia |].
  destruct c as [|rc|e]; [|eauto|eauto].
  destruct (pause_after env st w1) as [w2 [[]|e]]; [apply IH|eauto].
Qed.

(** [main], after its first log lines: one line and status 0 when the lock
    is held, else the stage loop and the removal of the lock. *)
Lemma main_eq (env : Env) (w : World) :
  exists logs common,
    main env w
    = match lock_file w with
      | Some _ =>
          Some ({| lock_file := lock_file w; calls := calls w;
                   trace := trace w ++ logs ++ [Log LockPresent] |}, Returned 0)
      | None =>
          match run_stages (retry_fuel env) env common stages
                  {| lock_file := Some (pretty (getpid env)); calls := calls w;
                     trace := trace w ++ logs |} with
          | Some (w2, out) => Some (release_lock w2, out)
          | None => None
          end
      end
    /\ runs logs = [] /\ sleeps logs = [].
Proof.
  unfold main, acquire_lock.
  destruct (flag (getenv env "LOCAL_TEST_MODE" "false"));
    [destruct (environ env !! "TEST_DELAY_MIN") as [[|c t]|]|];
    world_simpl.
  2: eexists [_; _], _.
  1,3,4: eexists [_], _.
  all: split;
    [destruct (lock_file w); world_simpl; rewrite <- ?app_assoc; reflexivity
    |split; reflexivity].
Qed.

Lemma stages_labels_distinct : NoDup (map STAGE stages).
Proof. apply (bool_decide_unpack _). vm_compute. exact I. Qed.

(** The retry loop of a stage whose worker succeeds at the call number [k]
    of the stage. *)
Lemma stage_succeeds (env : Env) (st : Stage) (ov : gmap string string) (w : World)
    (k : nat) :
  succeeds_at env (calls w) k ->
  exists w1 evs,
    retry_loop (retry_fuel env) env st ov 0 w = Some (w1, Break)
    /\ trace w1 = trace w ++ evs
    /\ lock_file w1 = lock_file w
    /\ calls w1 = (calls w + Datatypes.S k)%nat
    /\ runs evs = map (fun i => (ov !! "STAGE", call_result env (calls w + i)%nat))
                    (seq 0 (Datatypes.S k)).
Proof.
  intros (Hk & Hfail & Hok). unfold budget in Hk.
  destruct (retry_loop_total env st ov (retry_fuel env) 0 w) as (w1 & c & Hloop);
    [lia | unfold retry_fuel; lia |].
  destruct (retry_loop_spec env st ov _ _ _ _ _ (Z.le_refl 0) Hloop)
    as (evs & n & Htr & Hlock & Hcalls & Hruns & Hnz & _ & _ & Hb & Hc).
  assert (Hn : n = k).
  { destruct (Nat.lt_trichotomy n k) as [Hlt|[Heq|Hgt]]; [|exact Heq|].
    - exfalso. destruct c as [|rc|e]; [|destruct Hc as (-> & Hrc & Hgt)|exact Hc].
      + exact (Hfail n Hlt Hc).
      + lia.
    - exfalso. exact (Hnz k Hgt Hok). }
  subst n. destruct c as [|rc|e]; [|destruct Hc as (-> & Hrc & _); congruence|destruct Hc].
  exists w1, evs. auto.
Qed.

(** The retry loop of a stage whose worker fails at every call allowed. *)
Lemma stage_exhausts (env : Env) (st : Stage) (ov : gmap string string) (w : World) :
  exhausts env (calls w) ->
  exists w1 evs,
    retry_loop (retry_fuel env) env st ov 0 w
    = Some (w1, Return (call_result env (calls w + budget env)%nat))
    /\ call_result env (calls w + budget env)%nat <> 0
    /\ trace w1 = trace w ++ evs
    /\ lock_file w1 = lock_file w
    /\ runs evs = map (fun i => (ov !! "STAGE", call_result env (calls w + i)%nat))
                    (seq 0 (Datatypes.S (budget env))).
Proof.
  intros Hex. unfold exhausts, budget in *.
  destruct (retry_loop_total env st ov (retry_fuel env) 0 w) as (w1 & c & Hloop);
    [lia | unfold retry_fuel; lia |].
  destruct (retry_loop_spec env st ov _ _ _ _ _ (Z.le_refl 0) Hloop)
    as (evs & n & Htr & Hlock & Hcalls & Hruns & Hnz & _ & _ & Hb & Hc).
  destruct c as [|rc|e]; [|destruct Hc as (-> & Hrc & Hgt)|destruct Hc].
  - exfalso. apply (Hex n); [lia | exact Hc].
  - assert (Hn : n = Z.to_nat (MAX_RETRIES env)) by lia. subst n.
    exists w1, evs. auto.
Qed.

(** The stage loop over stages that succeed, followed by whatever is left of
    the list. *)
Lemma run_stages_succeed (env : Env) (common : gmap string string) (pre : list Stage) :
  forall (rest : list Stage) (ks : list nat) (w : World),
    pre = [] \/ test_delay_error env = None ->
    all_succeed env (calls w) pre ks ->
    exists w1 evs,
      run_stages (retry_fuel env) env common (pre ++ rest) w
      = run_stages (retry_fuel env) env common rest w1
      /\ trace w1 = trace w ++ evs
      /\ lock_file w1 = lock_file w
      /\ calls w1 = (calls w + calls_made ks)%nat
      /\ runs evs = attempts_of env (calls w) pre ks.
Proof.
  induction pre as [|st pre IH]; intros rest ks w Hdelay Hall.
  - destruct ks; [|destruct Hall]. exists w, []. rewrite app_nil_r. cbn.
    rewrite Nat.add_0_r. auto.
  - destruct ks as [|k ks]; [destruct Hall|]. destruct Hall as [Hk Hall].
    destruct Hdelay as [Hnil|Hdelay]; [discriminate|].
    cbn [app run_stages].
    destruct (stage_succeeds env st (stage_dict st ∪ common) w k Hk)
      as (w1 & evs1 & -> & Htr1 & Hlock1 & Hcalls1 & Hruns1).
    destruct (pause_after_spec env st w1) as (evs2 & r & -> & Hruns2 & Hr).
    destruct r as [[]|e]; [|congruence].
    set (w2 := {| lock_file := lock_file w1; calls := calls w1; trace := trace w1 ++ evs2 |}).
    destruct (IH rest ks w2 (or_intror Hdelay)) as (w3 & evs3 & -> & Htr3 & Hlock3 & Hcalls3 & Hruns3).
    { subst w2. cbn [calls]. rewrite Hcalls1. exact Hall. }
    exists w3, (evs1 ++ evs2 ++ evs3). split; [reflexivity|].
    subst w2. cbn [trace lock_file calls] in *.
    split; [rewrite Htr3, Htr1, <- !app_assoc; reflexivity|].
    split; [congruence|].
    split; [rewrite Hcalls3, Hcalls1;
           change (calls_made (k :: ks)) with (Datatypes.S k + calls_made ks)%nat; lia|].
    rewrite !runs_app, Hruns1, Hruns2, Hruns3, Hcalls1, stage_label. reflexivity.
Qed.

Lemma attempts_label (env : Env) (label : string) (n k : nat) (r : option string * Z) :
  r ∈ attempts env label n k -> r.1 = Some label.
Proof.
  unfold attempts. intros Hin. apply list_elem_of_fmap in Hin as (i & -> & _). reflexivity.
Qed.

Lemma attempts_of_labels (env : Env) (sts : list Stage) :
  forall n ks r,
    r ∈ attempts_of env n sts ks -> exists st, st ∈ sts /\ r.1 = Some (STAGE st).
Proof.
  induction sts as [|st sts IH]; intros n ks r Hin; [inversion Hin|].
  destruct ks as [|k ks]; [inversion Hin|]. cbn [attempts_of] in Hin.
  apply elem_of_app in Hin as [Hin|Hin].
  - exists st. split; [left | exact (attempts_label _ _ _ _ _ Hin)].
  - destruct (IH _ _ _ Hin) as (st' & Hst' & Hr). exists st'. split; [right; exact Hst' | exact Hr].
Qed.

Lemma attempts_last (env : Env) (label : string) (n k : nat) :
  last (attempts env label n k) = Some (Some label, call_result env (n + k)%nat).
Proof.
  unfold attempts. rewrite seq_S, map_app. cbn [map]. apply last_snoc.
Qed.

Lemma attempts_of_success (env : Env) (sts : list Stage) :
  forall n ks st,
    all_succeed env n sts ks -> st ∈ sts -> (Some (STAGE st), 0) ∈ attempts_of env n sts ks.
Proof.
  induction sts as [|h sts IH]; intros n ks st Hall Hin; [inversion Hin|].
  destruct ks as [|k ks]; [destruct Hall|]. destruct Hall as [(_ & _ & Hok) Hall].
  cbn [attempts_of]. apply elem_of_app.
  apply elem_of_cons in Hin as [->|Hin].
  - left. unfold attempts. apply list_elem_of_fmap. exists k.
    split; [rewrite Hok; reflexivity | apply elem_of_seq; lia].
  - right. apply IH; assumption.
Qed.

Lemma exit_status_low_byte (rc : Z) : exit_status (Returned rc) = rc mod 256.
Proof. cbn [exit_status]. exact (Z.land_ones rc 8 ltac:(lia)). Qed.

(** C7, as the code has it. A run of the orchestrator always ends. When
    the lock is held it ends with status 0 and without a call of the
    worker. When the lock is free and every stage succeeds within its
    retry budget, all three stages are run, in order, and the status is 0,
    unless the pause of the local test mode cannot read its delay: then the
    run ends with status 1 after the first stage. When a stage exhausts its
    budget, after stages that succeeded, the calls of the run end with the
    last call allowed to that stage, no later stage of the list is called,
    and the status of the process is the low byte of the code [rc] that
    this call returned: [rc] itself when it is an exit code from 1 to 255,
    and never 0 for a code between -255 and 255. *)
Theorem pipeline_exit_status (env : Env) (w : World) :
  (exists w' out, main env w = Some (w', out))
  /\ (forall p, lock_file w = Some p ->
        exists w',
          main env w = Some (w', Returned 0)
          /\ exit_status (Returned 0) = 0
          /\ runs (new_events w w') = [])
  /\ (forall ks,
        lock_file w = None ->
        test_delay_error env = None ->
        all_succeed env (calls w) stages ks ->
        exists w',
          main env w = Some (w', Returned 0)
          /\ exit_status (Returned 0) = 0
          /\ runs (new_events w w') = attempts_of env (calls w) stages ks
          /\ forall st, st ∈ stages -> (Some (STAGE st), 0) ∈ runs (new_events w w'))
  /\ (forall e k,
        lock_file w = None ->
        test_delay_error env = Some e ->
        succeeds_at env (calls w) k ->
        exists w',
          main env w = Some (w', Failed e)
          /\ exit_status (Failed e) = 1
          /\ runs (new_events w w') = attempts env "24" (calls w) k)
  /\ (forall pre st post ks,
        lock_file w = None ->
        stages = pre ++ st :: post ->
        pre = [] \/ test_delay_error env = None ->
        all_succeed env (calls w) pre ks ->
        exhausts env (calls w + calls_made ks)%nat ->
        let rc := call_result env (calls w + calls_made ks + budget env)%nat in
        exists w',
          main env w = Some (w', Returned rc)
          /\ rc <> 0
          /\ exit_status (Returned rc) = rc mod 256
          /\ (0 < rc < 256 -> exit_status (Returned rc) = rc)
          /\ (-256 < rc < 256 -> exit_status (Returned rc) <> 0)
          /\ runs (new_events w w')
             = attempts_of env (calls w) pre ks
               ++ attempts env (STAGE st) (calls w + calls_made ks)%nat (budget env)
          /\ last (runs (new_events w w')) = Some (Some (STAGE st), rc)
          /\ forall st' rc', st' ∈ post ->
               (Some (STAGE st'), rc') ∉ runs (new_events w w')).
Proof.
  destruct (main_eq env w) as (logs & common & Hmain & Hlr & Hls).
  assert (Hnew : forall (w2 : World) (evs : list Event),
            trace w2 = (trace w ++ logs) ++ evs ->
            runs (new_events w (release_lock w2)) = runs evs).
  { intros w2 evs Htr. unfold new_events, release_lock. cbn [trace].
    rewrite Htr, <- app_assoc, drop_app_length, runs_app, Hlr. reflexivity. }
  set (w0 := {| lock_file := Some (pretty (getpid env)); calls := calls w;
                trace := trace w ++ logs |}) in *.
  split; [|split; [|split; [|split]]].
  - destruct (lock_file w) as [p|]; [eauto|].
    destruct (run_stages_total env common stages w0) as (w2 & out & Hrun).
    rewrite Hrun in Hmain. eauto.
  - intros p Hp. rewrite Hp in Hmain. eexists. split; [exact Hmain|].
    split; [reflexivity|]. unfold new_events. cbn [trace].
    rewrite drop_app_length, runs_app, Hlr. reflexivity.
  - intros ks Hfree Hdelay Hall. rewrite Hfree in Hmain.
    destruct (run_stages_succeed env common stages [] ks w0 (or_intror Hdelay) Hall)
      as (w1 & evs & Hrun & Htr & _ & _ & Hruns).
    rewrite app_nil_r in Hrun. cbn [run_stages] in Hrun. rewrite Hrun in Hmain.
    exists (release_lock w1). split; [exact Hmain|]. split; [reflexivity|].
    change (calls w0) with (calls w) in Hruns, Hall.
    rewrite (Hnew w1 evs Htr), Hruns. split; [reflexivity|].
    intros st Hst. apply attempts_of_success; assumption.
  - intros e k Hfree Hdelay Hk. rewrite Hfree in Hmain.
    unfold stages in Hmain. cbn [run_stages] in Hmain.
    destruct (stage_succeeds env stage_24 (stage_dict stage_24 ∪ common) w0 k Hk)
      as (w1 & evs1 & Hloop & Htr1 & _ & _ & Hruns1).
    rewrite Hloop in Hmain.
    destruct (pause_after_spec env stage_24 w1) as (evs2 & r & Hp & Hruns2 & Hr).
    rewrite Hp in Hmain. destruct r as [[]|e']; [congruence|].
    assert (e' = e) by congruence. subst e'.
    eexists. split; [exact Hmain|]. split; [reflexivity|].
    rewrite (Hnew _ (evs1 ++ evs2)) by (cbn [trace]; rewrite Htr1, <- app_assoc; reflexivity).
    rewrite runs_app, Hruns1, Hruns2, app_nil_r, stage_label. reflexivity.
  - intros pre st post ks Hfree Hsp Hdelay Hall Hex rc. rewrite Hfree, Hsp in Hmain.
    destruct (run_stages_succeed env common pre (st :: post) ks w0 Hdelay Hall)
      as (w1 & evs1 & Hrun & Htr1 & _ & Hcalls1 & Hruns1).
    rewrite Hrun in Hmain. cbn [run_stages] in Hmain.
    change (calls w0) with (calls w) in Hcalls1, Hruns1. rewrite <- Hcalls1 in Hex.
    destruct (stage_exhausts env st (stage_dict st ∪ common) w1 Hex)
      as (w2 & evs2 & Hloop & Hrc & Htr2 & _ & Hruns2).
    rewrite Hloop, Hcalls1 in Hmain. fold rc in Hmain. rewrite Hcalls1 in Hrc. fold rc in Hrc.
    exists (release_lock w2). split; [exact Hmain|]. split; [exact Hrc|].
    rewrite exit_status_low_byte.
    split; [reflexivity|].
    split; [intros Hr; apply Z.mod_small; lia|].
    split.
    { intros Hr Hz. destruct (Z.eq_dec rc 0) as [|_]; [congruence|].
      pose proof (Z.div_mod rc 256 ltac:(lia)). 
      pose proof (Z.mod_pos_bound rc 256 ltac:(lia)). rewrite Hz in *.
      assert (rc / 256 = 0 \/ rc / 256 <> 0) as [Hq|Hq] by lia; lia. }
    rewrite (Hnew w2 (evs1 ++ evs2)) by (rewrite Htr2, Htr1, <- app_assoc; reflexivity).
    rewrite runs_app, Hruns1, Hruns2, stage_label, Hcalls1. cbn [calls].
    fold (attempts env (STAGE st) (calls w + calls_made ks)%nat (budget env)).
    split; [reflexivity|]. split.
    + rewrite last_app, attempts_last. reflexivity.
    + intros st' rc' Hst' Hin.
      pose proof stages_labels_distinct as Hnd. rewrite Hsp, map_app in Hnd.
      cbn [map] in Hnd. apply NoDup_app in Hnd as (_ & Hdisj & Hnd).
      apply NoDup_cons in Hnd as [Hst _].
      assert (Hpost : STAGE st' ∈ map STAGE post)
        by (apply list_elem_of_fmap; exists st'; auto).
      apply elem_of_app in Hin as [Hin|Hin].
      * apply attempts_of_labels in Hin as (s0 & Hs0 & Hl). cbn [fst] in Hl.
        injection Hl as Hl. apply (Hdisj (STAGE st')).
        -- rewrite Hl. apply list_elem_of_fmap. exists s0. auto.
        -- right. exact Hpost.
      * apply attempts_label in Hin. cbn [fst] in Hin. injection Hin as Hl.
        apply Hst. rewrite <- Hl. exact Hpost.
Qed.

(** With a worker that always exits with status 3 and two retries, the
    first stage is called three times and the run ends with status 3. *)
Lemma main_always_fails :
  match main env_always_fails world_free with
  | Some (w', out) => Some (runs (new_events world_free w'), out)
  | None => None
  end = Some ([(Some "24", 3); (Some "24", 3); (Some "24", 3)], Returned 3).
Proof. vm_compute. reflexivity. Qed.

Lemma pipeline_exit_status_witness :
  (exists w',
      main env_fails_twice world_free = Some (w', Returned 0)
      /\ runs (new_events world_free w')
         = [(Some "24", 1); (Some "24", 1); (Some "24", 0); (Some "48", 0); (Some "72", 0)])
  /\ (exists w',
        main env_always_fails world_free = Some (w', Returned 3)
        /\ exit_status (Returned 3) = 3
        /\ runs (new_events world_free w') = [(Some "24", 3); (Some "24", 3); (Some "24", 3)]
        /\ forall st' rc', st' ∈ [stage_48; stage_72] ->
             (Some (STAGE st'), rc') ∉ runs (new_events world_free w')).
Proof.
  split.
  - destruct (pipeline_exit_status env_fails_twice world_free) as (_ & _ & Hok & _).
    destruct (Hok [2; 0; 0]%nat eq_refl eq_refl) as (w' & Hmain & _ & Hruns & _).
    { cbn [all_succeed]. unfold succeeds_at, budget.
      repeat split; try (cbn; lia); try reflexivity.
      intros [|[|i]] Hi; [discriminate | discriminate | lia]. }
    exists w'. split; [exact Hmain | exact Hruns].
  - destruct (pipeline_exit_status env_always_fails world_free) as (_ & _ & _ & _ & Hfatal).
    destruct (Hfatal [] stage_24 [stage_48; stage_72] [] eq_refl eq_refl
                (or_introl eq_refl) I)
      as (w' & Hmain & _ & _ & Hst & _ & Hruns & _ & Hpost).
    { intros i _. discriminate. }
    exists w'. split; [exact Hmain|]. split; [exact (Hst (conj eq_refl eq_refl))|].
    split; [exact Hruns | exact Hpost].
Defined.

(** C7, as the specification words it, fails for a worker that a signal
    ends: killed by signal 9 at every call, the worker returns -9, [main]
    returns -9 after the last call allowed to the first stage, and the
    status of the process is 247, not -9. Nor is a worker that succeeds at
    every call enough for status 0: in local test mode with a delay that is
    no number the run ends with status 1 after the first stage. *)
Lemma pipeline_status_is_not_always_the_worker_code :
  (exists w',
      main env_killed world_free = Some (w', Returned (-9))
      /\ last (runs (new_events world_free w')) = Some (Some "24", -9)
      /\ exit_status (Returned (-9)) = 247
      /\ exit_status (Returned (-9)) <> -9)
  /\ (forall n, call_result env_bad_delay n = 0)
  /\ (exists w',
        main env_bad_delay world_free = Some (w', Failed ValueError)
        /\ runs (new_events world_free w') = [(Some "24", 0)]
        /\ exit_status (Failed ValueError) = 1).
Proof.
  split; [|split].
  - eexists. split; [vm_compute; reflexivity|].
    split; [vm_compute; reflexivity|]. split; [reflexivity | discriminate].
  - intros n. reflexivity.
  - eexists. split; [vm_compute; reflexivity|]. split; vm_compute; reflexivity.
Qed.

End Orchestrator.

(** ** The run of the worker *)

Section WorkerRun.
Import Py datetime wishlist_reminder Samples.
Context {St : Store}.

Lemma send_loop_preview (cfg : Config) (env : Env) (tpl : string) (rows : list Row) :
  SEND_EMAILS cfg = false ->
  forall i w,
    smtp_calls (send_loop cfg env tpl i rows w).1 = smtp_calls w
    /\ db (send_loop cfg env tpl i rows w).1 = db w.
Proof.
  intros Hoff. induction rows as [|r rest IH]; intros i w; cbn [send_loop]; [auto|].
  destruct (render_template cfg env i (wishlist_id r) tpl) as [html|e]; [|auto].
  rewrite Hoff.
  destruct (IH (Datatypes.S i) (print (Preview (lower (strip (email r))) (wishlist_id r)) w))
    as [-> ->].
  auto.
Qed.

(** C9. With SEND_EMAILS off, whatever the candidates and whatever fails,
    the worker never calls [send_email] and leaves the store, hence the
    sent log, as it found it: in the candidate loop and in the whole run. *)
Theorem preview_mode_is_write_free (cfg : Config) (env : Env) :
  SEND_EMAILS cfg = false ->
  (forall tpl i rows w,
      smtp_calls (send_loop cfg env tpl i rows w).1 = smtp_calls w
      /\ db (send_loop cfg env tpl i rows w).1 = db w)
  /\ (forall w,
      smtp_calls (script cfg env w).1 = smtp_calls w
      /\ db (script cfg env w).1 = db w
      /\ email_log (db (script cfg env w).1) = email_log (db w)).
Proof.
  intros Hoff. split; [intros; apply send_loop_preview, Hoff|].
  intros w.
  assert (Hmain : smtp_calls (main cfg env w).1 = smtp_calls w
                  /\ db (main cfg env w).1 = db w).
  { unfold main.
    destruct (compute_window cfg (env_now_utc env)) as [[[s e] mode]|x]; [|auto].
    destruct (env_load_template env) as [tpl|x]; [|auto].
    destruct (env_mysql_conn env) as [c|x]; [|auto].
    destruct (match env_select_fault env with
              | Some x => Raise x
              | None => select_candidates cfg (db (print Boot w)) s e
              end) as [rows|x]; [|auto].
    destruct rows as [|r rest]; [auto|].
    pose proof (send_loop_preview cfg env tpl (r :: rest) Hoff 0%nat
                  (print (DebugCandidates (length (r :: rest))) (print Boot w))) as H.
    destruct (send_loop cfg env tpl 0 (r :: rest) _) as [w' [u|x]]; exact H. }
  unfold script. destruct (main cfg env w) as [w' [|status|x]];
    cbn [fst print db smtp_calls] in *; destruct Hmain as [-> ->]; auto.
Qed.

Lemma send_loop_completes (cfg : Config) (env : Env) (tpl : string) (rows : list Row) :
  forall i w,
    SEND_EMAILS cfg = true ->
    (forall k r, rows !! k = Some r ->
       exists html, render_template cfg env (i + k) (wishlist_id r) tpl = Ok html) ->
    exists w' calls,
      send_loop cfg env tpl i rows w = (w', Ok tt)
      /\ smtp_calls w' = smtp_calls w ++ calls
      /\ map (fun c => mail_to c.1) calls = map (fun r => lower (strip (email r))) rows.
Proof.
  induction rows as [|r rest IH]; intros i w Hon Hrender; cbn [send_loop].
  - exists w, []. rewrite app_nil_r. auto.
  - destruct (Hrender 0%nat r eq_refl) as (html & Hr). rewrite Nat.add_0_r in Hr.
    rewrite Hr, Hon.
    assert (Hrest : forall k r', rest !! k = Some r' ->
              exists html', render_template cfg env (Datatypes.S i + k) (wishlist_id r') tpl
                            = Ok html').
    { intros k r' Hk. replace (Datatypes.S i + k)%nat with (i + Datatypes.S k)%nat by lia.
      apply Hrender. exact Hk. }
    unfold send_email, insert_log_conn. fold (mail_for cfg r html).
    destruct (env_smtp env i (mail_for cfg r html)) as [id|e];
      [destruct (env_insert_fault env i) as [e|]|];
      cbn [db smtp_calls stdout];
      match goal with
      | |- context [send_loop cfg env tpl (Datatypes.S i) rest ?w1] =>
          destruct (IH (Datatypes.S i) w1 Hon Hrest) as (w' & calls & -> & Hc & Hm)
      end;
      cbn [print smtp_calls] in Hc;
      eexists w', (_ :: calls); rewrite Hc, <- app_assoc;
      (split; [reflexivity|]); (split; [reflexivity|]);
      cbn [map fst mail_to mail_for]; rewrite Hm; reflexivity.
Qed.

(** C2, as the code has it. In a live run a failure of the dispatch of one
    candidate, in [send_email] or in the [insert_log] after it, is caught:
    an error line is printed for the candidate, the store is left as it
    was, and the loop goes on with the candidates that remain; when every
    rendering succeeds the loop ends normally after one call of
    [send_email] per candidate, in order. A failure of the rendering is not
    caught by the loop: it ends the loop at that candidate, before any
    dispatch for it. *)
Theorem dispatch_failure_is_tolerated (cfg : Config) (env : Env) (tpl : string) :
  SEND_EMAILS cfg = true ->
  (forall i r rest w html e,
      render_template cfg env i (wishlist_id r) tpl = Ok html ->
      env_smtp env i (mail_for cfg r html) = Raise e
      \/ ((exists id, env_smtp env i (mail_for cfg r html) = Ok id)
          /\ env_insert_fault env i = Some e) ->
      exists w1,
        send_loop cfg env tpl i (r :: rest) w
        = send_loop cfg env tpl (Datatypes.S i) rest w1
        /\ db w1 = db w
        /\ smtp_calls w1
           = smtp_calls w ++ [(mail_for cfg r html, env_smtp env i (mail_for cfg r html))]
        /\ stdout w1
           = stdout w ++ [ErrorEnviando (lower (strip (email r))) (wishlist_id r) e])
  /\ (forall rows i w,
      (forall k r, rows !! k = Some r ->
         exists html, render_template cfg env (i + k) (wishlist_id r) tpl = Ok html) ->
      exists w' calls,
        send_loop cfg env tpl i rows w = (w', Ok tt)
        /\ smtp_calls w' = smtp_calls w ++ calls
        /\ map (fun c => mail_to c.1) calls = map (fun r => lower (strip (email r))) rows)
  /\ (forall i r rest w e,
      render_template cfg env i (wishlist_id r) tpl = Raise e ->
      send_loop cfg env tpl i (r :: rest) w = (w, Raise e)).
Proof.
  intros Hon. split; [|split].
  - intros i r rest w html e Hr Hfail. cbn [send_loop]. rewrite Hr, Hon.
    unfold send_email, insert_log_conn. fold (mail_for cfg r html).
    destruct Hfail as [Hs|[[id Hs] Hi]]; rewrite Hs; [|rewrite Hi];
      eexists; (split; [reflexivity|]); cbn [print db smtp_calls stdout]; auto.
  - intros rows i w Hr. apply send_loop_completes; assumption.
  - intros i r rest w e Hr. cbn [send_loop]. rewrite Hr. reflexivity.
Qed.

End WorkerRun.

Section WorkerRunExamples.
Import Py datetime wishlist_reminder Samples.

Lemma preview_mode_is_write_free_witness :
  smtp_calls (script (St := ci_store) cfg_preview env_fine (world_of db_two)).1 = []
  /\ email_log (db (script (St := ci_store) cfg_preview env_fine (world_of db_two)).1) = [].
Proof.
  destruct (preview_mode_is_write_free (St := ci_store) cfg_preview env_fine eq_refl)
    as [_ H].
  destruct (H (world_of db_two)) as (H1 & _ & H3). split; [exact H1 | exact H3].
Defined.

Lemma dispatch_failure_is_tolerated_witness :
  exists w1,
    send_loop (St := ci_store) cfg_24h env_smtp_fails_first "<html></html>" 0
      [row "ana@example.com" 7; row "luis@example.com" 8] (world_of db_two)
    = send_loop (St := ci_store) cfg_24h env_smtp_fails_first "<html></html>" 1
        [row "luis@example.com" 8] w1
    /\ db w1 = db_two
    /\ stdout w1 = [ErrorEnviando "ana@example.com" 7 SMTPError].
Proof.
  destruct (dispatch_failure_is_tolerated (St := ci_store) cfg_24h env_smtp_fails_first
              "<html></html>" eq_refl) as (H & _ & _).
  destruct (H 0%nat (row "ana@example.com" 7) [row "luis@example.com" 8]
              (world_of db_two) "<html></html>" SMTPError eq_refl (or_introl eq_refl))
    as (w1 & Hloop & Hdb & _ & Hout).
  exists w1. split; [exact Hloop|]. split; [exact Hdb | exact Hout].
Defined.

(** C2, as the specification words it, fails for rendering: both guests of
    [db_two] are candidates, rendering fails for the first one, and the run
    ends there with status 1; no error line names the candidate, and
    nothing is dispatched for the second one. *)
Lemma render_failure_ends_the_run :
  select_candidates (St := ci_store) cfg_24h db_two
    (at_ (day_D - 1) 6 0 0 0) (at_ (day_D - 1) 18 0 0 0)
  = Ok [row "ana@example.com" 7; row "luis@example.com" 8]
  /\ script (St := ci_store) cfg_24h env_render_fails_first (world_of db_two)
     = ({| db := db_two;
           smtp_calls := [];
           stdout := [Boot; DebugCandidates 2; Fatal ValueError] |}, 1).
Proof. split; vm_compute; reflexivity. Qed.

End WorkerRunExamples.

(** ** Candidate selection and the sent log *)

Section Selection.
Import Py datetime wishlist_reminder.
Context {St : Store} {SL : StoreLaws St}.

Lemma email_eq_cong (a b x : string) :
  email_eq a b = true -> email_eq a x = email_eq b x.
Proof.
  intros Hab. destruct (email_eq b x) eqn:Hbx.
  - exact (email_eq_trans _ _ _ Hab Hbx).
  - destruct (email_eq a x) eqn:Hax; [|reflexivity].
    rewrite <- Hbx. symmetry. apply (email_eq_trans b a x); [|exact Hax].
    rewrite email_eq_sym. exact Hab.
Qed.

Lemma key_eq_cong (a b x : string) :
  key_eq a b = true -> key_eq a x = key_eq b x.
Proof.
  intros Hab. destruct (key_eq b x) eqn:Hbx.
  - exact (key_eq_trans _ _ _ Hab Hbx).
  - destruct (key_eq a x) eqn:Hax; [|reflexivity].
    rewrite <- Hbx. symmetry. apply (key_eq_trans b a x); [|exact Hax].
    rewrite key_eq_sym. exact Hab.
Qed.

Lemma row_eq_refl (r : Row) : row_eq r r = true.
Proof. unfold row_eq. rewrite email_eq_refl, Z.eqb_refl. reflexivity. Qed.

Lemma row_eq_sym (a b : Row) : row_eq a b = row_eq b a.
Proof. unfold row_eq. rewrite email_eq_sym, Z.eqb_sym. reflexivity. Qed.

(** *** DISTINCT and LIMIT *)

Lemma distinct_In (l : list Row) :
  forall seen x, In x (distinct seen l) -> In x l /\ existsb (row_eq x) seen = false.
Proof.
  induction l as [|r t IH]; intros seen x; cbn [distinct]; [intros []|].
  destruct (existsb (row_eq r) seen) eqn:Hr.
  - intros H. apply IH in H as [H1 H2]. split; [right; exact H1 | exact H2].
  - intros [<-|H]; [split; [left; reflexivity | exact Hr]|].
    apply IH in H as [H1 H2]. cbn [existsb] in H2.
    apply orb_false_elim in H2 as [_ H2]. split; [right; exact H1 | exact H2].
Qed.

Lemma distinct_pairwise (l : list Row) :
  forall seen, ForallOrdPairs (fun a b => row_eq a b = false) (distinct seen l).
Proof.
  induction l as [|r t IH]; intros seen; cbn [distinct]; [constructor|].
  destruct (existsb (row_eq r) seen); [apply IH|].
  constructor; [|apply IH].
  apply List.Forall_forall. intros b Hb. apply distinct_In in Hb as [_ Hb].
  cbn [existsb] in Hb. apply orb_false_elim in Hb as [Hb _].
  rewrite row_eq_sym. exact Hb.
Qed.

Lemma pairwise_take (R : Row -> Row -> Prop) (l : list Row) :
  ForallOrdPairs R l -> forall n, ForallOrdPairs R (take n l).
Proof.
  induction 1 as [|a l Ha _ IH]; intros [|n]; cbn [take]; try constructor.
  - apply Forall_take. exact Ha.
  - apply IH.
Qed.

Lemma pairwise_NoDup (l : list Row) :
  ForallOrdPairs (fun a b => row_eq a b = false) l -> NoDup l.
Proof.
  induction 1 as [|a l Ha _ IH]; constructor; [|exact IH].
  intros Hin. rewrite List.Forall_forall in Ha. apply list_elem_of_In in Hin.
  specialize (Ha a Hin). rewrite row_eq_refl in Ha. discriminate.
Qed.

Lemma In_take (l : list Row) : forall n x, In x (take n l) -> In x l.
Proof.
  induction l as [|a l IH]; intros [|n] x; cbn [take In]; try tauto.
  intros [<-|H]; [left; reflexivity | right; exact (IH n x H)].
Qed.

Lemma In_take_S (l : list Row) : forall n x, In x (take n l) -> In x (take (Datatypes.S n) l).
Proof.
  induction l as [|a l IH]; intros [|n] x; cbn [take In]; try tauto.
  intros [<-|H]; [left; reflexivity | right; exact (IH n x H)].
Qed.

(** *** The rows of the query *)

Lemma query_row (db : DB) (c tz : string) (lo hi : Z) (r : Row) :
  In r (map project (List.filter (where_clause tz lo hi) (joined db c))) ->
  exists e wl it,
    In e (guest_emails db) /\ In wl (lists db) /\ In it (items db)
    /\ wl_ID wl = ge_wishlist_id e
    /\ it_wishlist_id it = wl_ID wl
    /\ in_window tz lo hi e = true
    /\ (forall l, In l (email_log db) -> log_same_on e wl c l = false)
    /\ r = {| email := ge_email e; wishlist_id := wl_ID wl |}.
Proof.
  intros Hr. apply in_map_iff in Hr as ([[[e wl] it] lg] & <- & Hin).
  apply filter_In in Hin as [Hin Hw]. unfold joined in Hin.
  apply in_flat_map in Hin as (e' & He & Hin).
  apply in_flat_map in Hin as (wl' & Hwl & Hin).
  apply in_flat_map in Hin as (it' & Hit & Hin).
  apply in_map_iff in Hin as (lg' & [= -> -> -> ->] & Hlg).
  apply filter_In in Hwl as [Hwl Hwle]. apply filter_In in Hit as [Hit Hite].
  apply Z.eqb_eq in Hwle, Hite.
  cbn [where_clause] in Hw. apply andb_prop in Hw as [Hwin Hnull].
  destruct lg as [l|]; [discriminate|].
  exists e, wl, it. repeat split; auto.
  intros l Hl. destruct (log_same_on e wl c l) eqn:Hs; [|reflexivity].
  exfalso. assert (Hf : In l (List.filter (log_same_on e wl c) (email_log db)))
    by (apply filter_In; auto).
  destruct (List.filter (log_same_on e wl c) (email_log db)) as [|x xs]; [exact Hf|].
  cbn [left_join] in Hlg. apply in_map_iff in Hlg as (? & [=] & _).
Qed.

Lemma strftime_seconds_bounds (dt : Z) :
  strftime_seconds dt <= dt < strftime_seconds dt + US_PER_SECOND.
Proof.
  unfold strftime_seconds, US_PER_SECOND.
  pose proof (Z.div_mod dt 1000000 ltac:(lia)).
  pose proof (Z.mod_pos_bound dt 1000000 ltac:(lia)). lia.
Qed.

(** C3, as the code has it. With a batch limit that is not negative
    [select_candidates] returns at most MAX_BATCH rows, different from each
    other (also under the collation of the email column); each comes from a
    guest row whose creation time, converted to UTC by the server, lies
    between the start and the end of the window as the query receives them,
    cut to whole seconds, hence after start - 1 s and not after end; its
    wishlist exists and has an item; and no row of the sent log has its
    email, its wishlist and the campaign key. A negative limit is refused
    by the server. *)
Theorem candidate_selection (cfg : Config) (db : DB) (start_utc end_utc : Z) :
  (MAX_BATCH cfg < 0 ->
   select_candidates cfg db start_utc end_utc = Raise DatabaseError)
  /\ (0 <= MAX_BATCH cfg ->
      exists rows,
        select_candidates cfg db start_utc end_utc = Ok rows
        /\ Z.of_nat (length rows) <= MAX_BATCH cfg
        /\ NoDup rows
        /\ ForallOrdPairs (fun a b => row_eq a b = false) rows
        /\ forall r, In r rows ->
             (exists e t,
                 In e (guest_emails db)
                 /\ ge_email e = email r /\ ge_wishlist_id e = wishlist_id r
                 /\ convert_tz (ge_created_at e) (LOCAL_TZ_OFFSET cfg) = Some t
                 /\ strftime_seconds start_utc <= t <= strftime_seconds end_utc
                 /\ start_utc - US_PER_SECOND < t <= end_utc)
             /\ (exists wl, In wl (lists db) /\ wl_ID wl = wishlist_id r)
             /\ (exists it, In it (items db) /\ it_wishlist_id it = wishlist_id r)
             /\ (forall l, In l (email_log db) ->
                  ~ (email_eq (log_email l) (email r) = true
                     /\ log_wishlist_id l = wishlist_id r
                     /\ key_eq (log_campaign_key l) (CAMPAIGN_KEY cfg) = true))).
Proof.
  unfold select_candidates. split; intros Hb.
  - apply Z.ltb_lt in Hb. rewrite Hb. reflexivity.
  - apply Z.ltb_ge in Hb. rewrite Hb. eexists. split; [reflexivity|].
    unfold candidates_query.
    set (F := map project _).
    split; [|split; [|split]].
    + rewrite length_take. lia.
    + apply pairwise_NoDup, pairwise_take, distinct_pairwise.
    + apply pairwise_take, distinct_pairwise.
    + intros r Hr. apply In_take, distinct_In in Hr as [Hr _]. subst F.
      apply query_row in Hr
        as (e & wl & it & He & Hwl & Hit & Hwe & Hiw & Hwin & Hlog & ->).
      cbn [email wishlist_id].
      split; [|split; [|split]].
      * unfold in_window in Hwin.
        destruct (convert_tz (ge_created_at e) (LOCAL_TZ_OFFSET cfg)) as [t|] eqn:Hct;
          [|discriminate].
        apply andb_prop in Hwin as [Hlo Hhi]. apply Z.leb_le in Hlo, Hhi.
        exists e, t. repeat split; auto;
          pose proof (strftime_seconds_bounds start_utc);
          pose proof (strftime_seconds_bounds end_utc); lia.
      * exists wl. auto.
      * exists it. split; [exact Hit | congruence].
      * intros l Hl (H1 & H2 & H3). specialize (Hlog l Hl).
        unfold log_same_on in Hlog. rewrite H1, H2, H3, Z.eqb_refl in Hlog. discriminate.
Qed.

End Selection.

Section SelectionExamples.
Import Py datetime wishlist_reminder Samples.

Lemma candidate_selection_witness :
  exists rows,
    select_candidates (St := ci_store) cfg_24h db_two
      (at_ (day_D - 1) 6 0 0 0) (at_ (day_D - 1) 18 0 0 0) = Ok rows
    /\ Z.of_nat (length rows) <= 300
    /\ NoDup rows.
Proof.
  destruct (candidate_selection (St := ci_store) (SL := ci_store_laws) cfg_24h db_two
              (at_ (day_D - 1) 6 0 0 0) (at_ (day_D - 1) 18 0 0 0)) as [_ H].
  destruct H as (rows & Hsel & Hlen & Hnd & _); [vm_compute; discriminate|].
  exists rows. split; [exact Hsel|]. split; [exact Hlen | exact Hnd].
Defined.

(** C3, as the specification words it, fails at the start of the window: at
    now = D 12:00:00.5 UTC the relative window of the 24 hour stage starts
    at D-1 06:00:00.5 UTC; the guest of [db_edge] saved the wishlist at
    D-1 06:00:00 UTC, half a second before the start, and is selected.
    And with MAX_BATCH = -1 nothing is returned: the query fails. *)
Lemma selection_admits_event_before_start :
  stage_window_bounds_relative cfg_24h (at_ day_D 12 0 0 500000)
  = (at_ (day_D - 1) 6 0 0 500000, at_ (day_D - 1) 18 0 0 500000)
  /\ select_candidates (St := ci_store) cfg_24h db_edge
       (at_ (day_D - 1) 6 0 0 500000) (at_ (day_D - 1) 18 0 0 500000)
     = Ok [row "eva@example.com" 9]
  /\ convert_tz (Store := ci_store) (at_ (day_D - 1) 0 0 0 0) "-06:00"
     = Some (at_ (day_D - 1) 6 0 0 0)
  /\ at_ (day_D - 1) 6 0 0 0 < at_ (day_D - 1) 6 0 0 500000
  /\ select_candidates (St := ci_store) cfg_negative_batch db_edge
       (at_ (day_D - 1) 6 0 0 500000) (at_ (day_D - 1) 18 0 0 500000)
     = Raise DatabaseError.
Proof. repeat split; vm_compute; reflexivity. Qed.

End SelectionExamples.

(** ** The email of a sent record *)

Section Normalization.
Import Py.

Lemma isspace_lower (c : ascii) : isspace (lower_ascii c) = isspace c.
Proof. destruct c as [[] [] [] [] [] [] [] []]; reflexivity. Qed.

Lemma lower_ascii_idem (c : ascii) : lower_ascii (lower_ascii c) = lower_ascii c.
Proof. destruct c as [[] [] [] [] [] [] [] []]; reflexivity. Qed.

Lemma lstrip_by_map (p : ascii -> bool) (f : ascii -> ascii) (l : list ascii) :
  (forall c, p (f c) = p c) -> lstrip_by p (map f l) = map f (lstrip_by p l).
Proof.
  intros Hp. induction l as [|c t IH]; [reflexivity|].
  cbn [map lstrip_by]. rewrite Hp. destruct (p c); [exact IH | reflexivity].
Qed.

Lemma rstrip_by_map (p : ascii -> bool) (f : ascii -> ascii) (l : list ascii) :
  (forall c, p (f c) = p c) -> rstrip_by p (map f l) = map f (rstrip_by p l).
Proof.
  intros Hp. unfold rstrip_by.
  rewrite <- map_rev, (lstrip_by_map p f _ Hp), map_rev. reflexivity.
Qed.

Lemma lstrip_by_idem (p : ascii -> bool) (l : list ascii) :
  lstrip_by p (lstrip_by p l) = lstrip_by p l.
Proof.
  induction l as [|c t IH]; [reflexivity|]. cbn [lstrip_by].
  destruct (p c) eqn:Hc; [exact IH|]. cbn [lstrip_by]. rewrite Hc. reflexivity.
Qed.

Lemma lstrip_by_snoc (p : ascii -> bool) (l : list ascii) (c : ascii) :
  p c = false -> lstrip_by p (l ++ [c]) = lstrip_by p l ++ [c].
Proof.
  intros Hc. induction l as [|d t IH]; cbn [app lstrip_by]; [rewrite Hc; reflexivity|].
  destruct (p d); [exact IH | reflexivity].
Qed.

Lemma rstrip_by_cons (p : ascii -> bool) (c : ascii) (t : list ascii) :
  p c = false -> rstrip_by p (c :: t) = c :: rstrip_by p t.
Proof.
  intros Hc. unfold rstrip_by. cbn [rev].
  rewrite (lstrip_by_snoc p _ c Hc), rev_app_distr. reflexivity.
Qed.

Lemma lstrip_rstrip_lstrip (p : ascii -> bool) (l : list ascii) :
  lstrip_by p (rstrip_by p (lstrip_by p l)) = rstrip_by p (lstrip_by p l).
Proof.
  induction l as [|c t IH]; [reflexivity|]. cbn [lstrip_by].
  destruct (p c) eqn:Hc; [exact IH|].
  rewrite (rstrip_by_cons p c t Hc). cbn [lstrip_by]. rewrite Hc. reflexivity.
Qed.

Lemma rstrip_by_idem (p : ascii -> bool) (l : list ascii) :
  rstrip_by p (rstrip_by p l) = rstrip_by p l.
Proof. unfold rstrip_by. rewrite rev_involutive, lstrip_by_idem. reflexivity. Qed.

(** What [lstrip_by] drops satisfies the test, and what it keeps does not
    start with a character that does. *)
Lemma lstrip_by_spec (p : ascii -> bool) (l : list ascii) :
  exists pre,
    l = pre ++ lstrip_by p l
    /\ Forall (fun c => p c = true) pre
    /\ forall c t, lstrip_by p l = c :: t -> p c = false.
Proof.
  induction l as [|c t IH]; cbn [lstrip_by].
  - exists []. split; [reflexivity|]. split; [constructor | discriminate].
  - destruct (p c) eqn:Hc.
    + destruct IH as (pre & Hl & Hp & Hh). exists (c :: pre).
      split; [cbn; f_equal; exact Hl|]. split; [constructor; assumption | exact Hh].
    + exists []. split; [reflexivity|]. split; [constructor|].
      intros c' t' [= <- _]. exact Hc.
Qed.

Lemma rstrip_by_spec (p : ascii -> bool) (l : list ascii) :
  exists suf,
    l = rstrip_by p l ++ suf
    /\ Forall (fun c => p c = true) suf
    /\ forall pre c, rstrip_by p l = pre ++ [c] -> p c = false.
Proof.
  unfold rstrip_by. destruct (lstrip_by_spec p (rev l)) as (pre & Hl & Hp & Hh).
  exists (rev pre). split; [|split].
  - rewrite <- rev_app_distr, <- Hl, rev_involutive. reflexivity.
  - apply List.Forall_rev. exact Hp.
  - intros pre' c Hr. apply (Hh c (rev pre')).
    rewrite <- (rev_involutive (lstrip_by p (rev l))), Hr, rev_app_distr. reflexivity.
Qed.

(** The characters that [str.isspace] accepts, by their code points. *)
Lemma isspace_codes (c : ascii) :
  isspace c = true
  <-> 9 <= code c <= 13 \/ 28 <= code c <= 32 \/ code c = 133 \/ code c = 160.
Proof.
  unfold isspace. rewrite !orb_true_iff, !andb_true_iff, !Z.leb_le, !Z.eqb_eq. lia.
Qed.

(** What [str.lower] does to a character: the capital letters, A to Z and
    U+00C0 to U+00DE without the multiplication sign, move up by 32. *)
Lemma lower_ascii_code (c : ascii) :
  (65 <= code c <= 90 \/ (192 <= code c <= 222 /\ code c <> 215))
  /\ code (lower_ascii c) = code c + 32
  \/ ~ (65 <= code c <= 90 \/ (192 <= code c <= 222 /\ code c <> 215))
     /\ lower_ascii c = c.
Proof.
  unfold lower_ascii.
  destruct (((65 <=? code c) && (code c <=? 90))
            || ((192 <=? code c) && (code c <=? 222) && negb (code c =? 215))) eqn:Hc.
  - left. rewrite !orb_true_iff, !andb_true_iff, negb_true_iff, !Z.leb_le, Z.eqb_neq in Hc.
    split; [lia|]. unfold code in *. rewrite nat_ascii_embedding; lia.
  - right. split; [|reflexivity].
    rewrite !orb_false_iff, !andb_false_iff, negb_false_iff, !Z.leb_gt, Z.eqb_eq in Hc. lia.
Qed.

(** [s.lower().strip()] is the middle of [s], between the white space at
    its two ends, with every character in lower case. *)
Lemma strip_lower_shape (a : string) :
  exists pre mid suf,
    list_ascii_of_string a = pre ++ mid ++ suf
    /\ Forall (fun c => isspace c = true) pre
    /\ Forall (fun c => isspace c = true) suf
    /\ list_ascii_of_string (strip (lower a)) = map lower_ascii mid
    /\ (forall c t, mid = c :: t -> isspace c = false)
    /\ (forall i c, mid = i ++ [c] -> isspace c = false).
Proof.
  set (la := list_ascii_of_string a).
  destruct (lstrip_by_spec isspace la) as (pre & Hpre & Hwpre & _).
  destruct (rstrip_by_spec isspace (lstrip_by isspace la)) as (suf & Hsuf & Hwsuf & Hlast).
  destruct (lstrip_by_spec isspace (rstrip_by isspace (lstrip_by isspace la)))
    as (_ & _ & _ & Hfirst).
  rewrite lstrip_rstrip_lstrip in Hfirst.
  exists pre, (rstrip_by isspace (lstrip_by isspace la)), suf.
  split; [rewrite <- Hsuf; exact Hpre|]. split; [exact Hwpre|]. split; [exact Hwsuf|].
  split; [|split; [exact Hfirst | exact Hlast]].
  unfold strip, lower. rewrite !list_ascii_of_string_of_list_ascii.
  rewrite (lstrip_by_map _ _ _ isspace_lower), (rstrip_by_map _ _ _ isspace_lower).
  reflexivity.
Qed.

(** The email that the loop of [main] hands to [insert_log] is already in
    the form that [insert_log] writes. *)
Lemma strip_lower_normal (s : string) :
  strip (lower (lower (strip s))) = lower (strip s).
Proof.
  unfold strip, lower.
  rewrite !list_ascii_of_string_of_list_ascii, map_map.
  rewrite (map_ext _ lower_ascii) by apply lower_ascii_idem.
  rewrite (lstrip_by_map _ _ _ isspace_lower), (rstrip_by_map _ _ _ isspace_lower).
  rewrite lstrip_rstrip_lstrip, rstrip_by_idem. reflexivity.
Qed.

End Normalization.

Section SentLog.
Import Py datetime wishlist_reminder.
Context {St : Store} {SL : StoreLaws St}.

Lemma blocks_respects_row_eq (l : LogRow) (c : string) (a b : Row) :
  row_eq a b = true -> blocks l c a = blocks l c b.
Proof.
  unfold row_eq, blocks. intros H. apply andb_prop in H as [He Hw].
  apply Z.eqb_eq in Hw. rewrite Hw. f_equal. f_equal.
  rewrite !(email_eq_sym (log_email l)). apply email_eq_cong. exact He.
Qed.

(** After the upsert of [new], a candidate is blocked exactly when it was
    blocked before or [new] blocks it. *)
Lemma upsert_blocks (new : LogRow) (c : string) (r : Row) (tbl : list LogRow) :
  existsb (fun l => blocks l c r) (upsert new tbl)
  = existsb (fun l => blocks l c r) tbl || blocks new c r.
Proof.
  induction tbl as [|x t IH]; cbn [upsert existsb]; [apply orb_comm|].
  destruct (log_unique_key x new) eqn:Hk; cbn [existsb].
  - unfold log_unique_key in Hk.
    apply andb_prop in Hk as [Hk Hkey]. apply andb_prop in Hk as [Hem Hwl].
    apply Z.eqb_eq in Hwl.
    assert (Hnew : blocks new c r = blocks x c r).
    { unfold blocks. rewrite <- Hwl, <- (email_eq_cong _ _ (email r) Hem),
        <- (key_eq_cong _ _ c Hkey). reflexivity. }
    assert (Hupd : blocks {| log_email := log_email x; log_wishlist_id := log_wishlist_id x;
                             log_campaign_key := log_campaign_key new;
                             log_sent_at := log_sent_at new |} c r = blocks x c r).
    { unfold blocks. cbn. rewrite <- (key_eq_cong _ _ c Hkey). reflexivity. }
    rewrite Hupd, Hnew. destruct (blocks x c r), (existsb _ t); reflexivity.
  - rewrite IH, orb_assoc. reflexivity.
Qed.

Lemma filter_nil_existsb {A} (f : A -> bool) (l : list A) :
  List.filter f l = [] <-> existsb f l = false.
Proof.
  induction l as [|x t IH]; cbn; [tauto|].
  destruct (f x); cbn; [split; discriminate | exact IH].
Qed.

Lemma map_flat_map {A B C} (f : B -> C) (g : A -> list B) (l : list A) :
  map f (flat_map g l) = flat_map (fun x => map f (g x)) l.
Proof. induction l as [|x t IH]; cbn; [reflexivity|]. rewrite map_app, IH. reflexivity. Qed.

Lemma filter_flat_map {A B} (p : B -> bool) (g : A -> list B) (l : list A) :
  List.filter p (flat_map g l) = flat_map (fun x => List.filter p (g x)) l.
Proof.
  induction l as [|x t IH]; cbn; [reflexivity|]. rewrite List.filter_app, IH. reflexivity.
Qed.

(** The rows of the query before DISTINCT: one per guest row, wishlist and
    item, when the guest row is in the window and no log row blocks it. *)
Lemma query_rows (db : DB) (c tz : string) (lo hi : Z) :
  map project (List.filter (where_clause tz lo hi) (joined db c))
  = flat_map (fun e =>
      flat_map (fun wl =>
        flat_map (fun it =>
          if in_window tz lo hi e
             && negb (existsb (fun l => blocks l c (row_of e wl)) (email_log db))
          then [row_of e wl] else [])
          (List.filter (fun it => it_wishlist_id it =? wl_ID wl) (items db)))
        (List.filter (fun wl => wl_ID wl =? ge_wishlist_id e) (lists db)))
      (guest_emails db).
Proof.
  unfold joined.
  rewrite filter_flat_map, map_flat_map. apply flat_map_ext. intros e.
  rewrite filter_flat_map, map_flat_map. apply flat_map_ext. intros wl.
  rewrite filter_flat_map, map_flat_map. apply flat_map_ext. intros it.
  change (fun l => blocks l c (row_of e wl)) with (log_same_on e wl c).
  destruct (List.filter (log_same_on e wl c) (email_log db)) as [|x xs] eqn:Hf.
  - apply filter_nil_existsb in Hf. rewrite Hf. cbn.
    destruct (in_window tz lo hi e); reflexivity.
  - assert (Hex : existsb (log_same_on e wl c) (email_log db) = true).
    { destruct (existsb (log_same_on e wl c) (email_log db)) eqn:Hex; [reflexivity|].
      apply filter_nil_existsb in Hex. congruence. }
    rewrite Hex, andb_false_r. cbn [left_join].
    generalize (x :: xs). intros L. induction L as [|y ys IH]; [reflexivity|].
    cbn. rewrite andb_false_r. exact IH.
Qed.

Lemma query_rows_after_insert (db : DB) (a : string) (s : Z) (c' : string) (ts : Z)
    (c tz : string) (lo hi : Z) :
  map project (List.filter (where_clause tz lo hi) (joined (insert_log db a s c' ts) c))
  = List.filter (fun r => negb (blocks (log_values a s c' ts) c r))
      (map project (List.filter (where_clause tz lo hi) (joined db c))).
Proof.
  rewrite !query_rows. unfold insert_log.
  cbn [guest_emails lists items email_log].
  rewrite filter_flat_map. apply flat_map_ext. intros e.
  rewrite filter_flat_map. apply flat_map_ext. intros wl.
  rewrite filter_flat_map. apply flat_map_ext. intros it.
  rewrite upsert_blocks.
  destruct (in_window tz lo hi e), (existsb _ (email_log db)); cbn; reflexivity.
Qed.

Lemma distinct_seen_ext (l : list Row) :
  forall s1 s2,
    (forall x, In x l -> existsb (row_eq x) s1 = existsb (row_eq x) s2) ->
    distinct s1 l = distinct s2 l.
Proof.
  induction l as [|r t IH]; intros s1 s2 Hs; cbn [distinct]; [reflexivity|].
  rewrite (Hs r (or_introl eq_refl)).
  destruct (existsb (row_eq r) s2).
  - apply IH. intros x Hx. apply Hs. right. exact Hx.
  - f_equal. apply IH. intros x Hx. cbn [existsb]. f_equal. apply Hs. right. exact Hx.
Qed.

(** A row that DISTINCT and LIMIT let through is still let through when
    rows are removed from the input by a filter that keeps it and treats
    equal rows alike. *)
Lemma take_distinct_filter (keep : Row -> bool) (p : Row) (l : list Row) :
  (forall a b, row_eq a b = true -> keep a = keep b) ->
  keep p = true ->
  forall seen n,
    In p (take n (distinct seen l)) ->
    In p (take n (distinct seen (List.filter keep l))).
Proof.
  intros Hkeep Hp. induction l as [|r t IH]; intros seen n Hin; [exact Hin|].
  cbn [distinct List.filter] in *.
  destruct (existsb (row_eq r) seen) eqn:Hseen.
  - destruct (keep r); [cbn [distinct]; rewrite Hseen|]; apply IH; exact Hin.
  - destruct n as [|n]; [destruct Hin|]. cbn [take] in Hin.
    destruct (keep r) eqn:Hr.
    + cbn [distinct]. rewrite Hseen. cbn [take].
      destruct Hin as [->|Hin]; [left; reflexivity | right; apply IH; exact Hin].
    + destruct Hin as [->|Hin]; [congruence|].
      apply In_take_S. apply IH in Hin.
      rewrite (distinct_seen_ext _ (r :: seen) seen) in Hin; [exact Hin|].
      intros x Hx. apply filter_In in Hx as [_ Hx]. cbn [existsb].
      destruct (row_eq x r) eqn:Hxr; [|reflexivity].
      rewrite (Hkeep x r Hxr) in Hx. congruence.
Qed.

Lemma upsert_has (new : LogRow) (tbl : list LogRow) :
  exists l,
    In l (upsert new tbl)
    /\ email_eq (log_email l) (log_email new) = true
    /\ log_wishlist_id l = log_wishlist_id new
    /\ log_campaign_key l = log_campaign_key new
    /\ log_sent_at l = log_sent_at new.
Proof.
  induction tbl as [|x t IH]; cbn [upsert].
  - exists new. rewrite email_eq_refl. cbn. auto.
  - destruct (log_unique_key x new) eqn:Hk.
    + unfold log_unique_key in Hk.
      apply andb_prop in Hk as [Hk _]. apply andb_prop in Hk as [Hem Hwl].
      apply Z.eqb_eq in Hwl. eexists. split; [left; reflexivity|]. cbn. auto.
    + destruct IH as (l & Hin & H). exists l. split; [right; exact Hin | exact H].
Qed.

Lemma upsert_fresh (new : LogRow) (tbl : list LogRow) :
  (forall l, In l tbl -> log_unique_key l new = false) -> upsert new tbl = tbl ++ [new].
Proof.
  induction tbl as [|x t IH]; intros Hf; cbn [upsert app]; [reflexivity|].
  rewrite (Hf x (or_introl eq_refl)). f_equal. apply IH. intros l Hl. apply Hf. right. exact Hl.
Qed.

(** A candidate that a row of the sent log blocks is not selected. *)
Lemma blocked_is_not_selected (cfg : Config) (db : DB) (start_utc end_utc : Z)
    (rows : list Row) (r : Row) :
  select_candidates cfg db start_utc end_utc = Ok rows ->
  existsb (fun l => blocks l (CAMPAIGN_KEY cfg) r) (email_log db) = true ->
  ~ In r rows.
Proof.
  intros Hsel Hb Hin. unfold select_candidates in Hsel.
  destruct (MAX_BATCH cfg <? 0); [discriminate|]. injection Hsel as <-.
  apply In_take, distinct_In in Hin as [Hin _].
  apply query_row in Hin as (e & wl & _ & _ & _ & _ & _ & _ & _ & Hlog & ->).
  apply existsb_exists in Hb as (l & Hl & Hb).
  specialize (Hlog l Hl). unfold log_same_on in Hlog. unfold blocks in Hb.
  cbn [email wishlist_id] in Hb. congruence.
Qed.

(** Permanent exclusion, as far as the code gives it: once a row of the
    sent log blocks a candidate in a campaign, no later insert lifts the
    block, and no later selection of that campaign returns the candidate,
    whatever the window and whatever the other tables hold by then. *)
Lemma blocked_forever (cfg : Config) (db db' : DB) (start_utc end_utc : Z)
    (rows : list Row) (r : Row) :
  existsb (fun l => blocks l (CAMPAIGN_KEY cfg) r) (email_log db) = true ->
  log_later (email_log db) (email_log db') ->
  select_candidates cfg db' start_utc end_utc = Ok rows ->
  ~ In r rows.
Proof.
  intros Hb Hlater Hsel. apply (blocked_is_not_selected _ _ _ _ _ _ Hsel).
  induction Hlater as [|tbl tbl' new _ IH]; [exact Hb|].
  rewrite upsert_blocks, (IH Hb). reflexivity.
Qed.

(** C10. [insert_log] writes the record with the email in lower case and
    stripped, whatever it is passed. On texts of code points below 256 the
    email written is the one passed without the white space at its two ends
    (the code points 9 to 13, 28 to 32, 133 and 160) and with each capital
    letter (65 to 90, and 192 to 222 without 215) replaced by the letter 32
    code points above it; it has no capital letter and neither starts nor
    ends with white space. The record is appended when the sent log has
    none of that key, else the one of that key is updated. The selection
    compares the email of the record with the email of the guest row as it
    is stored. So a candidate of the wishlist that was selected before the
    insert is selected again after it exactly when the written email and
    its stored email are different under the comparison of the server; for
    the email that the loop of [main] passes, which is the stored one
    stripped and in lower case: exactly when the stored email is different
    from its own stripped lower-case form. When the two are equal, no later
    selection of the campaign returns the candidate. *)
Theorem sent_record_email_is_normalized (cfg : Config) (db : DB) (a : string)
    (s ts start_utc end_utc : Z) (rows : list Row) :
  select_candidates cfg db start_utc end_utc = Ok rows ->
  log_email (log_values a s (CAMPAIGN_KEY cfg) ts) = strip (lower a)
  /\ (let capital (c : ascii) :=
         65 <= code c <= 90 \/ (192 <= code c <= 222 /\ code c <> 215) in
       let white (c : ascii) :=
         9 <= code c <= 13 \/ 28 <= code c <= 32 \/ code c = 133 \/ code c = 160 in
       let written :=
         list_ascii_of_string (log_email (log_values a s (CAMPAIGN_KEY cfg) ts)) in
       Forall (fun c => ~ capital c) written
       /\ (forall c t, written = c :: t -> ~ white c)
       /\ (forall i c, written = i ++ [c] -> ~ white c)
       /\ exists pre mid suf,
            list_ascii_of_string a = pre ++ mid ++ suf
            /\ Forall white pre
            /\ Forall white suf
            /\ Forall2 (fun x y => capital x /\ code y = code x + 32
                                   \/ ~ capital x /\ y = x) mid written)
  /\ (exists l,
         In l (email_log (insert_log db a s (CAMPAIGN_KEY cfg) ts))
         /\ email_eq (log_email l) (strip (lower a)) = true
         /\ log_wishlist_id l = s
         /\ log_campaign_key l = CAMPAIGN_KEY cfg)
  /\ ((forall l, In l (email_log db) ->
         log_unique_key l (log_values a s (CAMPAIGN_KEY cfg) ts) = false) ->
      email_log (insert_log db a s (CAMPAIGN_KEY cfg) ts)
      = email_log db ++ [log_values a s (CAMPAIGN_KEY cfg) ts])
  /\ (exists rows',
         select_candidates cfg (insert_log db a s (CAMPAIGN_KEY cfg) ts) start_utc end_utc
         = Ok rows'
         /\ (forall r, In r rows -> wishlist_id r = s ->
              (In r rows' <-> email_eq (strip (lower a)) (email r) = false))
         /\ (forall r, In r rows -> wishlist_id r = s -> a = lower (strip (email r)) ->
              (In r rows' <-> email_eq (lower (strip (email r))) (email r) = false)))
  /\ (forall r db' lo hi later,
         wishlist_id r = s ->
         email_eq (strip (lower a)) (email r) = true ->
         log_later (email_log (insert_log db a s (CAMPAIGN_KEY cfg) ts)) (email_log db') ->
         select_candidates cfg db' lo hi = Ok later ->
         ~ In r later).
Proof.
  intros Hsel.
  split; [reflexivity|]. split; [|split; [|split; [|split]]].
  - cbv zeta. cbn [log_values log_email].
    destruct (strip_lower_shape a) as (pre & mid & suf & Ha & Hpre & Hsuf & -> & Hfirst & Hlast).
    assert (Hlow : forall c, ~ (65 <= code (lower_ascii c) <= 90
                                \/ (192 <= code (lower_ascii c) <= 222
                                    /\ code (lower_ascii c) <> 215))).
    { intros c. destruct (lower_ascii_code c) as [[Hc ->]|[Hc ->]]; [lia | exact Hc]. }
    split; [|split; [|split]].
    + apply List.Forall_forall. intros c Hc. apply in_map_iff in Hc as (c0 & <- & _).
      apply Hlow.
    + intros c t Hm Hw. destruct mid as [|c0 t0]; [discriminate|].
      injection Hm as <- _. apply isspace_codes in Hw.
      rewrite isspace_lower, (Hfirst c0 t0 eq_refl) in Hw. discriminate.
    + intros i c Hm Hw.
      destruct (exists_last (l := mid)) as (i0 & c0 & ->).
      { intros ->. destruct i; discriminate. }
      rewrite map_app in Hm. cbn [map] in Hm. apply app_inj_tail in Hm as [_ <-].
      apply isspace_codes in Hw.
      rewrite isspace_lower, (Hlast i0 c0 eq_refl) in Hw. discriminate.
    + exists pre, mid, suf. split; [exact Ha|].
      split; [eapply List.Forall_impl; [|exact Hpre]; intros c; apply isspace_codes|].
      split; [eapply List.Forall_impl; [|exact Hsuf]; intros c; apply isspace_codes|].
      clear. induction mid as [|c t IH]; [constructor|].
      cbn [map]. constructor; [|exact IH].
      destruct (lower_ascii_code c) as [[Hc Hl]|[Hc Hl]]; [left | right]; auto.
  - destruct (upsert_has (log_values a s (CAMPAIGN_KEY cfg) ts) (email_log db))
      as (l & Hin & He & Hw & Hk & _).
    exists l. auto.
  - intros Hf. cbn [insert_log email_log]. apply upsert_fresh, Hf.
  - unfold select_candidates in *.
    destruct (MAX_BATCH cfg <? 0); [discriminate|]. injection Hsel as <-.
    eexists. split; [reflexivity|].
    assert (Hiff : forall r,
      In r (take (Z.to_nat (MAX_BATCH cfg))
              (candidates_query db (CAMPAIGN_KEY cfg) (LOCAL_TZ_OFFSET cfg)
                 (strftime_seconds start_utc) (strftime_seconds end_utc))) ->
      wishlist_id r = s ->
      In r (take (Z.to_nat (MAX_BATCH cfg))
              (candidates_query (insert_log db a s (CAMPAIGN_KEY cfg) ts) (CAMPAIGN_KEY cfg)
                 (LOCAL_TZ_OFFSET cfg) (strftime_seconds start_utc)
                 (strftime_seconds end_utc)))
      <-> email_eq (strip (lower a)) (email r) = false).
    { intros r Hr Hw.
      unfold candidates_query in *. rewrite query_rows_after_insert.
      set (keep := fun r => negb (blocks (log_values a s (CAMPAIGN_KEY cfg) ts)
                                     (CAMPAIGN_KEY cfg) r)).
      assert (Hkeep : keep r = negb (email_eq (strip (lower a)) (email r))).
      { unfold keep, blocks. cbn [log_values log_email log_wishlist_id log_campaign_key].
        rewrite Hw, Z.eqb_refl, key_eq_refl, !andb_true_r. reflexivity. }
      split.
      - intros Hin. apply In_take, distinct_In in Hin as [Hin _].
        apply filter_In in Hin as [_ Hk]. rewrite Hkeep in Hk.
        apply negb_true_iff in Hk. exact Hk.
      - intros Hne. apply take_distinct_filter; [| |exact Hr].
        + intros x y Hxy. unfold keep. f_equal. apply blocks_respects_row_eq, Hxy.
        + rewrite Hkeep, Hne. reflexivity. }
    split; [exact Hiff|].
    intros r Hr Hw Ha. rewrite <- (strip_lower_normal (email r)), <- Ha.
    apply Hiff; assumption.
  - intros r db' lo hi later Hw He Hlater Hsel'.
    apply (blocked_forever cfg (insert_log db a s (CAMPAIGN_KEY cfg) ts) db' lo hi later r);
      [|exact Hlater|exact Hsel'].
    cbn [insert_log email_log]. rewrite upsert_blocks.
    unfold blocks at 2. cbn [log_values log_email log_wishlist_id log_campaign_key].
    rewrite He, Hw, Z.eqb_refl, key_eq_refl. apply orb_true_r.
Qed.

End SentLog.

Section SentLogExamples.
Import Py datetime wishlist_reminder Samples.

Lemma sent_record_email_is_normalized_witness :
  log_email (log_values " Ana@Example.COM " 7 "wishlist_v1_24h" (at_ day_D 12 0 1 0))
  = "ana@example.com"
  /\ exists rows',
       select_candidates (St := ci_store) cfg_24h
         (insert_log (St := ci_store) db_mixed " Ana@Example.COM " 7
            "wishlist_v1_24h" (at_ day_D 12 0 1 0))
         (at_ (day_D - 1) 6 0 0 0) (at_ (day_D - 1) 18 0 0 0) = Ok rows'
       /\ In (row " Ana@Example.COM " 7) rows'.
Proof.
  destruct (sent_record_email_is_normalized (St := ci_store) (SL := ci_store_laws)
              cfg_24h db_mixed " Ana@Example.COM " 7 (at_ day_D 12 0 1 0)
              (at_ (day_D - 1) 6 0 0 0) (at_ (day_D - 1) 18 0 0 0)
              [row " Ana@Example.COM " 7])
    as (Hw & _ & _ & _ & (rows' & Hsel & Hiff & _) & _).
  { vm_compute. reflexivity. }
  split; [exact Hw|].
  exists rows'. split; [exact Hsel|].
  apply (Hiff (row " Ana@Example.COM " 7)).
  - left. reflexivity.
  - reflexivity.
  - vm_compute. reflexivity.
Defined.

(** The same at an address stored with a no-break space at its end:
    [strip] takes it off, the record is written without it, and on a server
    whose comparison ignores only the spaces at the end the pair is
    selected again. *)
Example sent_record_email_loses_the_no_break_space :
  log_email (log_values ana_nbsp 7 "wishlist_v1_24h" (at_ day_D 12 0 1 0))
  = "ana@example.com"
  /\ select_candidates (St := ci_store) cfg_24h db_nbsp
       (at_ (day_D - 1) 6 0 0 0) (at_ (day_D - 1) 18 0 0 0)
     = Ok [row ana_nbsp 7]
  /\ select_candidates (St := ci_store) cfg_24h
       (insert_log (St := ci_store) db_nbsp (lower (strip ana_nbsp)) 7
          "wishlist_v1_24h" (at_ day_D 12 0 1 0))
       (at_ (day_D - 1) 6 0 0 0) (at_ (day_D - 1) 18 0 0 0)
     = Ok [row ana_nbsp 7].
Proof. repeat split; vm_compute; reflexivity. Qed.

(** C1 at a guest row whose email was stored with a space in front: the
    guest is selected, the message is delivered to the stripped address and
    the sent record is written with it; the next selection of the same
    campaign returns the same pair again, and the next run delivers a
    second message. *)
Lemma exactly_once_fails_for_unnormalized_email :
  select_candidates (St := ci_store) cfg_24h db_space
    (at_ (day_D - 1) 6 0 0 0) (at_ (day_D - 1) 18 0 0 0)
  = Ok [row " ana@example.com" 7]
  /\ map (fun c => (mail_to c.1, c.2))
       (smtp_calls (script (St := ci_store) cfg_24h env_fine (world_of db_space)).1)
     = [("ana@example.com", Ok "<1@example.com>")]
  /\ email_log (db (script (St := ci_store) cfg_24h env_fine (world_of db_space)).1)
     = [log_values "ana@example.com" 7 "wishlist_v1_24h" (at_ day_D 12 0 1 0)]
  /\ select_candidates (St := ci_store) cfg_24h
       (db (script (St := ci_store) cfg_24h env_fine (world_of db_space)).1)
       (at_ (day_D - 1) 6 0 0 0) (at_ (day_D - 1) 18 0 0 0)
     = Ok [row " ana@example.com" 7]
  /\ map (fun c => (mail_to c.1, c.2))
       (smtp_calls
          (script (St := ci_store) cfg_24h env_fine
             (script (St := ci_store) cfg_24h env_fine (world_of db_space)).1).1)
     = [("ana@example.com", Ok "<1@example.com>");
        ("ana@example.com", Ok "<1@example.com>")].
Proof. repeat split; vm_compute; reflexivity. Qed.

(** The same with an email stored with capital letters, on a server that
    compares the column byte by byte. *)
Example exactly_once_fails_for_upper_case_email :
  email_log (db (script (St := binary_store) cfg_24h env_fine (world_of db_upper)).1)
  = [log_values "ana@example.com" 7 "wishlist_v1_24h" (at_ day_D 12 0 1 0)]
  /\ select_candidates (St := binary_store) cfg_24h
       (db (script (St := binary_store) cfg_24h env_fine (world_of db_upper)).1)
       (at_ (day_D - 1) 6 0 0 0) (at_ (day_D - 1) 18 0 0 0)
     = Ok [row "Ana@Example.com" 7].
Proof. split; vm_compute; reflexivity. Qed.

(** On the server that ignores case the stored capital letters do no harm:
    the pair is not selected again. *)
Example exactly_once_holds_when_collation_ignores_case :
  select_candidates (St := ci_store) cfg_24h
    (db (script (St := ci_store) cfg_24h env_fine (world_of db_upper)).1)
    (at_ (day_D - 1) 6 0 0 0) (at_ (day_D - 1) 18 0 0 0)
  = Ok [].
Proof. vm_compute. reflexivity. Qed.

End SentLogExamples.

(** * Further properties *)

(** ** The orchestrator: lock, order of the stages, sleeps, environment *)

Section OrchestratorMore.
Import Py orchestrator Samples.

Ltac trace_simpl :=
  repeat (unfold sleep, log, emit in *; cbn [trace lock_file calls] in * ).

Lemma run_worker_eq (env : Env) (ov : gmap string string) (w : World) :
  run_worker env ov w
  = ({| lock_file := lock_file w; calls := Datatypes.S (calls w);
        trace := trace w ++ worker_events env ov (calls w) |},
     call_result env (calls w)).
Proof.
  unfold run_worker, call_result, worker_events.
  destruct (worker_exists env (calls w)); cbn [negb];
    unfold log, emit; cbn [trace lock_file calls];
    rewrite <- !app_assoc; reflexivity.
Qed.

Lemma main_unfold (env : Env) (w : World) :
  main env w
  = match lock_file w with
    | Some _ =>
        Some ({| lock_file := lock_file w; calls := calls w;
                 trace := trace w ++ mode_logs env ++ [Log LockPresent] |}, Returned 0)
    | None =>
        match run_stages (retry_fuel env) env (common_overrides_of env) stages
                {| lock_file := Some (pretty (getpid env)); calls := calls w;
                   trace := trace w ++ mode_logs env |} with
        | Some (w2, out) => Some (release_lock w2, out)
        | None => None
        end
    end.
Proof.
  unfold main, acquire_lock, mode_logs, common_overrides_of.
  destruct (flag (getenv env "LOCAL_TEST_MODE" "false"));
    [destruct (environ env !! "TEST_DELAY_MIN") as [[|c t]|]|];
    trace_simpl; destruct (lock_file w); trace_simpl;
    rewrite <- ?app_assoc; reflexivity.
Qed.

(** A property of events that holds all along the retry loop of a stage. *)
Lemma retry_loop_events (P : Event -> Prop) (env : Env) (st : Stage)
    (ov : gmap string string) (fuel : nat) :
  (forall n, Forall P (worker_events env ov n)) ->
  (forall m, match m with WorkerStart _ => True | _ => P (Log m) end) ->
  P (Sleep 10) -> P (Sleep 30) ->
  forall attempt w w' c,
    0 <= attempt ->
    retry_loop fuel env st ov attempt w = Some (w', c) ->
    exists evs, trace w' = trace w ++ evs /\ Forall P evs.
Proof.
  intros Hw Hl H10 H30.
  induction fuel as [|fuel IH]; intros attempt w w' c Hatt Hrun; [discriminate|].
  cbn [retry_loop] in Hrun. rewrite run_worker_eq in Hrun.
  destruct (call_result env (calls w) =? 0).
  - injection Hrun as <- <-. eexists. split; [reflexivity | apply Hw].
  - destruct (attempt + 1 >? MAX_RETRIES env).
    + injection Hrun as <- <-. trace_simpl. rewrite <- app_assoc.
      eexists. split; [reflexivity|]. apply Forall_app. split; [apply Hw|].
      constructor; [exact (Hl (FatalStage _ _ _)) | constructor].
    + rewrite (sleep_for_attempt_pos (attempt + 1)) in Hrun by lia.
      apply IH in Hrun; [|lia]. destruct Hrun as (evs & Htr & Hevs).
      trace_simpl. rewrite <- !app_assoc in Htr.
      eexists. split; [exact Htr|].
      apply Forall_app. split; [apply Hw|].
      constructor; [exact (Hl (WarnRetry _ _ _ _))|]. constructor; [|exact Hevs].
      destruct (attempt + 1 =? 1); assumption.
Qed.

Lemma countdown_events (P : Event -> Prop) (n : nat) :
  (forall m, match m with WorkerStart _ => True | _ => P (Log m) end) -> P (Sleep 1) ->
  forall w, exists evs, trace (countdown n w) = trace w ++ evs /\ Forall P evs.
Proof.
  intros Hl H1. induction n as [|n IH]; intros w.
  - exists []. rewrite app_nil_r. auto.
  - cbn [countdown].
    destruct ((Z.of_nat (Datatypes.S n) mod 10 =? 0) || (Z.of_nat (Datatypes.S n) <=? 5)).
    + destruct (IH (log (Remaining (Z.of_nat (Datatypes.S n))) (sleep 1 w))) as (evs & -> & Hp).
      trace_simpl. rewrite <- !app_assoc. eexists. split; [reflexivity|].
      constructor; [exact H1|]. constructor; [exact (Hl (Remaining _)) | exact Hp].
    + destruct (IH (sleep 1 w)) as (evs & -> & Hp).
      trace_simpl. rewrite <- !app_assoc. eexists. split; [reflexivity|].
      constructor; [exact H1 | exact Hp].
Qed.

Lemma pause_after_events (P : Event -> Prop) (env : Env) (st : Stage) (w : World) :
  (forall m, match m with WorkerStart _ => True | _ => P (Log m) end) ->
  (flag (getenv env "LOCAL_TEST_MODE" "false") = true -> P (Sleep 1)) ->
  exists evs, trace (pause_after env st w).1 = trace w ++ evs /\ Forall P evs.
Proof.
  intros Hl H1. unfold pause_after.
  destruct (flag (getenv env "LOCAL_TEST_MODE" "false"));
    [|exists []; rewrite app_nil_r; auto].
  destruct (match environ env !! "TEST_DELAY_MIN" with
            | Some (String c t) => int (String c t)
            | _ => Ok (DELAY_AFTER_MIN st)
            end) as [d|e]; [|exists []; rewrite app_nil_r; auto].
  destruct (d >? 0); [|exists []; rewrite app_nil_r; auto].
  destruct (countdown_events P (Z.to_nat (d * 60)) Hl (H1 eq_refl) (log (Waiting d) w))
    as (evs & Htr & Hp).
  cbn [fst]. rewrite Htr. trace_simpl. rewrite <- app_assoc.
  eexists. split; [reflexivity|]. constructor; [exact (Hl (Waiting _)) | exact Hp].
Qed.

(** A property of events that holds all along the loop over the stages. *)
Lemma run_stages_events (P : Event -> Prop) (env : Env) (common : gmap string string)
    (fuel : nat) (sts : list Stage) :
  (forall st n, st ∈ sts -> Forall P (worker_events env (stage_dict st ∪ common) n)) ->
  (forall m, match m with WorkerStart _ => True | _ => P (Log m) end) ->
  P (Sleep 10) -> P (Sleep 30) ->
  (flag (getenv env "LOCAL_TEST_MODE" "false") = true -> P (Sleep 1)) ->
  forall w w' out,
    run_stages fuel env common sts w = Some (w', out) ->
    exists evs, trace w' = trace w ++ evs /\ Forall P evs.
Proof.
  intros Hw Hl H10 H30 H1.
  induction sts as [|st rest IH]; intros w w' out Hrun.
  - injection Hrun as <- <-. exists []. rewrite app_nil_r. auto.
  - cbn [run_stages] in Hrun.
    destruct (retry_loop fuel env st (stage_dict st ∪ common) 0 w) as [[w1 c]|] eqn:Hloop;
      [|discriminate].
    destruct (retry_loop_events P env st _ fuel (fun n => Hw st n (list_elem_of_here _ _))
                Hl H10 H30 _ _ _ _ (Z.le_refl 0) Hloop) as (evs1 & Htr1 & Hp1).
    destruct c as [|rc|e].
    + destruct (pause_after_events P env st w1 Hl H1) as (evs2 & Htr2 & Hp2).
      destruct (pause_after env st w1) as [w2 [[]|e]]; cbn [fst] in Htr2.
      * apply IH in Hrun.
        -- destruct Hrun as (evs3 & Htr3 & Hp3).
           exists (evs1 ++ evs2 ++ evs3). rewrite Htr3, Htr2, Htr1, <- !app_assoc.
           split; [reflexivity|]. rewrite !Forall_app. auto.
        -- intros st' n Hin. apply Hw. right. exact Hin.
      * injection Hrun as <- <-. exists (evs1 ++ evs2).
        rewrite Htr2, Htr1, <- app_assoc. split; [reflexivity|].
        rewrite Forall_app. auto.
    + injection Hrun as <- <-. eauto.
    + injection Hrun as <- <-. eauto.
Qed.

(** A property of events that holds all along a run of [main]. *)
Lemma main_events (P : Event -> Prop) (env : Env) (w w' : World) (out : Outcome) :
  main env w = Some (w', out) ->
  (forall st n, st ∈ stages ->
     Forall P (worker_events env (stage_dict st ∪ common_overrides_of env) n)) ->
  (forall m, match m with WorkerStart _ => True | _ => P (Log m) end) ->
  P (Sleep 10) -> P (Sleep 30) ->
  (flag (getenv env "LOCAL_TEST_MODE" "false") = true -> P (Sleep 1)) ->
  Forall P (new_events w w').
Proof.
  intros Hmain Hw Hl H10 H30 H1.
  assert (Hmode : Forall P (mode_logs env)).
  { unfold mode_logs. destruct (flag _); [destruct (environ env !! _) as [[|]|]|];
      repeat constructor;
      first [exact (Hl LocalTestMode) | exact (Hl (LocalTestDelay _))
            | exact (Hl ProductionMode)]. }
  rewrite main_unfold in Hmain.
  destruct (lock_file w) as [p|].
  - injection Hmain as <- <-. unfold new_events. cbn [trace].
    rewrite drop_app_length. apply Forall_app. split; [exact Hmode|].
    constructor; [exact (Hl LockPresent) | constructor].
  - destruct (run_stages _ _ _ _ _) as [[w2 out2]|] eqn:Hrun; [|discriminate].
    injection Hmain as <- <-.
    destruct (run_stages_events P env _ _ _ Hw Hl H10 H30 H1 _ _ _ Hrun)
      as (evs & Htr & Hp).
    cbn [trace] in Htr. unfold new_events, release_lock. cbn [trace].
    rewrite Htr, <- app_assoc, drop_app_length. apply Forall_app. split; assumption.
Qed.

(** With a worker that fails twice and then always succeeds, the first
    stage is called three times and the other two once. *)
Lemma main_fails_twice :
  match main env_fails_twice world_free with
  | Some (w', out) => Some (runs (new_events world_free w'), out)
  | None => None
  end = Some ([(Some "24", 1); (Some "24", 1); (Some "24", 0);
               (Some "48", 0); (Some "72", 0)], Returned 0).
Proof. vm_compute. reflexivity. Qed.

(** X1. A run of [main] that finds no lock file takes the lock for the time
    of the stage loop and always ends with the lock file removed: after the
    last stage, after a stage that used up its retries, and after an
    exception. *)
Theorem main_releases_the_lock (env : Env) (w : World) :
  lock_file w = None ->
  exists w2 out,
    run_stages (retry_fuel env) env (common_overrides_of env) stages
      {| lock_file := Some (pretty (getpid env)); calls := calls w;
         trace := trace w ++ mode_logs env |} = Some (w2, out)
    /\ lock_file w2 = Some (pretty (getpid env))
    /\ main env w = Some (release_lock w2, out)
    /\ lock_file (release_lock w2) = None.
Proof.
  intros Hfree. rewrite main_unfold, Hfree.
  destruct (run_stages_total env (common_overrides_of env) stages
              {| lock_file := Some (pretty (getpid env)); calls := calls w;
                 trace := trace w ++ mode_logs env |}) as (w2 & out & Hrun).
  exists w2, out. rewrite Hrun.
  destruct (run_stages_shape _ _ _ _ _ _ _ Hrun) as (_ & _ & Hlock & _).
  repeat split; auto.
Qed.

Lemma main_releases_the_lock_witness :
  exists w' out,
    main env_always_fails world_free = Some (w', out) /\ lock_file w' = None.
Proof.
  destruct (main_releases_the_lock env_always_fails world_free eq_refl)
    as (w2 & out & _ & _ & Hmain & Hlock).
  exists (release_lock w2), out. split; [exact Hmain | exact Hlock].
Defined.

Lemma shape_order (env : Env) (sts : list Stage) (rs : list (option string * Z))
    (out : Outcome) :
  stages_shape env sts rs out ->
  NoDup (map STAGE sts) ->
  forall pre st post rc,
    sts = pre ++ st :: post ->
    (Some (STAGE st), rc) ∈ rs ->
    forall st', st' ∈ pre -> (Some (STAGE st'), 0) ∈ rs.
Proof.
  induction 1 as [|h rest fails rc0 Hnz Hrc Hgt Hb|h rest fails e Hnz Hb He
                  |h rest fails rs out Hnz Hb He Hsh IH];
    intros Hnd pre st post rc Hsp Hin st' Hst'.
  - destruct pre; discriminate.
  - destruct pre as [|p pre]; [inversion Hst'|]. injection Hsp as -> ->.
    apply NoDup_cons in Hnd as [Hh _]. exfalso.
    apply list_elem_of_fmap in Hin as (x & [= Hl _] & _).
    apply Hh. rewrite <- Hl. apply list_elem_of_fmap. exists st. split; [reflexivity|].
    apply elem_of_app. right. left.
  - destruct pre as [|p pre]; [inversion Hst'|]. injection Hsp as -> ->.
    apply NoDup_cons in Hnd as [Hh _]. exfalso.
    apply list_elem_of_fmap in Hin as (x & [= Hl _] & _).
    apply Hh. rewrite <- Hl. apply list_elem_of_fmap. exists st. split; [reflexivity|].
    apply elem_of_app. right. left.
  - destruct pre as [|p pre]; [inversion Hst'|]. injection Hsp as -> ->.
    apply NoDup_cons in Hnd as [Hh Hnd].
    apply elem_of_app.
    apply elem_of_cons in Hst' as [->|Hst'].
    + left. apply list_elem_of_fmap. exists 0. split; [reflexivity|].
      apply elem_of_app. right. left.
    + right. apply (IH Hnd pre st post rc eq_refl); [|exact Hst'].
      apply elem_of_app in Hin as [Hin|Hin]; [|exact Hin].
      exfalso. apply list_elem_of_fmap in Hin as (x & [= Hl _] & _).
      apply Hh. rewrite <- Hl. apply list_elem_of_fmap. exists st. split; [reflexivity|].
      apply elem_of_app. right. left.
Qed.

(** X2. The stages run in the order of the list, each one only after every
    stage before it has ended with a call of the worker that returned 0. *)
Theorem stages_run_in_order (env : Env) (w w' : World) (out : Outcome) :
  main env w = Some (w', out) ->
  forall pre st post rc,
    stages = pre ++ st :: post ->
    (Some (STAGE st), rc) ∈ runs (new_events w w') ->
    forall st', st' ∈ pre -> (Some (STAGE st'), 0) ∈ runs (new_events w w').
Proof.
  intros Hmain pre st post rc Hsp Hin st' Hst'.
  rewrite main_unfold in Hmain.
  destruct (lock_file w) as [p|] eqn:Hl.
  - injection Hmain as <- <-. unfold new_events in Hin. cbn [trace] in Hin.
    rewrite drop_app_length, runs_app in Hin. exfalso.
    assert (Hnone : runs (mode_logs env) = []).
    { unfold mode_logs. destruct (flag _); [destruct (environ env !! _) as [[|]|]|];
        reflexivity. }
    rewrite Hnone in Hin. inversion Hin.
  - destruct (run_stages _ _ _ _ _) as [[w2 out2]|] eqn:Hrun; [|discriminate].
    injection Hmain as <- <-.
    destruct (run_stages_shape _ _ _ _ _ _ _ Hrun) as (evs & Htr & _ & Hsh).
    cbn [trace] in Htr.
    assert (Hne : runs (new_events w (release_lock w2)) = runs evs).
    { unfold new_events, release_lock. cbn [trace].
      rewrite Htr, <- app_assoc, drop_app_length, runs_app.
      unfold mode_logs. destruct (flag _); [destruct (environ env !! _) as [[|]|]|];
        reflexivity. }
    rewrite Hne in *.
    exact (shape_order _ _ _ _ Hsh stages_labels_distinct pre st post rc Hsp Hin st' Hst').
Qed.

Lemma stages_run_in_order_witness :
  exists w' out,
    main env_fails_twice world_free = Some (w', out)
    /\ (Some "24", 0) ∈ runs (new_events world_free w').
Proof.
  pose proof main_fails_twice as Hrun.
  destruct (main env_fails_twice world_free) as [[w' out]|] eqn:Hmain; [|discriminate].
  injection Hrun as Hruns _.
  exists w', out. split; [reflexivity|].
  apply (stages_run_in_order env_fails_twice world_free w' out Hmain
           [stage_24] stage_48 [stage_72] 0 eq_refl) with (st' := stage_24); [|left].
  rewrite Hruns. right. right. right. left.
Defined.

Lemma runs_mode_logs (env : Env) : runs (mode_logs env) = [].
Proof.
  unfold mode_logs. destruct (flag _); [destruct (environ env !! _) as [[|]|]|];
    reflexivity.
Qed.

Lemma sleeps_mode_logs (env : Env) : sleeps (mode_logs env) = [].
Proof.
  unfold mode_logs. destruct (flag _); [destruct (environ env !! _) as [[|]|]|];
    reflexivity.
Qed.

Lemma shape_bound (env : Env) (sts : list Stage) (rs : list (option string * Z))
    (out : Outcome) :
  stages_shape env sts rs out ->
  Z.of_nat (length rs) <= Z.of_nat (length sts) * (Z.max 0 (MAX_RETRIES env) + 1).
Proof.
  induction 1 as [|h rest fails rc0 Hnz Hrc Hgt Hb|h rest fails e Hnz Hb He
                  |h rest fails rs out Hnz Hb He Hsh IH];
    cbn [length]; rewrite ?length_app, ?length_map, ?length_app; cbn [length];
    rewrite ?Nat2Z.inj_succ, ?Nat2Z.inj_add, ?Z.mul_succ_l; cbn [Z.of_nat].
  - lia.
  - assert (0 <= Z.of_nat (length rest) * (Z.max 0 (MAX_RETRIES env) + 1)) by lia.
    destruct Hb as [->|Hb]; cbn [length]; lia.
  - assert (0 <= Z.of_nat (length rest) * (Z.max 0 (MAX_RETRIES env) + 1)) by lia.
    destruct Hb as [->|Hb]; cbn [length]; lia.
  - destruct Hb as [->|Hb]; cbn [length]; lia.
Qed.

(** X3. Whatever the worker does, a run of [main] calls it at most
    3 * (max(0, MAX_RETRIES) + 1) times. *)
Theorem worker_calls_are_bounded (env : Env) (w w' : World) (out : Outcome) :
  main env w = Some (w', out) ->
  Z.of_nat (length (runs (new_events w w'))) <= 3 * (Z.max 0 (MAX_RETRIES env) + 1).
Proof.
  intros Hmain. rewrite main_unfold in Hmain.
  destruct (lock_file w) as [p|] eqn:Hl.
  - injection Hmain as <- <-. unfold new_events. cbn [trace].
    rewrite drop_app_length, runs_app, runs_mode_logs. cbn. lia.
  - destruct (run_stages _ _ _ _ _) as [[w2 out2]|] eqn:Hrun; [|discriminate].
    injection Hmain as <- <-.
    destruct (run_stages_shape _ _ _ _ _ _ _ Hrun) as (evs & Htr & _ & Hsh).
    cbn [trace] in Htr. unfold new_events, release_lock. cbn [trace].
    rewrite Htr, <- app_assoc, drop_app_length, runs_app, runs_mode_logs.
    apply shape_bound in Hsh. cbn [app length stages] in *. lia.
Qed.

Lemma worker_calls_are_bounded_witness :
  exists w' out,
    main env_always_fails world_free = Some (w', out)
    /\ Z.of_nat (length (runs (new_events world_free w'))) <= 9.
Proof.
  pose proof main_always_fails as Hrun.
  destruct (main env_always_fails world_free) as [[w' out]|] eqn:Hmain; [|discriminate].
  exists w', out. split; [reflexivity|].
  exact (worker_calls_are_bounded env_always_fails world_free w' out Hmain).
Defined.

Lemma sleeps_Forall (Q : Z -> Prop) (evs : list Event) :
  Forall (fun ev => match ev with Sleep d => Q d | _ => True end) evs ->
  Forall Q (sleeps evs).
Proof.
  induction 1 as [|ev evs Hev _ IH]; [constructor|].
  destruct ev; cbn; try exact IH. constructor; assumption.
Qed.

(** X4. Outside the local test mode the orchestrator sleeps only to back
    off before a retry: every sleep of a run lasts 10 or 30 seconds. *)
Theorem production_mode_sleeps_only_to_back_off (env : Env) (w w' : World)
    (out : Outcome) :
  flag (getenv env "LOCAL_TEST_MODE" "false") = false ->
  main env w = Some (w', out) ->
  Forall (fun d => d = 10 \/ d = 30) (sleeps (new_events w w')).
Proof.
  intros Hprod Hmain. apply sleeps_Forall.
  apply (main_events _ env w w' out Hmain); auto; try congruence.
  - intros st n _. unfold worker_events. destruct (worker_exists env n);
      repeat constructor.
  - intros []; exact I.
Qed.

Lemma production_mode_sleeps_only_to_back_off_witness :
  exists w' out,
    main env_fails_twice world_free = Some (w', out)
    /\ Forall (fun d => d = 10 \/ d = 30) (sleeps (new_events world_free w')).
Proof.
  pose proof main_fails_twice as Hrun.
  destruct (main env_fails_twice world_free) as [[w' out]|] eqn:Hmain; [|discriminate].
  exists w', out. split; [reflexivity|].
  exact (production_mode_sleeps_only_to_back_off env_fails_twice world_free w' out
           eq_refl Hmain).
Defined.

Lemma remaining_app (a b : list Event) : remaining (a ++ b) = remaining a ++ remaining b.
Proof. apply omap_app. Qed.

Lemma popens_app (a b : list Event) : popens (a ++ b) = popens a ++ popens b.
Proof. apply omap_app. Qed.

(** The countdown of [n] seconds: one sleep of a second each, and a line
    for the seconds still to go that are multiples of ten or at most five. *)
Lemma countdown_trace (n : nat) :
  forall w, exists evs,
    trace (countdown n w) = trace w ++ evs
    /\ sleeps evs = replicate n 1
    /\ remaining evs
       = filter (fun s => s mod 10 = 0 \/ s <= 5)
           (map Z.of_nat (rev (seq 1 n))).
Proof.
  induction n as [|n IH]; intros w.
  - exists []. rewrite app_nil_r. auto.
  - cbn [countdown].
    replace (rev (seq 1 (Datatypes.S n))) with (Datatypes.S n :: rev (seq 1 n)).
    2:{ rewrite seq_S, rev_app_distr. reflexivity. }
    cbn [map]. rewrite filter_cons.
    destruct ((Z.of_nat (Datatypes.S n) mod 10 =? 0) || (Z.of_nat (Datatypes.S n) <=? 5))
      eqn:Hc.
    + destruct (IH (log (Remaining (Z.of_nat (Datatypes.S n))) (sleep 1 w)))
        as (evs & -> & Hs & Hr).
      trace_simpl. rewrite <- !app_assoc. eexists. split; [reflexivity|].
      cbn [app]. split; [cbn; f_equal; exact Hs|].
      apply orb_true_iff in Hc. rewrite Z.eqb_eq, Z.leb_le in Hc.
      rewrite decide_True by exact Hc. cbn. f_equal. exact Hr.
    + destruct (IH (sleep 1 w)) as (evs & -> & Hs & Hr).
      trace_simpl. rewrite <- !app_assoc. eexists. split; [reflexivity|].
      cbn [app]. split; [cbn; f_equal; exact Hs|].
      apply orb_false_iff in Hc as [Hc1 Hc2].
      apply Z.eqb_neq in Hc1. apply Z.leb_gt in Hc2.
      rewrite decide_False by lia. cbn. exact Hr.
Qed.

(** X5. In local test mode the pause after a stage lasts the configured
    minutes, slept one second at a time, and the seconds still to go are
    logged when they are a multiple of ten or at most five; [TEST_DELAY_MIN],
    when set, replaces the delay of every stage. *)
Theorem test_mode_pause (env : Env) (st : Stage) (w : World) (d : Z) :
  flag (getenv env "LOCAL_TEST_MODE" "false") = true ->
  delay_min_of env st = Ok d ->
  0 < d ->
  exists w',
    pause_after env st w = (w', Ok tt)
    /\ sleeps (new_events w w') = replicate (Z.to_nat (60 * d)) 1
    /\ forall s, s ∈ remaining (new_events w w')
                 <-> 1 <= s <= 60 * d /\ (s mod 10 = 0 \/ s <= 5).
Proof.
  intros Hmode Hd Hpos. unfold pause_after. rewrite Hmode.
  unfold delay_min_of in Hd. rewrite Hd.
  replace (d >? 0) with true by lia.
  destruct (countdown_trace (Z.to_nat (d * 60)) (log (Waiting d) w))
    as (evs & Htr & Hs & Hr).
  eexists. split; [reflexivity|].
  unfold new_events. rewrite Htr. trace_simpl.
  rewrite <- app_assoc, drop_app_length. cbn [app].
  replace (60 * d) with (d * 60) by lia.
  split; [exact Hs|].
  intros s. change (remaining (Log (Waiting d) :: evs)) with (remaining evs).
  rewrite Hr, list_elem_of_filter, list_elem_of_fmap.
  split.
  - intros (Hc & k & -> & Hk).
    rewrite list_elem_of_In, <- in_rev, <- list_elem_of_In, elem_of_seq in Hk. lia.
  - intros (Hb & Hc). split; [exact Hc|]. exists (Z.to_nat s).
    split; [lia|].
    rewrite list_elem_of_In, <- in_rev, <- list_elem_of_In, elem_of_seq. lia.
Qed.

Lemma test_mode_pause_witness :
  exists w',
    pause_after env_test_mode stage_72 world_free = (w', Ok tt)
    /\ sleeps (new_events world_free w') = replicate 60 1
    /\ (10 ∈ remaining (new_events world_free w'))
    /\ ~ (11 ∈ remaining (new_events world_free w')).
Proof.
  destruct (test_mode_pause env_test_mode stage_72 world_free 1 eq_refl eq_refl)
    as (w' & Hp & Hs & Hr); [lia|].
  exists w'. split; [exact Hp|]. split; [exact Hs|]. split.
  - apply Hr. split; [lia|]. left. reflexivity.
  - intros H. apply Hr in H as (_ & [H|H]); [discriminate H | lia].
Defined.

Lemma runs_worker_events (env : Env) (ov : gmap string string) (n : nat) :
  runs (worker_events env ov n) = [(ov !! "STAGE", call_result env n)].
Proof.
  unfold worker_events, call_result. destruct (worker_exists env n); reflexivity.
Qed.

Lemma int_raises_ValueError (s : string) (e : exn) : int s = Py.Raise e -> e = ValueError.
Proof.
  unfold int. cbv zeta.
  match goal with |- context [let '(_, _) := ?p in _] => destruct p as [sign ds] end.
  destruct (digits 0 true ds); congruence.
Qed.

(** X6. In local test mode a [TEST_DELAY_MIN] that is no number is found
    only after the first stage has run: [main] ends with a [ValueError]
    (exit status 1) after the successful call of the 24 h worker, the other
    stages are not run, and the lock file is removed. *)
Theorem unreadable_test_delay_stops_after_first_stage (env : Env) (w : World) (e : exn) :
  test_delay_error env = Some e ->
  lock_file w = None ->
  call_result env (calls w) = 0 ->
  exists w',
    main env w = Some (w', Failed e)
    /\ e = ValueError
    /\ exit_status (Failed e) = 1
    /\ lock_file w' = None
    /\ runs (new_events w w') = [(Some "24", 0)].
Proof.
  intros He Hfree Hrc. rewrite main_unfold, Hfree.
  unfold stages, retry_fuel. cbn [run_stages retry_loop].
  rewrite run_worker_eq. cbn [calls]. rewrite Hrc. cbn [Z.eqb].
  match goal with |- context [pause_after env stage_24 ?w1] =>
    destruct (pause_after_spec env stage_24 w1) as (evs & r & Hp & Hruns & Hr);
    rewrite Hp end.
  destruct r as [[]|e']; rewrite He in Hr; [discriminate|]. injection Hr as <-.
  eexists. split; [reflexivity|]. split.
  - unfold test_delay_error in He.
    destruct (flag _); [|discriminate].
    destruct (environ env !! "TEST_DELAY_MIN") as [[|c t]|]; try discriminate.
    destruct (int (String c t)) eqn:Hi; [discriminate|].
    injection He as <-. exact (int_raises_ValueError _ _ Hi).
  - split; [reflexivity|]. split; [reflexivity|].
    unfold new_events, release_lock. cbn [trace lock_file calls].
    rewrite <- !app_assoc, drop_app_length, !runs_app, runs_mode_logs, Hruns.
    rewrite runs_worker_events, stage_label, Hrc. reflexivity.
Qed.

Lemma unreadable_test_delay_stops_after_first_stage_witness :
  exists w',
    main env_bad_delay world_free = Some (w', Failed ValueError)
    /\ lock_file w' = None
    /\ runs (new_events world_free w') = [(Some "24", 0)].
Proof.
  destruct (unreadable_test_delay_stops_after_first_stage env_bad_delay world_free
              ValueError eq_refl eq_refl eq_refl) as (w' & Hm & _ & _ & Hl & Hr).
  exists w'. auto.
Defined.

Lemma lookup_redact (ov : gmap string string) (k : string) :
  _redact_env_for_log ov !! k
  = (fun v => if bool_decide (k ∈ ["SUBJECT"; "SMTP_PASS"; "DB_PASS"])
              then "***redacted***" else v) <$> ov !! k.
Proof.
  unfold _redact_env_for_log. rewrite map_lookup_imap.
  destruct (ov !! k); reflexivity.
Qed.

(** The keys of the overrides of a stage. *)
Lemma overrides_keys (env : Env) (st : Stage) (k : string) :
  k ∉ ["STAGE"; "TARGET_HOURS"; "WINDOW_TOLERANCE_H"; "CAMPAIGN_KEY";
       "TEMPLATE_FILE"; "SUBJECT"; "DELAY_AFTER_MIN"; "MAX_BATCH"; "SEND_EMAILS"] ->
  (stage_dict st ∪ common_overrides_of env) !! k = None.
Proof.
  intros Hk. rewrite !not_elem_of_cons in Hk.
  destruct Hk as (H1 & H2 & H3 & H4 & H5 & H6 & H7 & H8 & H9 & _).
  apply lookup_union_None. unfold stage_dict, common_overrides_of.
  split; repeat (rewrite lookup_insert_ne by congruence);
    rewrite lookup_singleton_ne by congruence; reflexivity.
Qed.

(** What the calls of the worker in a run of [main] are made with. *)
Lemma main_worker_events (env : Env) (w w' : World) (out : Outcome) :
  main env w = Some (w', out) ->
  Forall (fun ev =>
            match ev with
            | Log (WorkerStart m) =>
                exists st, st ∈ stages
                  /\ m = _redact_env_for_log (stage_dict st ∪ common_overrides_of env)
            | Popen e =>
                exists st, st ∈ stages
                  /\ e = stage_dict st ∪ common_overrides_of env ∪ environ env
            | _ => True
            end) (new_events w w').
Proof.
  intros Hmain. apply (main_events _ env w w' out Hmain); auto.
  - intros st n Hst. unfold worker_events. destruct (worker_exists env n);
      repeat constructor; exists st; auto.
  - intros []; exact I.
Qed.

(** X7. Every line that announces a call of the worker shows the overrides
    of one of the three stages with the subject replaced by the redaction
    mark; the other entries are shown as they are passed. *)
Theorem logged_overrides_hide_the_subject (env : Env) (w w' : World) (out : Outcome)
    (m : gmap string string) :
  main env w = Some (w', out) ->
  Log (WorkerStart m) ∈ new_events w w' ->
  exists st, st ∈ stages
    /\ m !! "SUBJECT" = Some "***redacted***"
    /\ forall k, k <> "SUBJECT" ->
          m !! k = (stage_dict st ∪ common_overrides_of env) !! k.
Proof.
  intros Hmain Hin.
  pose proof (main_worker_events env w w' out Hmain) as Hall.
  rewrite Forall_forall in Hall. destruct (Hall _ Hin) as (st & Hst & ->).
  exists st. split; [exact Hst|]. split.
  - rewrite lookup_redact.
    replace ((stage_dict st ∪ common_overrides_of env) !! "SUBJECT")
      with (Some (SUBJECT st)) by (symmetry; apply lookup_union_Some_l; reflexivity).
    reflexivity.
  - intros k Hk. rewrite lookup_redact.
    destruct ((stage_dict st ∪ common_overrides_of env) !! k) as [v|] eqn:Hv;
      [|reflexivity].
    cbn. destruct (bool_decide_reflect (k ∈ ["SUBJECT"; "SMTP_PASS"; "DB_PASS"]))
      as [Hred|_]; [|reflexivity].
    exfalso. rewrite !elem_of_cons in Hred.
    destruct Hred as [->|[->|[->|Hred]]]; [congruence| | |inversion Hred].
    + rewrite overrides_keys in Hv; [discriminate|].
      rewrite !not_elem_of_cons. repeat split; try discriminate; apply not_elem_of_nil.
    + rewrite overrides_keys in Hv; [discriminate|].
      rewrite !not_elem_of_cons. repeat split; try discriminate; apply not_elem_of_nil.
Qed.

(** The first events of a production run whose worker succeeds. *)
Lemma main_live_events :
  match main env_live world_free with
  | Some (w', _) => take 3 (new_events world_free w')
  | None => []
  end
  = [Log ProductionMode;
     Log (WorkerStart
            (_redact_env_for_log (stage_dict stage_24 ∪ common_overrides_of env_live)));
     Popen (stage_dict stage_24 ∪ common_overrides_of env_live ∪ environ env_live)].
Proof. vm_compute. reflexivity. Qed.

Lemma overrides_common (env : Env) (st : Stage) :
  (stage_dict st ∪ common_overrides_of env) !! "MAX_BATCH"
  = Some (getenv env "MAX_BATCH" "300")
  /\ (stage_dict st ∪ common_overrides_of env) !! "SEND_EMAILS"
     = Some (getenv env "SEND_EMAILS" "false").
Proof.
  split; rewrite lookup_union_r by reflexivity; reflexivity.
Qed.

Lemma logged_overrides_hide_the_subject_witness :
  exists w' out m,
    main env_live world_free = Some (w', out)
    /\ Log (WorkerStart m) ∈ new_events world_free w'
    /\ m !! "SUBJECT" = Some "***redacted***"
    /\ m !! "SEND_EMAILS" = Some "true".
Proof.
  pose proof main_live_events as Hev.
  destruct (main env_live world_free) as [[w' out]|] eqn:Hmain; [|discriminate].
  assert (Hin : Log (WorkerStart
                       (_redact_env_for_log
                          (stage_dict stage_24 ∪ common_overrides_of env_live)))
                ∈ new_events world_free w').
  { apply (subseteq_take 3). rewrite Hev. right. left. }
  destruct (logged_overrides_hide_the_subject env_live world_free w' out _ Hmain Hin)
    as (st & _ & Hsub & Hrest).
  eexists w', out, _. split; [reflexivity|]. split; [exact Hin|].
  split; [exact Hsub|].
  rewrite Hrest by discriminate. apply overrides_common.
Defined.

(** X8. Every worker process of a run is started with the environment of
    the orchestrator, in which the settings of one of the three stages and
    [MAX_BATCH] and [SEND_EMAILS] (300 and false unless the orchestrator's
    environment sets them) replace the variables of the same name; every
    other variable is passed on unchanged. *)
Theorem worker_environment (env : Env) (w w' : World) (out : Outcome)
    (e : gmap string string) :
  main env w = Some (w', out) ->
  e ∈ popens (new_events w w') ->
  exists st, st ∈ stages
    /\ e !! "STAGE" = Some (STAGE st)
    /\ e !! "TARGET_HOURS" = Some (TARGET_HOURS st)
    /\ e !! "WINDOW_TOLERANCE_H" = Some (WINDOW_TOLERANCE_H st)
    /\ e !! "CAMPAIGN_KEY" = Some (CAMPAIGN_KEY st)
    /\ e !! "TEMPLATE_FILE" = Some (TEMPLATE_FILE st)
    /\ e !! "SUBJECT" = Some (SUBJECT st)
    /\ e !! "MAX_BATCH" = Some (getenv env "MAX_BATCH" "300")
    /\ e !! "SEND_EMAILS" = Some (getenv env "SEND_EMAILS" "false")
    /\ forall k,
         k ∉ ["STAGE"; "TARGET_HOURS"; "WINDOW_TOLERANCE_H"; "CAMPAIGN_KEY";
              "TEMPLATE_FILE"; "SUBJECT"; "DELAY_AFTER_MIN"; "MAX_BATCH";
              "SEND_EMAILS"] ->
         e !! k = environ env !! k.
Proof.
  intros Hmain Hin.
  pose proof (main_worker_events env w w' out Hmain) as Hall.
  apply list_elem_of_omap in Hin as (ev & Hev & Hpop).
  destruct ev as [| e0 | |]; try discriminate. injection Hpop as ->.
  rewrite Forall_forall in Hall. destruct (Hall _ Hev) as (st & Hst & ->).
  exists st. split; [exact Hst|].
  destruct (overrides_common env st) as [Hb Hs].
  repeat split;
    try (apply lookup_union_Some_l, lookup_union_Some_l; reflexivity);
    try (apply lookup_union_Some_l; assumption).
  intros k Hk. apply lookup_union_r, overrides_keys, Hk.
Qed.

Lemma worker_environment_witness :
  exists w' out e,
    main env_live world_free = Some (w', out)
    /\ e ∈ popens (new_events world_free w')
    /\ e !! "STAGE" <> Some "99"
    /\ e !! "SEND_EMAILS" = Some "true"
    /\ e !! "SMTP_PASS" = Some "secret".
Proof.
  pose proof main_live_events as Hev.
  destruct (main env_live world_free) as [[w' out]|] eqn:Hmain; [|discriminate].
  assert (Hin : stage_dict stage_24 ∪ common_overrides_of env_live ∪ environ env_live
                ∈ popens (new_events world_free w')).
  { apply list_elem_of_omap. exists (Popen (stage_dict stage_24
                                       ∪ common_overrides_of env_live ∪ environ env_live)).
    split; [|reflexivity]. apply (subseteq_take 3). rewrite Hev. right. right. left. }
  destruct (worker_environment env_live world_free w' out _ Hmain Hin)
    as (st & Hst & Hstage & _ & _ & _ & _ & _ & _ & Hsend & Hrest).
  eexists w', out, _. split; [reflexivity|]. split; [exact Hin|].
  split.
  - rewrite Hstage. unfold stages in Hst. rewrite !elem_of_cons in Hst.
    destruct Hst as [->|[->|[->|Hst]]]; [discriminate..|inversion Hst].
  - split; [exact Hsend|]. rewrite Hrest; [reflexivity|].
    rewrite !not_elem_of_cons. repeat split; try discriminate; apply not_elem_of_nil.
Defined.

End OrchestratorMore.

(** ** The worker: offsets and windows *)

Section WindowsMore.
Import Py datetime wishlist_reminder Samples.

Lemma digit_char (c : ascii) :
  48 <= code c <= 57 ->
  isspace c = false
  /\ Ascii.eqb c "-" = false /\ Ascii.eqb c "+" = false
  /\ Ascii.eqb c "_" = false /\ Ascii.eqb c ":" = false
  /\ (48 <=? code c) && (code c <=? 57) = true.
Proof.
  intros H. assert (Hb : (48 <=? code c) && (code c <=? 57) = true) by lia.
  clear H. destruct c as [[] [] [] [] [] [] [] []]; vm_compute in Hb; try discriminate;
    repeat split.
Qed.

Lemma digit_int_space (c : ascii) : 48 <= code c <= 57 -> int_space c = false.
Proof.
  intros H. assert (Hb : (48 <=? code c) && (code c <=? 57) = true) by lia.
  clear H. destruct c as [[] [] [] [] [] [] [] []]; vm_compute in Hb; try discriminate;
    reflexivity.
Qed.

Lemma int_two_digits (a b : ascii) :
  48 <= code a <= 57 -> 48 <= code b <= 57 ->
  int (String a (String b "")) = Ok (10 * (code a - 48) + (code b - 48)).
Proof.
  intros Ha Hb.
  destruct (digit_char a Ha) as (Ha1 & Ha2 & Ha3 & Ha4 & _ & Ha6).
  destruct (digit_char b Hb) as (Hb1 & _ & _ & Hb4 & _ & Hb6).
  pose proof (digit_int_space a Ha) as Ha0. pose proof (digit_int_space b Hb) as Hb0.
  unfold int, rstrip_by.
  cbn [list_ascii_of_string lstrip_by]. rewrite Ha0.
  cbn [rev app lstrip_by]. rewrite Hb0.
  cbn [rev app].
  rewrite Ha2, Ha3. cbn [digits]. rewrite Ha4, Ha6, Hb4, Hb6.
  f_equal. lia.
Qed.

(** X9. An offset text of the form sign, two digits, colon, two digits is
    read as that many hours and minutes, and the sign applies to both:
    -06:00 is minus six hours, -05:30 is minus five and a half hours. *)
Theorem offset_text_is_hours_and_minutes (sg a b c d : ascii) :
  sg = "+"%char \/ sg = "-"%char ->
  48 <= code a <= 57 -> 48 <= code b <= 57 ->
  48 <= code c <= 57 -> 48 <= code d <= 57 ->
  parse_tz_offset_to_delta
    (String sg (String a (String b (String ":" (String c (String d ""))))))
  = Ok ((if Ascii.eqb sg "-" then -1 else 1)
        * ((10 * (code a - 48) + (code b - 48)) * US_PER_HOUR
           + (10 * (code c - 48) + (code d - 48)) * US_PER_MINUTE)).
Proof.
  intros Hsg Ha Hb Hc Hd.
  pose proof (int_two_digits a b Ha Hb) as Hh.
  pose proof (int_two_digits c d Hc Hd) as Hm.
  destruct (digit_char a Ha) as (Ha1 & Ha2 & Ha3 & _ & Ha5 & _).
  destruct (digit_char b Hb) as (_ & _ & _ & _ & Hb5 & _).
  destruct (digit_char c Hc) as (_ & _ & _ & _ & Hc5 & _).
  destruct (digit_char d Hd) as (Hd1 & _ & _ & _ & Hd5 & _).
  assert (Hs : isspace sg = false) by (destruct Hsg as [->| ->]; reflexivity).
  unfold parse_tz_offset_to_delta, strip, rstrip_by.
  cbn [list_ascii_of_string lstrip_by]. rewrite Hs.
  cbn [rev app lstrip_by]. rewrite Hd1.
  cbn [rev app string_of_list_ascii].
  unfold lstrip_chars, split. cbn [list_ascii_of_string lstrip_by existsb].
  assert (Hlead : Ascii.eqb sg "+" || (Ascii.eqb sg "-" || false) = true)
    by (destruct Hsg as [->| ->]; reflexivity).
  rewrite Hlead, Ha3, Ha2. cbn [orb string_of_list_ascii list_ascii_of_string split_on].
  rewrite Ha5, Hb5. cbn [Ascii.eqb Bool.eqb split_on rev app string_of_list_ascii].
  rewrite Hc5, Hd5. cbn [split_on rev app string_of_list_ascii].
  rewrite Hh. cbn [mbind res_bind Py.bind]. rewrite Hm. cbn [mbind res_bind Py.bind].
  unfold startswith, timedelta. rewrite (Ascii.eqb_sym "-" sg). f_equal; lia.
Qed.

Lemma offset_text_is_hours_and_minutes_witness :
  parse_tz_offset_to_delta "-05:30" = Ok (- (5 * US_PER_HOUR + 30 * US_PER_MINUTE)).
Proof.
  rewrite (offset_text_is_hours_and_minutes "-" "0" "5" "3" "0");
    [reflexivity | right; reflexivity | | | |]; vm_compute; split; discriminate.
Defined.

(** X10. The window of the fixed local day mode is one day less a
    microsecond wide, it holds the instant that lies days_back whole days
    before now, and it ends before now. *)
Theorem fixed_window_holds_the_instant_days_back (now T : Z) (tz : string) (s e : Z) :
  day_bounds_utc_for_target_fixed_8am now T tz = Ok (s, e) ->
  e - s = US_PER_DAY - 1
  /\ s <= now - days_back T * US_PER_DAY <= e
  /\ e < now.
Proof.
  unfold day_bounds_utc_for_target_fixed_8am.
  destruct (parse_tz_offset_to_delta tz) as [off|x]; [|discriminate].
  cbn [mbind res_bind Py.bind]. intros [= <- <-].
  assert (Hk : 1 <= days_back T) by (unfold days_back; lia).
  revert Hk. generalize (days_back T). intros k Hk.
  unfold combine, date, min_time, max_time, time, US_PER_DAY, US_PER_HOUR,
    US_PER_MINUTE, US_PER_SECOND.
  pose proof (Z.div_mod (now + off) (86400 * 1000000) ltac:(lia)) as Hdm.
  pose proof (Z.mod_pos_bound (now + off) (86400 * 1000000) ltac:(lia)) as Hmb.
  nia.
Qed.

Lemma fixed_window_holds_the_instant_days_back_witness :
  exists s e,
    day_bounds_utc_for_target_fixed_8am (at_ day_D 9 0 0 0) 48 "-06:00" = Ok (s, e)
    /\ s <= at_ (day_D - 2) 9 0 0 0 <= e.
Proof.
  destruct (day_bounds_utc_for_target_fixed_8am (at_ day_D 9 0 0 0) 48 "-06:00")
    as [[s e]|x] eqn:Hw; [|vm_compute in Hw; discriminate].
  exists s, e. split; [reflexivity|].
  exact (proj1 (proj2 (fixed_window_holds_the_instant_days_back _ _ _ s e Hw))).
Defined.

End WindowsMore.

(** ** The worker: what the selection returns *)

Section SelectionMore.
Import Py datetime wishlist_reminder.
Context {St : Store} {SL : StoreLaws St}.

Lemma filter_all_false {A} (f : A -> bool) (l : list A) :
  (forall x, In x l -> f x = false) -> List.filter f l = [].
Proof.
  induction l as [|x t IH]; intros Hf; [reflexivity|]. cbn [List.filter].
  rewrite (Hf x (or_introl eq_refl)). apply IH. intros y Hy. apply Hf. right. exact Hy.
Qed.

(** No instant lies in a window whose end is before its start. *)
Lemma candidates_query_inverted (db : DB) (c tz : string) (lo hi : Z) :
  hi < lo -> candidates_query db c tz lo hi = [].
Proof.
  intros Hinv. unfold candidates_query. rewrite filter_all_false; [reflexivity|].
  intros [[[e wl] it] lg] _. cbn [where_clause]. unfold in_window.
  destruct (convert_tz (ge_created_at e) tz) as [t|]; [|reflexivity].
  replace ((lo <=? t) && (t <=? hi)) with false by lia. reflexivity.
Qed.

(** X11. With a negative tolerance the relative window is inverted and
    nobody is selected, whatever the store holds; the same with a batch
    limit of 0. *)
Theorem empty_window_selects_nobody (cfg : Config) (db : DB) (now : Z) :
  0 <= MAX_BATCH cfg ->
  WINDOW_TOLERANCE_H cfg < 0 \/ MAX_BATCH cfg = 0 ->
  select_candidates cfg db (stage_window_bounds_relative cfg now).1
    (stage_window_bounds_relative cfg now).2 = Ok [].
Proof.
  intros Hb Hcase. unfold select_candidates.
  replace (MAX_BATCH cfg <? 0) with false by lia.
  destruct Hcase as [Hneg|Hzero]; [|rewrite Hzero; reflexivity].
  rewrite candidates_query_inverted; [rewrite take_nil; reflexivity|].
  unfold stage_window_bounds_relative, timedelta. cbn [fst snd].
  unfold strftime_seconds, US_PER_DAY, US_PER_HOUR, US_PER_MINUTE, US_PER_SECOND.
  set (T := TARGET_HOURS cfg). set (W := WINDOW_TOLERANCE_H cfg) in *.
  set (hi := now - (0 * (86400 * 1000000) + (T - W) * (3600 * 1000000) + 0 * (60 * 1000000))).
  set (lo := now - (0 * (86400 * 1000000) + (T + W) * (3600 * 1000000) + 0 * (60 * 1000000))).
  assert (Hd : hi + 1000000 <= lo) by (subst hi lo; lia).
  pose proof (Z.div_mod hi 1000000 ltac:(lia)).
  pose proof (Z.mod_pos_bound hi 1000000 ltac:(lia)).
  pose proof (Z.div_mod lo 1000000 ltac:(lia)).
  pose proof (Z.mod_pos_bound lo 1000000 ltac:(lia)).
  lia.
Qed.

(** Every row that goes into DISTINCT is equal, under the collation, to a
    row that comes out of it. *)
Lemma distinct_complete (l : list Row) :
  forall seen r,
    In r l ->
    (exists s, In s seen /\ row_eq r s = true)
    \/ (exists r', In r' (distinct seen l) /\ row_eq r r' = true).
Proof.
  induction l as [|a t IH]; intros seen r Hin; [destruct Hin|].
  cbn [distinct]. destruct (existsb (row_eq a) seen) eqn:Ha.
  - destruct Hin as [<-|Hin]; [|apply IH; exact Hin].
    left. apply existsb_exists in Ha as (s & Hs & Has). exists s. auto.
  - destruct Hin as [<-|Hin].
    + right. exists a. split; [left; reflexivity | apply row_eq_refl].
    + destruct (IH (a :: seen) r Hin) as [(s & [<-|Hs] & Hrs)|(r' & Hr' & Hrr')].
      * right. exists a. split; [left; reflexivity | exact Hrs].
      * left. exists s. auto.
      * right. exists r'. split; [right; exact Hr' | exact Hrr'].
Qed.

(** X12. When the selection returns fewer rows than the batch limit, it
    misses nobody: every guest row whose creation time, converted to UTC,
    lies in the window (bounds cut to whole seconds), whose wishlist exists
    and has an item, and that no row of the sent log stands against, is in
    the result, up to the comparison of emails of the server. *)
Theorem selection_is_complete_below_the_limit (cfg : Config) (db : DB)
    (start_utc end_utc : Z) (rows : list Row)
    (e : GuestEmail) (wl : WList) (it : Item) (t : Z) :
  select_candidates cfg db start_utc end_utc = Ok rows ->
  Z.of_nat (length rows) < MAX_BATCH cfg ->
  In e (guest_emails db) -> In wl (lists db) -> In it (items db) ->
  wl_ID wl = ge_wishlist_id e ->
  it_wishlist_id it = wl_ID wl ->
  convert_tz (ge_created_at e) (LOCAL_TZ_OFFSET cfg) = Some t ->
  strftime_seconds start_utc <= t <= strftime_seconds end_utc ->
  (forall l, In l (email_log db) ->
     ~ (email_eq (log_email l) (ge_email e) = true
        /\ log_wishlist_id l = ge_wishlist_id e
        /\ key_eq (log_campaign_key l) (CAMPAIGN_KEY cfg) = true)) ->
  exists r,
    In r rows
    /\ email_eq (email r) (ge_email e) = true
    /\ wishlist_id r = ge_wishlist_id e.
Proof.
  intros Hsel Hlen He Hwl Hit Hwle Hitw Hct Hwin Hlog.
  unfold select_candidates in Hsel.
  destruct (MAX_BATCH cfg <? 0); [discriminate|]. injection Hsel as <-.
  rewrite length_take in Hlen.
  rewrite take_ge in * by lia.
  unfold candidates_query.
  assert (Hin : In (row_of e wl)
                  (map project
                     (List.filter (where_clause (LOCAL_TZ_OFFSET cfg)
                                     (strftime_seconds start_utc)
                                     (strftime_seconds end_utc))
                        (joined db (CAMPAIGN_KEY cfg))))).
  { apply in_map_iff. exists (e, wl, it, None). split; [reflexivity|].
    apply filter_In. split.
    - unfold joined. apply in_flat_map. exists e. split; [exact He|].
      apply in_flat_map. exists wl. split.
      { apply filter_In. split; [exact Hwl | apply Z.eqb_eq; exact Hwle]. }
      apply in_flat_map. exists it. split.
      { apply filter_In. split; [exact Hit | apply Z.eqb_eq; exact Hitw]. }
      rewrite filter_all_false; [left; reflexivity|].
      intros l Hl. unfold log_same_on.
      destruct (email_eq (log_email l) (ge_email e)) eqn:H1; [|reflexivity].
      destruct (log_wishlist_id l =? wl_ID wl) eqn:H2; [|reflexivity].
      destruct (key_eq (log_campaign_key l) (CAMPAIGN_KEY cfg)) eqn:H3; [|reflexivity].
      exfalso. apply (Hlog l Hl). apply Z.eqb_eq in H2. repeat split; congruence.
    - cbn [where_clause]. unfold in_window. rewrite Hct.
      replace ((strftime_seconds start_utc <=? t) && (t <=? strftime_seconds end_utc))
        with true by lia.
      reflexivity. }
  destruct (distinct_complete _ [] _ Hin) as [(s & [] & _)|(r & Hr & Heq)].
  exists r. split; [exact Hr|].
  unfold row_eq in Heq. cbn [row_of email wishlist_id] in Heq.
  apply andb_prop in Heq as [H1 H2]. apply Z.eqb_eq in H2.
  rewrite email_eq_sym. split; [exact H1 | congruence].
Qed.

End SelectionMore.

Section SelectionMoreExamples.
Import Py datetime wishlist_reminder Samples.

Lemma empty_window_selects_nobody_witness :
  select_candidates (St := ci_store) cfg_negative_tolerance db_two
    (at_ (day_D - 1) 18 0 0 0) (at_ (day_D - 1) 6 0 0 0) = Ok [].
Proof.
  apply (empty_window_selects_nobody (St := ci_store) cfg_negative_tolerance db_two
           (at_ day_D 12 0 0 0)); [vm_compute; discriminate | left; reflexivity].
Defined.

Lemma selection_is_complete_below_the_limit_witness :
  exists r,
    In r [row "ana@example.com" 7; row "luis@example.com" 8]
    /\ email_eq (Store := ci_store) (email r) "luis@example.com" = true
    /\ wishlist_id r = 8.
Proof.
  apply (selection_is_complete_below_the_limit (St := ci_store) (SL := ci_store_laws)
           cfg_24h db_two (at_ (day_D - 1) 6 0 0 0) (at_ (day_D - 1) 18 0 0 0)
           [row "ana@example.com" 7; row "luis@example.com" 8]
           (guest "luis@example.com" 8 (at_ (day_D - 1) 11 0 0 0)) (wlist 8) (item 3 8 503)
           (at_ (day_D - 1) 17 0 0 0)).
  - vm_compute. reflexivity.
  - vm_compute. reflexivity.
  - right. left. reflexivity.
  - right. left. reflexivity.
  - right. right. left. reflexivity.
  - reflexivity.
  - reflexivity.
  - vm_compute. reflexivity.
  - vm_compute. split; discriminate.
  - intros l [].
Defined.

End SelectionMoreExamples.

(** ** The worker: what a run sends and records *)

Section WorkerRunMore.
Import Py datetime wishlist_reminder.
Context {St : Store}.

(** The calls of [send_email] that the candidate loop makes: at most one
    per candidate, to the candidate's address stripped and in lower case,
    with the subject of the stage. *)
Lemma send_loop_calls (cfg : Config) (env : Env) (tpl : string) (rows : list Row) :
  forall i w,
    exists calls,
      smtp_calls (send_loop cfg env tpl i rows w).1 = smtp_calls w ++ calls
      /\ (length calls <= length rows)%nat
      /\ Forall (fun c => mail_subject c.1 = SUBJECT cfg
                          /\ exists r, In r rows /\ mail_to c.1 = lower (strip (email r)))
           calls.
Proof.
  induction rows as [|r rest IH]; intros i w; cbn [send_loop].
  - exists []. rewrite app_nil_r. cbn. auto.
  - assert (Hweak : forall calls : list (Mail * res string),
              Forall (fun c => mail_subject c.1 = SUBJECT cfg
                               /\ exists r', In r' rest
                                    /\ mail_to c.1 = lower (strip (email r'))) calls ->
              Forall (fun c => mail_subject c.1 = SUBJECT cfg
                               /\ exists r', In r' (r :: rest)
                                    /\ mail_to c.1 = lower (strip (email r'))) calls).
    { intros calls. apply List.Forall_impl. intros c (Hs & r' & Hr' & Hto).
      split; [exact Hs|]. exists r'. split; [right; exact Hr' | exact Hto]. }
    destruct (render_template cfg env i (wishlist_id r) tpl) as [html|e].
    2:{ exists []. rewrite app_nil_r. cbn. split; [reflexivity|]. split; [lia | constructor]. }
    destruct (SEND_EMAILS cfg).
    2:{ destruct (IH (Datatypes.S i)
                    (print (Preview (lower (strip (email r))) (wishlist_id r)) w))
          as (calls & Hc & Hl & Hf).
        exists calls. split; [exact Hc|]. split; [cbn [length]; lia | apply Hweak, Hf]. }
    unfold send_email, insert_log_conn.
    destruct (env_smtp env i _) as [id|e] eqn:Hsmtp;
      [destruct (env_insert_fault env i) as [e|]|];
      match goal with
      | |- context [send_loop cfg env tpl (Datatypes.S i) rest ?w1] =>
          destruct (IH (Datatypes.S i) w1) as (calls & Hc & Hl & Hf)
      end;
      rewrite Hc; cbn [print smtp_calls]; rewrite <- app_assoc;
      eexists (_ :: calls); (split; [reflexivity|]);
      (split; [cbn [length]; lia|]);
      (constructor; [|apply Hweak, Hf]); cbn [fst mail_subject mail_to];
      (split; [reflexivity|]); exists r; (split; [left; reflexivity | reflexivity]).
Qed.

(** The source row of a row of the query. *)
Lemma selected_from_guest (cfg : Config) (db : DB) (start_utc end_utc : Z)
    (rows : list Row) (r : Row) :
  select_candidates cfg db start_utc end_utc = Ok rows ->
  In r rows ->
  exists e, In e (guest_emails db) /\ ge_email e = email r.
Proof.
  unfold select_candidates. destruct (MAX_BATCH cfg <? 0); [discriminate|].
  intros [= <-] Hin. apply In_take, distinct_In in Hin as [Hin _].
  apply query_row in Hin as (e & wl & _ & He & _ & _ & _ & _ & _ & _ & ->).
  exists e. auto.
Qed.

Lemma select_candidates_length (cfg : Config) (db : DB) (start_utc end_utc : Z)
    (rows : list Row) :
  select_candidates cfg db start_utc end_utc = Ok rows ->
  Z.of_nat (length rows) <= Z.max 0 (MAX_BATCH cfg).
Proof.
  unfold select_candidates. destruct (MAX_BATCH cfg <? 0); [discriminate|].
  intros [= <-]. rewrite length_take. lia.
Qed.

(** X13. One run of the worker calls [send_email] at most MAX_BATCH times,
    each time with the subject of the stage and for an address of the
    guest table, stripped and in lower case. *)
Theorem run_sends_at_most_the_batch (cfg : Config) (env : Env) (w : World) :
  exists calls,
    smtp_calls (script cfg env w).1 = smtp_calls w ++ calls
    /\ Z.of_nat (length calls) <= Z.max 0 (MAX_BATCH cfg)
    /\ Forall (fun c => mail_subject c.1 = SUBJECT cfg
                        /\ exists e, In e (guest_emails (db w))
                             /\ mail_to c.1 = lower (strip (ge_email e)))
         calls.
Proof.
  assert (Hnone : forall w' : World,
            smtp_calls w' = smtp_calls w ->
            exists calls,
              smtp_calls w' = smtp_calls w ++ calls
              /\ Z.of_nat (length calls) <= Z.max 0 (MAX_BATCH cfg)
              /\ Forall (fun c => mail_subject c.1 = SUBJECT cfg
                                  /\ exists e, In e (guest_emails (db w))
                                       /\ mail_to c.1 = lower (strip (ge_email e)))
                   calls).
  { intros w' Hw'. exists []. rewrite app_nil_r. split; [exact Hw'|].
    split; [cbn; lia | constructor]. }
  unfold script, main.
  destruct (compute_window cfg (env_now_utc env)) as [[[s e] mode]|x];
    [|apply Hnone; reflexivity].
  destruct (env_load_template env) as [tpl|x]; [|apply Hnone; reflexivity].
  destruct (env_mysql_conn env) as [c|x]; [|apply Hnone; reflexivity].
  destruct (env_select_fault env) as [x|]; [apply Hnone; reflexivity|].
  change (db (print Boot w)) with (db w).
  destruct (select_candidates cfg (db w) s e) as [rows|x] eqn:Hsel;
    [|apply Hnone; reflexivity].
  destruct rows as [|r rest]; [apply Hnone; reflexivity|].
  destruct (send_loop_calls cfg env tpl (r :: rest) 0%nat
              (print (DebugCandidates (length (r :: rest))) (print Boot w)))
    as (calls & Hc & Hl & Hf).
  exists calls.
  destruct (send_loop cfg env tpl 0 (r :: rest) _) as [w' [u|x]];
    cbn [fst print smtp_calls] in *; (split; [exact Hc|]);
    (split; [pose proof (select_candidates_length _ _ _ _ _ Hsel); lia|]);
    (eapply List.Forall_impl; [|exact Hf]);
    intros c0 (Hs & r0 & Hr0 & Hto); (split; [exact Hs|]);
    destruct (selected_from_guest _ _ _ _ _ _ Hsel Hr0) as (g & Hg & Hge);
    exists g; (split; [exact Hg|]); rewrite Hge; exact Hto.
Qed.

End WorkerRunMore.

Section WorkerRecords.
Import Py datetime wishlist_reminder.
Context {St : Store} {SL : StoreLaws St}.

Lemma log_later_trans (a b c : list LogRow) :
  log_later a b -> log_later b c -> log_later a c.
Proof.
  intros Hab Hbc. induction Hbc as [|b c new _ IH]; [exact Hab|].
  constructor. apply IH, Hab.
Qed.

(** No insert lifts a block. *)
Lemma log_later_blocks (c : string) (r : Row) (tbl tbl' : list LogRow) :
  log_later tbl tbl' ->
  existsb (fun l => blocks l c r) tbl = true ->
  existsb (fun l => blocks l c r) tbl' = true.
Proof.
  intros Hlater Hb. induction Hlater as [|tbl tbl' new _ IH]; [exact Hb|].
  rewrite upsert_blocks, (IH Hb). reflexivity.
Qed.

(** The record that the loop of [main] writes for a candidate stands
    against the address the message went to. *)
Lemma log_values_blocks (em : string) (wid : Z) (c : string) (ts : Z) :
  blocks (log_values (lower (strip em)) wid c ts) c
    {| email := lower (strip em); wishlist_id := wid |} = true.
Proof.
  unfold blocks. cbn [log_values log_email log_wishlist_id log_campaign_key email wishlist_id].
  rewrite strip_lower_normal, email_eq_refl, Z.eqb_refl, key_eq_refl. reflexivity.
Qed.

Lemma send_loop_records (cfg : Config) (env : Env) (tpl : string) (rows : list Row) :
  forall i w,
    exists calls lines,
      smtp_calls (send_loop cfg env tpl i rows w).1 = smtp_calls w ++ calls
      /\ stdout (send_loop cfg env tpl i rows w).1 = stdout w ++ lines
      /\ log_later (email_log (db w)) (email_log (db (send_loop cfg env tpl i rows w).1))
      /\ forall em wid mid,
           In (Enviado em wid mid) lines ->
           (exists html,
               In ({| mail_to := em; mail_subject := SUBJECT cfg; mail_html := html |},
                   Ok mid) calls)
           /\ existsb (fun l => blocks l (CAMPAIGN_KEY cfg)
                                  {| email := em; wishlist_id := wid |})
                (email_log (db (send_loop cfg env tpl i rows w).1)) = true.
Proof.
  induction rows as [|r rest IH]; intros i w; cbn [send_loop].
  - exists [], []. rewrite !app_nil_r. cbn [fst].
    split; [reflexivity|]. split; [reflexivity|]. split; [constructor|]. intros ? ? ? [].
  - destruct (render_template cfg env i (wishlist_id r) tpl) as [html|e].
    2:{ exists [], []. rewrite !app_nil_r. cbn [fst].
        split; [reflexivity|]. split; [reflexivity|]. split; [constructor|].
        intros ? ? ? []. }
    destruct (SEND_EMAILS cfg).
    2:{ destruct (IH (Datatypes.S i)
                    (print (Preview (lower (strip (email r))) (wishlist_id r)) w))
          as (calls & lines & Hc & Hl & Hlog & Hsent).
        exists calls, (Preview (lower (strip (email r))) (wishlist_id r) :: lines).
        rewrite Hc, Hl. cbn [print smtp_calls stdout db] in *. rewrite <- app_assoc.
        split; [reflexivity|]. split; [reflexivity|]. split; [exact Hlog|].
        intros em wid mid [Hin|Hin]; [discriminate|]. apply Hsent, Hin. }
    unfold send_email, insert_log_conn.
    destruct (env_smtp env i _) as [id|e] eqn:Hsmtp;
      [destruct (env_insert_fault env i) as [e|]|];
      match goal with
      | |- context [send_loop cfg env tpl (Datatypes.S i) rest ?w1] =>
          destruct (IH (Datatypes.S i) w1) as (calls & lines & Hc & Hl & Hlog & Hsent)
      end;
      rewrite Hc, Hl; cbn [print smtp_calls stdout db] in *; rewrite <- !app_assoc;
      eexists (_ :: calls), (_ :: lines);
      (split; [reflexivity|]); (split; [reflexivity|]).
    + (* sent, not recorded *)
      split; [exact Hlog|].
      intros em wid mid [Hin|Hin]; [discriminate|].
      destruct (Hsent em wid mid Hin) as ((h & Hh) & Hb).
      split; [exists h; right; exact Hh | exact Hb].
    + (* sent and recorded *)
      cbn [insert_log email_log] in *.
      split; [eapply log_later_trans; [|exact Hlog]; constructor; constructor|].
      intros em wid mid [Hin|Hin].
      * injection Hin as <- <- <-. split; [exists html; left; reflexivity|].
        apply (log_later_blocks _ _ _ _ Hlog).
        rewrite upsert_blocks, log_values_blocks. apply orb_true_r.
      * destruct (Hsent em wid mid Hin) as ((h & Hh) & Hb).
        split; [exists h; right; exact Hh | exact Hb].
    + (* refused *)
      split; [exact Hlog|].
      intros em wid mid [Hin|Hin]; [discriminate|].
      destruct (Hsent em wid mid Hin) as ((h & Hh) & Hb).
      split; [exists h; right; exact Hh | exact Hb].
Qed.

(** X14. Every line of a run that reports a message as sent stands for a
    call of [send_email] that returned that Message-ID, and at the end of
    the run the sent log holds a record that stands against the address
    and the wishlist in the campaign of the stage. *)
Theorem sent_lines_are_recorded (cfg : Config) (env : Env) (w : World) :
  exists calls lines,
    smtp_calls (script cfg env w).1 = smtp_calls w ++ calls
    /\ stdout (script cfg env w).1 = stdout w ++ lines
    /\ forall em wid mid,
         In (Enviado em wid mid) lines ->
         (exists html,
             In ({| mail_to := em; mail_subject := SUBJECT cfg; mail_html := html |},
                 Ok mid) calls)
         /\ existsb (fun l => blocks l (CAMPAIGN_KEY cfg)
                                {| email := em; wishlist_id := wid |})
              (email_log (db (script cfg env w).1)) = true.
Proof.
  assert (Hquiet : forall (w' : World) (lines : list Line),
            smtp_calls w' = smtp_calls w ->
            stdout w' = stdout w ++ lines ->
            (forall em wid mid, ~ In (Enviado em wid mid) lines) ->
            exists calls lines,
              smtp_calls w' = smtp_calls w ++ calls
              /\ stdout w' = stdout w ++ lines
              /\ forall em wid mid,
                   In (Enviado em wid mid) lines ->
                   (exists html,
                       In ({| mail_to := em; mail_subject := SUBJECT cfg;
                              mail_html := html |}, Ok mid) calls)
                   /\ existsb (fun l => blocks l (CAMPAIGN_KEY cfg)
                                          {| email := em; wishlist_id := wid |})
                        (email_log (db w')) = true).
  { intros w' lines Hc Hl Hno. exists [], lines. rewrite app_nil_r.
    split; [exact Hc|]. split; [exact Hl|]. intros em wid mid Hin.
    destruct (Hno em wid mid Hin). }
  unfold script, main.
  destruct (compute_window cfg (env_now_utc env)) as [[[s e] mode]|x].
  2:{ apply (Hquiet _ [Fatal x]); [reflexivity..|]. intros ? ? ? [H|[]]; discriminate. }
  destruct (env_load_template env) as [tpl|x].
  2:{ apply (Hquiet _ [ErrorTemplate]); [reflexivity..|]. intros ? ? ? [H|[]]; discriminate. }
  destruct (env_mysql_conn env) as [c|x].
  2:{ apply (Hquiet _ [ErrorMySQL]); [reflexivity..|]. intros ? ? ? [H|[]]; discriminate. }
  destruct (match env_select_fault env with
            | Some x => Raise x
            | None => select_candidates cfg (db (print Boot w)) s e
            end) as [rows|x].
  2:{ apply (Hquiet _ [Boot; Fatal x]); [reflexivity| |].
      - cbn [fst print stdout]. rewrite <- app_assoc. reflexivity.
      - intros ? ? ? [H|[H|[]]]; discriminate. }
  destruct rows as [|r rest].
  { apply (Hquiet _ [Boot; DebugCandidates 0; NoRecipients]); [reflexivity| |].
    - cbn [fst print stdout length]. rewrite <- !app_assoc. reflexivity.
    - intros ? ? ? [H|[H|[H|[]]]]; discriminate. }
  destruct (send_loop_records cfg env tpl (r :: rest) 0%nat
              (print (DebugCandidates (length (r :: rest))) (print Boot w)))
    as (calls & lines & Hc & Hl & _ & Hsent).
  destruct (send_loop cfg env tpl 0 (r :: rest) _) as [w' [u|x]];
    cbn [fst print smtp_calls stdout db] in *.
  - exists calls, (Boot :: DebugCandidates (Datatypes.S (length rest)) :: lines).
    split; [exact Hc|]. split; [rewrite Hl, <- !app_assoc; reflexivity|].
    intros em wid mid [H|[H|Hin]]; [discriminate..|]. apply Hsent, Hin.
  - exists calls, (Boot :: DebugCandidates (Datatypes.S (length rest)) :: lines ++ [Fatal x]).
    split; [exact Hc|].
    split; [rewrite Hl, <- !app_assoc; reflexivity|].
    intros em wid mid [H|[H|Hin]]; [discriminate..|].
    apply in_app_or in Hin as [Hin|[H|[]]]; [|discriminate]. apply Hsent, Hin.
Qed.

End WorkerRecords.

Section WorkerFailures.
Import Py datetime wishlist_reminder.
Context {St : Store}.

(** X15. The exit status of the worker is 0, 1, 2 or 3. It is 2 exactly
    when the window could be computed and the template cannot be loaded,
    and 3 exactly when window and template are there and the connection
    to MySQL fails; in both cases the run selects nobody, sends nothing and
    leaves the store as it is, and prints one line. *)
Theorem startup_failures (cfg : Config) (env : Env) (w : World) :
  let rc := (script cfg env w).2 in
  let w' := (script cfg env w).1 in
  (rc = 0 \/ rc = 1 \/ rc = 2 \/ rc = 3)
  /\ (rc = 2 <->
      exists win e,
        compute_window cfg (env_now_utc env) = Ok win
        /\ env_load_template env = Raise e)
  /\ (rc = 3 <->
      exists win tpl e,
        compute_window cfg (env_now_utc env) = Ok win
        /\ env_load_template env = Ok tpl
        /\ env_mysql_conn env = Raise e)
  /\ (rc = 2 -> w' = print ErrorTemplate w)
  /\ (rc = 3 -> w' = print ErrorMySQL w).
Proof.
  unfold script, main.
  destruct (compute_window cfg (env_now_utc env)) as [[[s e] mode]|x].
  2:{ cbn. repeat split; try (intros; discriminate); try tauto.
      - intros (? & ? & [=] & _).
      - intros (? & ? & ? & [=] & _). }
  destruct (env_load_template env) as [tpl|x].
  2:{ cbn. repeat split; try (intros; discriminate); try tauto.
      - intros _. eexists _, _. split; reflexivity.
      - intros (? & ? & ? & _ & [=] & _). }
  destruct (env_mysql_conn env) as [c|x].
  2:{ cbn. repeat split; try (intros; discriminate); try tauto.
      - intros (? & ? & _ & [=]).
      - intros _. eexists _, _, _. repeat split; reflexivity. }
  destruct (match env_select_fault env with
            | Some x => Raise x
            | None => select_candidates cfg (db (print Boot w)) s e
            end) as [rows|x].
  2:{ cbn. repeat split; try (intros; discriminate); try tauto.
      - intros (? & ? & _ & [=]).
      - intros (? & ? & ? & _ & _ & [=]). }
  destruct rows as [|r rest].
  { cbn. repeat split; try (intros; discriminate); try tauto.
    - intros (? & ? & _ & [=]).
    - intros (? & ? & ? & _ & _ & [=]). }
  destruct (send_loop cfg env tpl 0 (r :: rest) _) as [w' [u|x]];
    cbn; repeat split; try (intros; discriminate); try tauto;
    try (intros (? & ? & _ & [=])); try (intros (? & ? & ? & _ & _ & [=])).
Qed.

(** X16. An invalid WISHLIST_URL is noticed only when there is somebody
    to write to: with no candidate the run ends with status 0; with
    candidates the rendering for the first one raises, the run ends with
    status 1, nothing is sent and the store is left as it is. *)
Theorem invalid_url_fails_only_with_candidates (cfg : Config) (env : Env) (w : World)
    (x : exn) (start_utc end_utc : Z) (mode tpl : string) (rows : list Row) :
  _base_url cfg env = Raise x ->
  compute_window cfg (env_now_utc env) = Ok (start_utc, end_utc, mode) ->
  env_load_template env = Ok tpl ->
  env_mysql_conn env = Ok tt ->
  env_select_fault env = None ->
  select_candidates cfg (db w) start_utc end_utc = Ok rows ->
  (rows = [] -> (script cfg env w).2 = 0)
  /\ (rows <> [] ->
      (script cfg env w).2 = 1
      /\ smtp_calls (script cfg env w).1 = smtp_calls w
      /\ db (script cfg env w).1 = db w).
Proof.
  intros Hurl Hwin Htpl Hconn Hfault Hsel.
  unfold script, main. rewrite Hwin, Htpl, Hconn, Hfault.
  change (db (print Boot w)) with (db w). rewrite Hsel.
  split.
  - intros ->. reflexivity.
  - intros Hne. destruct rows as [|r rest]; [congruence|].
    cbn [send_loop].
    assert (Hr : exists x', render_template cfg env 0 (wishlist_id r) tpl = Raise x').
    { unfold render_template, wishlist_link. rewrite Hurl.
      destruct (env_render_products_html env 0 (wishlist_id r)); cbn; eauto. }
    destruct Hr as (x' & ->). cbn. auto.
Qed.

End WorkerFailures.

Section WorkerRunMoreExamples.
Import Py datetime wishlist_reminder Samples.

(** A live run on two candidates in which nothing fails. *)
Lemma script_two_sent :
  stdout (script (St := ci_store) cfg_24h env_fine (world_of db_two)).1
  = [Boot; DebugCandidates 2;
     Enviado "ana@example.com" 7 "<1@example.com>";
     Enviado "luis@example.com" 8 "<1@example.com>"].
Proof. vm_compute. reflexivity. Qed.

Lemma invalid_url_fails_only_with_candidates_witness :
  (script (St := ci_store) cfg_bad_url env_bad_url (world_of db_two)).2 = 1
  /\ smtp_calls (script (St := ci_store) cfg_bad_url env_bad_url (world_of db_two)).1 = [].
Proof.
  destruct (invalid_url_fails_only_with_candidates (St := ci_store)
              cfg_bad_url env_bad_url (world_of db_two) RuntimeError
              (at_ (day_D - 1) 6 0 0 0) (at_ (day_D - 1) 18 0 0 0) "relative"
              "<html>{{PRODUCTS}}</html>"
              [row "ana@example.com" 7; row "luis@example.com" 8])
    as [_ H]; try reflexivity.
  destruct H as (Hrc & Hc & _); [discriminate|]. split; [exact Hrc | exact Hc].
Defined.

Lemma sent_lines_are_recorded_witness :
  existsb (fun l => blocks (St := ci_store) l "wishlist_v1_24h" (row "luis@example.com" 8))
    (email_log (db (script (St := ci_store) cfg_24h env_fine (world_of db_two)).1))
  = true.
Proof.
  destruct (sent_lines_are_recorded (St := ci_store) (SL := ci_store_laws)
              cfg_24h env_fine (world_of db_two)) as (calls & lines & _ & Hl & Hsent).
  rewrite script_two_sent in Hl. cbn [world_of stdout app] in Hl. subst lines.
  apply (Hsent "luis@example.com" 8 "<1@example.com>").
  right. right. right. left. reflexivity.
Defined.

End WorkerRunMoreExamples.

(** ** The worker: links *)

Section Links.
Import Py datetime wishlist_reminder Samples.

Lemma list_ascii_of_string_app (s t : string) :
  list_ascii_of_string (s ++ t) = list_ascii_of_string s ++ list_ascii_of_string t.
Proof.
  induction s as [|c s IH]; [reflexivity|].
  change (list_ascii_of_string (String c (s ++ t))
          = c :: (list_ascii_of_string s ++ list_ascii_of_string t)).
  cbn [list_ascii_of_string]. rewrite IH. reflexivity.
Qed.

Lemma string_of_list_ascii_app (a b : list ascii) :
  string_of_list_ascii (a ++ b) = (string_of_list_ascii a ++ string_of_list_ascii b)%string.
Proof.
  induction a as [|c a IH]; [reflexivity|].
  change (String c (string_of_list_ascii (a ++ b))
          = String c (string_of_list_ascii a ++ string_of_list_ascii b)%string).
  rewrite IH. reflexivity.
Qed.

Lemma rstrip_by_snoc (p : ascii -> bool) (l : list ascii) (c : ascii) :
  p c = true -> rstrip_by p (l ++ [c]) = rstrip_by p l.
Proof.
  intros Hc. unfold rstrip_by. rewrite rev_app_distr. cbn [rev app lstrip_by].
  rewrite Hc. reflexivity.
Qed.

(** X17. The base address of the links is WISHLIST_URL without the slashes
    at its end: it never ends with a slash, so the wishlist link has exactly
    one slash after it, and a WISHLIST_URL with one more slash at its end
    gives the same links. *)
Theorem base_url_has_no_trailing_slash (cfg : Config) (env : Env) (url : string) :
  _base_url cfg env = Ok url ->
  (exists k, WISHLIST_URL cfg = (url ++ string_of_list_ascii (repeat "/"%char k))%string)
  /\ (forall pre, url <> (pre ++ "/")%string)
  /\ (forall wishlist_id,
        wishlist_link cfg env wishlist_id
        = Ok (url ++ "/lista-de-deseos/?wl=" ++ pretty wishlist_id)%string)
  /\ (forall cfg',
        WISHLIST_URL cfg' = (WISHLIST_URL cfg ++ "/")%string ->
        _base_url cfg' env = Ok url
        /\ forall wishlist_id,
             wishlist_link cfg' env wishlist_id = wishlist_link cfg env wishlist_id).
Proof.
  intros Hurl.
  assert (Hval : url = rstrip_chars ["/"%char] (WISHLIST_URL cfg)).
  { unfold _base_url in Hurl.
    destruct (env_urlparse env _) as [scheme netloc].
    destruct (negb _ && negb _); congruence. }
  set (p := fun c : ascii => existsb (Ascii.eqb c) ["/"%char]) in *.
  assert (Hp : forall c, p c = true -> c = "/"%char).
  { intros c Hc. unfold p in Hc. cbn in Hc. rewrite orb_false_r in Hc.
    apply Ascii.eqb_eq. exact Hc. }
  destruct (rstrip_by_spec p (list_ascii_of_string (WISHLIST_URL cfg)))
    as (suf & Hl & Hsuf & Hlast).
  split; [|split; [|split]].
  - exists (length suf).
    rewrite <- (string_of_list_ascii_of_string (WISHLIST_URL cfg)), Hl at 1.
    rewrite string_of_list_ascii_app, Hval. unfold rstrip_chars. f_equal. f_equal.
    clear Hl. induction Hsuf as [|c suf Hc _ IH]; [reflexivity|].
    cbn [length repeat]. rewrite (Hp c Hc). f_equal. exact IH.
  - intros pre Heq. rewrite Hval in Heq. unfold rstrip_chars in Heq.
    apply (f_equal list_ascii_of_string) in Heq.
    rewrite list_ascii_of_string_of_list_ascii, list_ascii_of_string_app in Heq.
    apply Hlast in Heq. discriminate.
  - intros wishlist_id. unfold wishlist_link. rewrite Hurl. reflexivity.
  - intros cfg' Hcfg'.
    assert (Hsame : _base_url cfg' env = _base_url cfg env).
    { unfold _base_url, rstrip_chars. rewrite Hcfg', list_ascii_of_string_app.
      cbn [list_ascii_of_string]. rewrite rstrip_by_snoc by reflexivity. reflexivity. }
    split; [rewrite Hsame; exact Hurl|].
    intros wishlist_id. unfold wishlist_link. rewrite Hsame. reflexivity.
Qed.

Lemma base_url_has_no_trailing_slash_witness :
  wishlist_link cfg_slashes env_fine 7
  = Ok "https://www.relojescurrenmexico.com.mx/lista-de-deseos/?wl=7".
Proof.
  destruct (base_url_has_no_trailing_slash cfg_slashes env_fine
              "https://www.relojescurrenmexico.com.mx" eq_refl) as (_ & _ & Hlink & _).
  rewrite Hlink. reflexivity.
Defined.

End Links.

(** ** The worker as the orchestrator starts it *)

Section Launch.
Import Py orchestrator Samples.

Lemma launch_getenv_other (env : Env) (st : Stage) (k dflt : string) :
  k ∉ ["STAGE"; "TARGET_HOURS"; "WINDOW_TOLERANCE_H"; "CAMPAIGN_KEY";
       "TEMPLATE_FILE"; "SUBJECT"; "DELAY_AFTER_MIN"; "MAX_BATCH"; "SEND_EMAILS"] ->
  wishlist_reminder.getenv (stage_dict st ∪ common_overrides_of env ∪ environ env) k dflt
  = getenv env k dflt.
Proof.
  intros Hk. unfold wishlist_reminder.getenv, getenv.
  rewrite lookup_union_r by (apply overrides_keys, Hk). reflexivity.
Qed.

Lemma launch_getenv_override (env : Env) (st : Stage) (k dflt v : string) :
  (stage_dict st ∪ common_overrides_of env) !! k = Some v ->
  wishlist_reminder.getenv (stage_dict st ∪ common_overrides_of env ∪ environ env) k dflt
  = v.
Proof.
  intros Hk. unfold wishlist_reminder.getenv.
  rewrite (lookup_union_Some_l _ _ _ _ Hk). reflexivity.
Qed.

Ltac other_key :=
  rewrite !not_elem_of_cons; repeat split; try discriminate; apply not_elem_of_nil.

(** X18. A worker that the orchestrator starts, and that gets past its
    configuration, runs with the settings of one of the three stages: the
    stage number 24, 48 or 72 as target hours, a tolerance of 6 hours, the
    campaign key, template and subject of the stage; with the batch limit
    and the send switch of the orchestrator's environment (300 and off by
    default); and with the window mode, offset and shop address of the
    orchestrator's environment. *)
Theorem launched_worker_configuration (env : Env) (w w' : World) (out : Outcome)
    (e : gmap string string) (cfg : wishlist_reminder.Config) :
  main env w = Some (w', out) ->
  e ∈ popens (new_events w w') ->
  wishlist_reminder.load_config e = Ok cfg ->
  exists st, st ∈ stages
    /\ int (STAGE st) = Ok (wishlist_reminder.STAGE cfg)
    /\ wishlist_reminder.STAGE cfg ∈ [24; 48; 72]
    /\ wishlist_reminder.TARGET_HOURS cfg = wishlist_reminder.STAGE cfg
    /\ wishlist_reminder.WINDOW_TOLERANCE_H cfg = 6
    /\ wishlist_reminder.CAMPAIGN_KEY cfg = CAMPAIGN_KEY st
    /\ wishlist_reminder.TEMPLATE_FILE cfg = TEMPLATE_FILE st
    /\ wishlist_reminder.SUBJECT cfg = SUBJECT st
    /\ int (getenv env "MAX_BATCH" "300") = Ok (wishlist_reminder.MAX_BATCH cfg)
    /\ wishlist_reminder.SEND_EMAILS cfg = flag (getenv env "SEND_EMAILS" "false")
    /\ wishlist_reminder.FIXED_8AM_MODE cfg = flag (getenv env "FIXED_8AM_MODE" "false")
    /\ wishlist_reminder.LOCAL_TZ_OFFSET cfg = getenv env "LOCAL_TZ_OFFSET" "-06:00"
    /\ wishlist_reminder.WISHLIST_URL cfg = strip (getenv env "WISHLIST_URL" "").
Proof.
  intros Hmain Hin Hcfg.
  pose proof (main_worker_events env w w' out Hmain) as Hall.
  apply list_elem_of_omap in Hin as (ev & Hev & Hpop).
  destruct ev as [| e0 | |]; try discriminate. injection Hpop as ->.
  rewrite Forall_forall in Hall. destruct (Hall _ Hev) as (st & Hst & ->).
  exists st. split; [exact Hst|].
  destruct (overrides_common env st) as [Hb Hs].
  unfold wishlist_reminder.load_config in Hcfg.
  rewrite (launch_getenv_other env st "SMTP_PORT") in Hcfg by other_key.
  rewrite (launch_getenv_other env st "COOLDOWN_HOURS") in Hcfg by other_key.
  rewrite (launch_getenv_other env st "FIXED_8AM_MODE") in Hcfg by other_key.
  rewrite (launch_getenv_other env st "LOCAL_TZ_OFFSET") in Hcfg by other_key.
  rewrite (launch_getenv_other env st "WISHLIST_URL") in Hcfg by other_key.
  rewrite (launch_getenv_override env st "MAX_BATCH" _ _ Hb) in Hcfg.
  rewrite (launch_getenv_override env st "SEND_EMAILS" _ _ Hs) in Hcfg.
  rewrite (launch_getenv_override env st "STAGE" _ (STAGE st)) in Hcfg
    by (apply lookup_union_Some_l; reflexivity).
  destruct (int (getenv env "SMTP_PORT" "587")) as [port|x]; [|discriminate].
  cbn [mbind wishlist_reminder.res_bind Py.bind] in Hcfg.
  destruct (int (STAGE st)) as [stage|x] eqn:Hstage; [|discriminate].
  cbn [mbind wishlist_reminder.res_bind Py.bind] in Hcfg.
  rewrite (launch_getenv_override env st "TARGET_HOURS" _ (TARGET_HOURS st)) in Hcfg
    by (apply lookup_union_Some_l; reflexivity).
  rewrite (launch_getenv_override env st "WINDOW_TOLERANCE_H" _ (WINDOW_TOLERANCE_H st))
    in Hcfg by (apply lookup_union_Some_l; reflexivity).
  rewrite (launch_getenv_override env st "CAMPAIGN_KEY" _ (CAMPAIGN_KEY st)) in Hcfg
    by (apply lookup_union_Some_l; reflexivity).
  rewrite (launch_getenv_override env st "TEMPLATE_FILE" _ (TEMPLATE_FILE st)) in Hcfg
    by (apply lookup_union_Some_l; reflexivity).
  rewrite (launch_getenv_override env st "SUBJECT" _ (SUBJECT st)) in Hcfg
    by (apply lookup_union_Some_l; reflexivity).
  destruct (int (TARGET_HOURS st)) as [target|x] eqn:Htarget; [|discriminate].
  cbn [mbind wishlist_reminder.res_bind Py.bind] in Hcfg.
  destruct (int (WINDOW_TOLERANCE_H st)) as [tol|x] eqn:Htol; [|discriminate].
  cbn [mbind wishlist_reminder.res_bind Py.bind] in Hcfg.
  destruct (int (getenv env "COOLDOWN_HOURS" "168")) as [cool|x]; [|discriminate].
  cbn [mbind wishlist_reminder.res_bind Py.bind] in Hcfg.
  destruct (int (getenv env "MAX_BATCH" "300")) as [batch|x]; [|discriminate].
  cbn [mbind wishlist_reminder.res_bind Py.bind] in Hcfg.
  destruct (String.eqb _ ""); [discriminate|]. injection Hcfg as <-.
  cbn [wishlist_reminder.STAGE wishlist_reminder.TARGET_HOURS
       wishlist_reminder.WINDOW_TOLERANCE_H wishlist_reminder.CAMPAIGN_KEY
       wishlist_reminder.TEMPLATE_FILE wishlist_reminder.SUBJECT
       wishlist_reminder.MAX_BATCH wishlist_reminder.SEND_EMAILS
       wishlist_reminder.FIXED_8AM_MODE wishlist_reminder.LOCAL_TZ_OFFSET
       wishlist_reminder.WISHLIST_URL].
  unfold stages in Hst. rewrite !elem_of_cons in Hst.
  destruct Hst as [->|[->|[->|Hst]]]; [| | |inversion Hst];
    vm_compute in Hstage, Htarget, Htol;
    injection Hstage as <-; injection Htarget as <-; injection Htol as <-;
    repeat split; try reflexivity;
    rewrite !elem_of_cons; auto.
Qed.

(** The configuration of the first worker of [env_live]. *)
Lemma launch_live_config :
  exists cfg,
    wishlist_reminder.load_config
      (stage_dict stage_24 ∪ common_overrides_of env_live ∪ environ env_live) = Ok cfg.
Proof. eexists. vm_compute. reflexivity. Qed.

Lemma launched_worker_configuration_witness :
  exists w' out e cfg,
    main env_live world_free = Some (w', out)
    /\ e ∈ popens (new_events world_free w')
    /\ wishlist_reminder.load_config e = Ok cfg
    /\ wishlist_reminder.WINDOW_TOLERANCE_H cfg = 6
    /\ wishlist_reminder.SEND_EMAILS cfg = true
    /\ wishlist_reminder.MAX_BATCH cfg = 50.
Proof.
  pose proof main_live_events as Hev.
  destruct (main env_live world_free) as [[w' out]|] eqn:Hmain; [|discriminate].
  assert (Hin : stage_dict stage_24 ∪ common_overrides_of env_live ∪ environ env_live
                ∈ popens (new_events world_free w')).
  { apply list_elem_of_omap. exists (Popen (stage_dict stage_24
                                       ∪ common_overrides_of env_live ∪ environ env_live)).
    split; [|reflexivity]. apply (subseteq_take 3). rewrite Hev. right. right. left. }
  destruct launch_live_config as (cfg & Hcfg).
  destruct (launched_worker_configuration env_live world_free w' out _ cfg Hmain Hin Hcfg)
    as (st & _ & _ & _ & _ & Htol & _ & _ & _ & Hbatch & Hsend & _).
  eexists w', out, _, cfg. split; [reflexivity|]. split; [exact Hin|].
  split; [exact Hcfg|]. split; [exact Htol|]. split; [exact Hsend|].
  injection Hbatch as <-. reflexivity.
Defined.

(** X19. The windows of two stages that follow each other never overlap.
    In relative mode the window of the later stage ends twelve hours before
    the window of the earlier stage starts, so that an event of those twelve
    hours is in no window; in fixed local day mode the two windows are
    consecutive local days, with nothing between them. *)
Theorem stage_windows_do_not_overlap (cfg cfg' : wishlist_reminder.Config)
    (st st' : Stage) (pre post : list Stage) (now : Z) :
  stages = pre ++ st :: st' :: post ->
  int (TARGET_HOURS st) = Ok (wishlist_reminder.TARGET_HOURS cfg) ->
  int (WINDOW_TOLERANCE_H st) = Ok (wishlist_reminder.WINDOW_TOLERANCE_H cfg) ->
  int (TARGET_HOURS st') = Ok (wishlist_reminder.TARGET_HOURS cfg') ->
  int (WINDOW_TOLERANCE_H st') = Ok (wishlist_reminder.WINDOW_TOLERANCE_H cfg') ->
  (wishlist_reminder.stage_window_bounds_relative cfg' now).2 + 12 * datetime.US_PER_HOUR
  = (wishlist_reminder.stage_window_bounds_relative cfg now).1
  /\ forall tz s e s' e',
       wishlist_reminder.day_bounds_utc_for_target_fixed_8am
         now (wishlist_reminder.TARGET_HOURS cfg) tz = Ok (s, e) ->
       wishlist_reminder.day_bounds_utc_for_target_fixed_8am
         now (wishlist_reminder.TARGET_HOURS cfg') tz = Ok (s', e') ->
       e' + 1 = s.
Proof.
  intros Hst HT HW HT' HW'.
  assert (Hcases : (wishlist_reminder.TARGET_HOURS cfg = 24
                    \/ wishlist_reminder.TARGET_HOURS cfg = 48)
                   /\ wishlist_reminder.TARGET_HOURS cfg'
                      = wishlist_reminder.TARGET_HOURS cfg + 24
                   /\ wishlist_reminder.WINDOW_TOLERANCE_H cfg = 6
                   /\ wishlist_reminder.WINDOW_TOLERANCE_H cfg' = 6).
  { remember (wishlist_reminder.TARGET_HOURS cfg) as T eqn:ET.
    remember (wishlist_reminder.TARGET_HOURS cfg') as T' eqn:ET'.
    remember (wishlist_reminder.WINDOW_TOLERANCE_H cfg) as W eqn:EW.
    remember (wishlist_reminder.WINDOW_TOLERANCE_H cfg') as W' eqn:EW'.
    clear ET ET' EW EW'.
    unfold stages in Hst.
    destruct pre as [|a [|b [|c pre]]]; cbn [app] in Hst.
    - injection Hst as <- <- _. vm_compute in HT, HW, HT', HW'.
      injection HT as <-. injection HW as <-. injection HT' as <-. injection HW' as <-.
      lia.
    - injection Hst as _ <- <- _. vm_compute in HT, HW, HT', HW'.
      injection HT as <-. injection HW as <-. injection HT' as <-. injection HW' as <-.
      lia.
    - injection Hst as _ _ _ Hnil. discriminate.
    - injection Hst as _ _ _ Hnil. destruct pre; discriminate. }
  destruct Hcases as (H24 & HT2 & HW1 & HW2).
  split.
  - unfold wishlist_reminder.stage_window_bounds_relative, datetime.timedelta.
    cbn [fst snd]. rewrite HT2, HW1, HW2.
    unfold datetime.US_PER_DAY, datetime.US_PER_HOUR, datetime.US_PER_MINUTE,
      datetime.US_PER_SECOND. lia.
  - intros tz s e s' e'.
    unfold wishlist_reminder.day_bounds_utc_for_target_fixed_8am.
    destruct (wishlist_reminder.parse_tz_offset_to_delta tz) as [off|x]; [|discriminate].
    cbn [mbind wishlist_reminder.res_bind Py.bind]. intros [= <- <-] [= <- <-].
    rewrite HT2. unfold wishlist_reminder.days_back.
    assert (Hd : Z.max 1 ((wishlist_reminder.TARGET_HOURS cfg + 24) / 24)
                 = Z.max 1 (wishlist_reminder.TARGET_HOURS cfg / 24) + 1)
      by (destruct H24 as [-> | ->]; reflexivity).
    rewrite Hd.
    unfold datetime.combine, datetime.min_time, datetime.max_time, datetime.time,
      datetime.US_PER_DAY, datetime.US_PER_HOUR, datetime.US_PER_MINUTE,
      datetime.US_PER_SECOND. lia.
Qed.

Lemma stage_windows_do_not_overlap_witness :
  (wishlist_reminder.stage_window_bounds_relative cfg_48h (at_ day_D 12 0 0 0)).2
  = at_ (day_D - 2) 18 0 0 0
  /\ (wishlist_reminder.stage_window_bounds_relative cfg_24h (at_ day_D 12 0 0 0)).1
     = at_ (day_D - 1) 6 0 0 0.
Proof.
  pose proof (stage_windows_do_not_overlap cfg_24h cfg_48h stage_24 stage_48 []
                [stage_72] (at_ day_D 12 0 0 0) eq_refl eq_refl eq_refl eq_refl eq_refl)
    as [Hgap _].
  split; [reflexivity|]. rewrite <- Hgap. reflexivity.
Defined.

End Launch.

(** ** The worker: placeholders of the template *)

Section Placeholders.
Import Py datetime wishlist_reminder Samples.

Lemma replace_from_miss (c0 : ascii) (o new : list ascii) (l : list ascii) :
  ~ In c0 l -> replace_from (c0 :: o) new 0 l = l.
Proof.
  induction l as [|c t IH]; intros Hin; [reflexivity|].
  cbn [replace_from starts_with].
  destruct (Ascii.eqb c0 c) eqn:Hc.
  - apply Ascii.eqb_eq in Hc. subst c. destruct Hin. left. reflexivity.
  - cbn [andb]. f_equal. apply IH. intros H. apply Hin. right. exact H.
Qed.

Lemma replace_from_pass (c0 : ascii) (o new : list ascii) (a l : list ascii) :
  ~ In c0 a ->
  replace_from (c0 :: o) new 0 (a ++ l) = a ++ replace_from (c0 :: o) new 0 l.
Proof.
  induction a as [|c t IH]; intros Hin; [reflexivity|].
  cbn [app]. change (replace_from (c0 :: o) new 0 (c :: t ++ l))
    with (if starts_with (c0 :: o) (c :: t ++ l)
          then new ++ replace_from (c0 :: o) new (length (c0 :: o) - 1) (t ++ l)
          else c :: replace_from (c0 :: o) new 0 (t ++ l)).
  cbn [starts_with].
  destruct (Ascii.eqb c0 c) eqn:Hc.
  - apply Ascii.eqb_eq in Hc. subst c. destruct Hin. left. reflexivity.
  - cbn [andb]. f_equal. apply IH. intros H. apply Hin. right. exact H.
Qed.

Lemma replace_from_skip (old new : list ascii) (pre l : list ascii) :
  replace_from old new (length pre) (pre ++ l) = replace_from old new 0 l.
Proof. induction pre as [|c t IH]; [reflexivity|]. cbn [length app replace_from]. exact IH. Qed.

Lemma starts_with_app (p l : list ascii) : starts_with p (p ++ l) = true.
Proof.
  induction p as [|c t IH]; [reflexivity|]. cbn [app starts_with].
  rewrite Ascii.eqb_refl. exact IH.
Qed.

Lemma replace_from_hit (c0 : ascii) (o new l : list ascii) :
  replace_from (c0 :: o) new 0 ((c0 :: o) ++ l) = new ++ replace_from (c0 :: o) new 0 l.
Proof.
  change (replace_from (c0 :: o) new 0 ((c0 :: o) ++ l))
    with (if starts_with (c0 :: o) ((c0 :: o) ++ l)
          then new ++ replace_from (c0 :: o) new (length (c0 :: o) - 1) (o ++ l)
          else c0 :: replace_from (c0 :: o) new 0 (o ++ l)).
  rewrite starts_with_app.
  replace (length (c0 :: o) - 1)%nat with (length o) by (cbn [length]; lia).
  rewrite replace_from_skip. reflexivity.
Qed.

(** The one occurrence of [old] in a text that is otherwise free of the
    first character of [old] is replaced. *)
Lemma replace_from_one (c0 : ascii) (o new a b : list ascii) :
  ~ In c0 a -> ~ In c0 b ->
  replace_from (c0 :: o) new 0 (a ++ (c0 :: o) ++ b) = a ++ new ++ b.
Proof.
  intros Ha Hb. rewrite replace_from_pass by exact Ha.
  rewrite replace_from_hit, replace_from_miss by exact Hb. reflexivity.
Qed.

(** A text [m] that [old] passes over, between two texts that are free of
    the first character of [old]. *)
Lemma replace_from_other (c0 : ascii) (o new a m b : list ascii) :
  ~ In c0 a -> ~ In c0 b ->
  (forall rest, replace_from (c0 :: o) new 0 (m ++ rest)
                = m ++ replace_from (c0 :: o) new 0 rest) ->
  replace_from (c0 :: o) new 0 (a ++ m ++ b) = a ++ m ++ b.
Proof.
  intros Ha Hb Hm. rewrite replace_from_pass by exact Ha.
  rewrite Hm, replace_from_miss by exact Hb. reflexivity.
Qed.

Lemma replace_nonempty (c0 : ascii) (o : string) (new s : string) :
  replace (String c0 o) new s
  = string_of_list_ascii
      (replace_from (c0 :: list_ascii_of_string o) (list_ascii_of_string new) 0
         (list_ascii_of_string s)).
Proof. reflexivity. Qed.

(** [render_template] on the characters of the template. *)
Lemma render_template_chars (cfg : Config) (env : Env) (i : nat) (wishlist_id : Z)
    (tpl products base : string) :
  env_render_products_html env i wishlist_id = Ok products ->
  _base_url cfg env = Ok base ->
  let link := (base ++ "/lista-de-deseos/?wl=" ++ pretty wishlist_id)%string in
  let year := pretty (env_year env) in
  let logo := default (base ++ "/wp-content/uploads/2024/01/logo-curren.png")%string
                (env_LOGO_URL env) in
  let R := fun old new l =>
             replace_from (list_ascii_of_string old) (list_ascii_of_string new) 0 l in
  render_template cfg env i wishlist_id tpl
  = Ok (string_of_list_ascii
          (R "${LOGO_URL}" logo (R "{{LOGO_URL}}" logo
          (R "${YEAR}" year (R "{{YEAR}}" year
          (R "${WISHLIST_LINK}" link (R "{{WISHLIST_LINK}}" link
          (R "${PRODUCTS}" products (R "{{PRODUCTS}}" products
             (list_ascii_of_string tpl)))))))))).
Proof.
  intros Hprod Hbase link year logo R.
  unfold render_template, wishlist_link. rewrite Hprod, Hbase.
  cbn [mbind res_bind Py.bind fold_left]. f_equal.
  change ("{{" ++ "PRODUCTS" ++ "}}")%string with "{{PRODUCTS}}".
  change ("${" ++ "PRODUCTS" ++ "}")%string with "${PRODUCTS}".
  change ("{{" ++ "WISHLIST_LINK" ++ "}}")%string with "{{WISHLIST_LINK}}".
  change ("${" ++ "WISHLIST_LINK" ++ "}")%string with "${WISHLIST_LINK}".
  change ("{{" ++ "YEAR" ++ "}}")%string with "{{YEAR}}".
  change ("${" ++ "YEAR" ++ "}")%string with "${YEAR}".
  change ("{{" ++ "LOGO_URL" ++ "}}")%string with "{{LOGO_URL}}".
  change ("${" ++ "LOGO_URL" ++ "}")%string with "${LOGO_URL}".
  rewrite !replace_nonempty, !list_ascii_of_string_of_list_ascii.
  reflexivity.
Qed.

Lemma plain_app (s t : string) : plain s -> plain t -> plain (s ++ t).
Proof.
  unfold plain. rewrite list_ascii_of_string_app, !in_app_iff. tauto.
Qed.

Lemma pretty_N_char_digit (n : N) : 48 <= code (pretty_N_char n) <= 57.
Proof. unfold pretty_N_char. repeat case_match; vm_compute; split; discriminate. Qed.

Lemma pretty_N_go_chars (x : N) :
  forall s c,
    In c (list_ascii_of_string (pretty_N_go x s)) ->
    In c (list_ascii_of_string s) \/ 48 <= code c <= 57.
Proof.
  induction (N.lt_wf_0 x) as [x _ IH]. intros s c Hin.
  destruct (N.eq_dec x 0%N) as [->|Hx].
  - rewrite pretty_N_go_0 in Hin. left. exact Hin.
  - rewrite pretty_N_go_step in Hin by lia.
    apply IH in Hin; [|apply N.div_lt; lia].
    destruct Hin as [[<-|Hin]|Hin]; auto.
    right. apply pretty_N_char_digit.
Qed.

(** A number in decimal has no brace and no dollar sign. *)
Lemma plain_pretty (z : Z) : plain (pretty z).
Proof.
  assert (Hn : forall n : N, forall c, In c (list_ascii_of_string (pretty n)) ->
                                       48 <= code c <= 57).
  { intros n c. unfold pretty, pretty_N. destruct (decide (n = 0%N)).
    - intros [<-|[]]. vm_compute. split; discriminate.
    - intros Hin. apply pretty_N_go_chars in Hin as [[]|Hin]. exact Hin. }
  assert (Hz : forall c, In c (list_ascii_of_string (pretty z)) ->
                         48 <= code c <= 57 \/ c = "-"%char).
  { intros c. unfold pretty, pretty_Z. destruct z as [|p|p].
    - intros [<-|[]]. left. vm_compute. split; discriminate.
    - intros Hin. left. exact (Hn (Npos p) c Hin).
    - intros [<-|Hin]; [right; reflexivity|]. left. exact (Hn (Npos p) c Hin). }
  split; intros Hin; apply Hz in Hin as [Hin| Hin];
    try discriminate; vm_compute in Hin; destruct Hin as [H1 H2];
    first [apply H1; reflexivity | apply H2; reflexivity].
Qed.

Ltac chain_step :=
  match goal with
  | |- context [replace_from (?c0 :: ?o) ?new 0 (?a ++ (?c0 :: ?o) ++ ?b)] =>
      rewrite (replace_from_one c0 o new a b) by assumption
  | |- context [replace_from (?c0 :: ?o) ?new 0 (?a ++ ?m ++ ?b)] =>
      first
        [ rewrite (replace_from_miss c0 o new (a ++ m ++ b))
            by (rewrite !in_app_iff; tauto)
        | rewrite (replace_from_other c0 o new a m b)
            by first [assumption | intros; reflexivity] ]
  end.

(** X20. [render_template] puts the values in the place of the
    placeholders: in a template that has no brace and no dollar sign apart
    from one placeholder, in either spelling, the placeholder is replaced
    by the product cards, the wishlist link, the year or the logo address,
    when these have no brace and no dollar sign themselves; a template with
    no placeholder is returned as it is. *)
Theorem placeholders_are_replaced (cfg : Config) (env : Env) (i : nat) (wishlist_id : Z)
    (a b products base : string) :
  env_render_products_html env i wishlist_id = Ok products ->
  _base_url cfg env = Ok base ->
  plain a -> plain b -> plain products -> plain base ->
  (forall logo, env_LOGO_URL env = Some logo -> plain logo) ->
  let link := (base ++ "/lista-de-deseos/?wl=" ++ pretty wishlist_id)%string in
  let year := pretty (env_year env) in
  let logo := default (base ++ "/wp-content/uploads/2024/01/logo-curren.png")%string
                (env_LOGO_URL env) in
  let render := render_template cfg env i wishlist_id in
  render a = Ok a
  /\ render (a ++ "{{PRODUCTS}}" ++ b)%string = Ok (a ++ products ++ b)%string
  /\ render (a ++ "${PRODUCTS}" ++ b)%string = Ok (a ++ products ++ b)%string
  /\ render (a ++ "{{WISHLIST_LINK}}" ++ b)%string = Ok (a ++ link ++ b)%string
  /\ render (a ++ "${WISHLIST_LINK}" ++ b)%string = Ok (a ++ link ++ b)%string
  /\ render (a ++ "{{YEAR}}" ++ b)%string = Ok (a ++ year ++ b)%string
  /\ render (a ++ "${YEAR}" ++ b)%string = Ok (a ++ year ++ b)%string
  /\ render (a ++ "{{LOGO_URL}}" ++ b)%string = Ok (a ++ logo ++ b)%string
  /\ render (a ++ "${LOGO_URL}" ++ b)%string = Ok (a ++ logo ++ b)%string.
Proof.
  intros Hprod Hbase Ha Hb Hp Hbs Hlg link year logo render.
  assert (Hlink : plain link).
  { subst link. apply plain_app; [exact Hbs|]. apply plain_app; [|apply plain_pretty].
    split; vm_compute; intuition discriminate. }
  assert (Hyear : plain year) by apply plain_pretty.
  assert (Hlogo : plain logo).
  { subst logo. destruct (env_LOGO_URL env) as [l|]; [apply Hlg; reflexivity|].
    apply plain_app; [exact Hbs|]. split; vm_compute; intuition discriminate. }
  pose proof (fun tpl => render_template_chars cfg env i wishlist_id tpl products base
                           Hprod Hbase) as Hr.
  cbv zeta in Hr. fold link year logo in Hr.
  clearbody link year logo.
  destruct Ha as [Ha1 Ha2], Hb as [Hb1 Hb2], Hp as [Hp1 Hp2],
    Hlink as [Hl1 Hl2], Hyear as [Hy1 Hy2], Hlogo as [Hg1 Hg2].
  subst render.
  split.
  { rewrite Hr. cbn [list_ascii_of_string].
    repeat rewrite (replace_from_miss _ _ _ (list_ascii_of_string a)) by assumption.
    rewrite string_of_list_ascii_of_string. reflexivity. }
  repeat split; rewrite Hr, !list_ascii_of_string_app; cbn [list_ascii_of_string];
    repeat chain_step;
    rewrite !string_of_list_ascii_app, !string_of_list_ascii_of_string; reflexivity.
Qed.

Lemma placeholders_are_replaced_witness :
  render_template cfg_24h env_fine 0 7 "<html>{{PRODUCTS}}</html>"
  = Ok "<html><table></table></html>".
Proof.
  assert (Hplain : forall s : string,
            forallb (fun c => negb (Ascii.eqb c "{") && negb (Ascii.eqb c "$"))
              (list_ascii_of_string s) = true -> plain s).
  { intros s Hs. rewrite forallb_forall in Hs.
    split; intros Hin; apply Hs in Hin; discriminate. }
  destruct (placeholders_are_replaced cfg_24h env_fine 0 7 "<html>" "</html>"
              "<table></table>" "https://www.relojescurrenmexico.com.mx"
              eq_refl eq_refl) as (_ & Hprod & _).
  - apply Hplain. reflexivity.
  - apply Hplain. reflexivity.
  - apply Hplain. reflexivity.
  - apply Hplain. reflexivity.
  - intros logo [=].
  - exact Hprod.
Defined.

End Placeholders.

(** ** The worker: the product cards *)

Section CardsMore.
Import Py datetime wishlist_reminder Samples.

Lemma insert_desc_perm (it : Item) (l : list Item) : insert_desc it l ≡ₚ it :: l.
Proof.
  induction l as [|x t IH]; cbn [insert_desc]; [reflexivity|].
  destruct (it_ID x <? it_ID it); [reflexivity|].
  rewrite IH. apply Permutation_swap.
Qed.

Lemma order_by_ID_desc_perm (l : list Item) : order_by_ID_desc l ≡ₚ l.
Proof.
  induction l as [|x t IH]; [reflexivity|].
  cbn [order_by_ID_desc fold_right]. rewrite insert_desc_perm.
  constructor. exact IH.
Qed.

Lemma insert_desc_sorted (it : Item) (l : list Item) :
  ForallOrdPairs (fun a b => it_ID b <= it_ID a) l ->
  ForallOrdPairs (fun a b => it_ID b <= it_ID a) (insert_desc it l).
Proof.
  induction 1 as [|x t Hx Ht IH]; cbn [insert_desc].
  - constructor; constructor.
  - destruct (it_ID x <? it_ID it) eqn:Hlt.
    + apply Z.ltb_lt in Hlt. constructor; [|constructor; assumption].
      constructor; [lia|]. rewrite List.Forall_forall in Hx |- *.
      intros b Hb. specialize (Hx b Hb). cbn in Hx. lia.
    + apply Z.ltb_ge in Hlt. constructor; [|exact IH].
      rewrite List.Forall_forall in Hx |- *. intros b Hb.
      apply list_elem_of_In in Hb. rewrite insert_desc_perm in Hb.
      apply elem_of_cons in Hb as [->|Hb]; [exact Hlt|].
      apply Hx. apply list_elem_of_In. exact Hb.
Qed.

Lemma order_by_ID_desc_sorted (l : list Item) :
  ForallOrdPairs (fun a b => it_ID b <= it_ID a) (order_by_ID_desc l).
Proof.
  induction l as [|x t IH]; [constructor|].
  cbn [order_by_ID_desc fold_right]. apply insert_desc_sorted, IH.
Qed.

Lemma sorted_take_drop (l : list Item) (n : nat) :
  ForallOrdPairs (fun a b => it_ID b <= it_ID a) l ->
  ForallOrdPairs (fun a b => it_ID b <= it_ID a) (take n l)
  /\ forall s r, s ∈ take n l -> r ∈ drop n l -> it_ID r <= it_ID s.
Proof.
  intros Hs. revert n. induction Hs as [|x t Hx Ht IH]; intros [|n]; cbn [take drop].
  - split; [constructor|]. intros s r Hin. inversion Hin.
  - split; [constructor|]. intros s r Hin. inversion Hin.
  - split; [constructor|]. intros s r Hin. inversion Hin.
  - destruct (IH n) as [IH1 IH2]. split.
    + constructor; [|exact IH1]. rewrite List.Forall_forall in Hx |- *.
      intros b Hb. apply Hx. apply list_elem_of_In. apply list_elem_of_In in Hb.
      exact (subseteq_take _ _ _ Hb).
    + intros s r Hin Hr. apply elem_of_cons in Hin as [->|Hin]; [|exact (IH2 s r Hin Hr)].
      rewrite List.Forall_forall in Hx. apply Hx. apply list_elem_of_In.
      exact (subseteq_drop _ _ _ Hr).
Qed.

(** X21. The cards are made for at most six items of the wishlist: the
    items with the greatest IDs, the latest first. *)
Theorem latest_six_items_are_shown (db : DB) (wishlist_id : Z) :
  let all := List.filter (fun it => it_wishlist_id it =? wishlist_id) (items db) in
  let shown := shown_items db wishlist_id in
  length shown = Nat.min 6 (length all)
  /\ ForallOrdPairs (fun a b => it_ID b <= it_ID a) shown
  /\ (forall it, it ∈ shown -> it ∈ items db /\ it_wishlist_id it = wishlist_id)
  /\ exists rest,
       shown ++ rest ≡ₚ all
       /\ forall s r, s ∈ shown -> r ∈ rest -> it_ID r <= it_ID s.
Proof.
  intros all shown. unfold shown, shown_items. fold all.
  destruct (sorted_take_drop (order_by_ID_desc all) 6 (order_by_ID_desc_sorted all))
    as [Hsorted Hrest].
  split; [|split; [exact Hsorted|split]].
  - rewrite length_take, (Permutation_length (order_by_ID_desc_perm all)). reflexivity.
  - intros it Hin. apply subseteq_take in Hin. rewrite order_by_ID_desc_perm in Hin.
    apply list_elem_of_In, filter_In in Hin as [Hin Hw].
    split; [apply list_elem_of_In; exact Hin | apply Z.eqb_eq; exact Hw].
  - exists (drop 6 (order_by_ID_desc all)). split; [|exact Hrest].
    rewrite take_drop. apply order_by_ID_desc_perm.
Qed.

Lemma grid_rows_spec (n : nat) :
  forall cards : list string,
    (length cards <= n)%nat ->
    length (grid_rows cards) = Nat.div2 (Datatypes.S (length cards))
    /\ forall i l,
         cards !! (2 * i)%nat = Some l ->
         grid_rows cards !! i
         = Some ("<tr>" ++ l ++ default empty_cell (cards !! Datatypes.S (2 * i))
                   ++ "</tr>")%string.
Proof.
  induction n as [|n IH]; intros cards Hlen.
  - destruct cards; [|cbn in Hlen; lia]. split; [reflexivity|]. intros i l Hl.
    rewrite lookup_nil in Hl. discriminate.
  - destruct cards as [|a [|b rest]].
    + split; [reflexivity|]. intros i l Hl. rewrite lookup_nil in Hl. discriminate.
    + split; [reflexivity|]. intros [|i] l Hl.
      * injection Hl as <-. reflexivity.
      * replace (2 * Datatypes.S i)%nat with (Datatypes.S (Datatypes.S (2 * i))) in Hl by lia.
        discriminate.
    + destruct (IH rest) as [IHl IHr]; [cbn [length] in Hlen; lia|].
      cbn [grid_rows length]. split.
      * rewrite IHl. reflexivity.
      * intros [|i] l Hl.
        -- injection Hl as <-. reflexivity.
        -- replace (2 * Datatypes.S i)%nat with (Datatypes.S (Datatypes.S (2 * i)))
             in * by lia.
           cbn [lookup list_lookup] in Hl |- *. apply IHr. exact Hl.
Qed.

Section WithServer.
Variable meta_key_eq : string -> string -> bool.
Variable PLACEHOLDER_IMG : string.

Lemma product_cards_length (cfg : Config) (env : Env) (shop : Shop) (products : list Z) :
  forall cards,
    product_cards meta_key_eq PLACEHOLDER_IMG cfg env shop products = Ok cards ->
    length cards = length products.
Proof.
  induction products as [|pid rest IH]; intros cards; cbn [product_cards].
  - intros [= <-]. reflexivity.
  - destruct (product_card _ _ cfg env shop pid) as [card|x]; [|discriminate].
    cbn [mbind res_bind Py.bind].
    destruct (product_cards _ _ cfg env shop rest) as [cs|x]; [|discriminate].
    cbn [mbind res_bind Py.bind]. intros [= <-]. cbn [length]. f_equal. apply IH.
    reflexivity.
Qed.

(** X22. The grid has one card for each of the items shown, two to a row:
    at most three rows, half as many as there are cards (rounded up); row
    number i holds card 2i and, after it, card 2i+1 or the empty cell when
    there is no such card. *)
Theorem grid_pairs_the_cards (cfg : Config) (env : Env) (db : DB) (shop : Shop)
    (wishlist_id : Z) (cards : list string) :
  product_cards meta_key_eq PLACEHOLDER_IMG cfg env shop
    (map it_product_id (shown_items db wishlist_id)) = Ok cards ->
  length cards = length (shown_items db wishlist_id)
  /\ (length (grid_rows cards) <= 3)%nat
  /\ length (grid_rows cards) = Nat.div2 (Datatypes.S (length cards))
  /\ forall i l,
       cards !! (2 * i)%nat = Some l ->
       grid_rows cards !! i
       = Some ("<tr>" ++ l ++ default empty_cell (cards !! Datatypes.S (2 * i))
                 ++ "</tr>")%string.
Proof.
  intros Hcards. apply product_cards_length in Hcards. rewrite length_map in Hcards.
  destruct (grid_rows_spec (length cards) cards (Nat.le_refl _)) as [Hl Hr].
  split; [exact Hcards|]. split; [|split; [exact Hl | exact Hr]].
  rewrite Hl, Hcards. unfold shown_items. rewrite length_take.
  set (k := length _).
  assert (Hk : (Nat.min 6 k <= 6)%nat) by lia. revert Hk.
  generalize (Nat.min 6 k). intros m Hm.
  do 7 (destruct m as [|m]; [cbn; lia|]). lia.
Qed.





End WithServer.

End CardsMore.

Section CardsExamples.
Import Py datetime wishlist_reminder Samples.

(** The cards of wishlist 8 of [db_two]. *)
Lemma cards_of_wishlist_8 :
  exists cards,
    product_cards String.eqb placeholder_img cfg_24h env_fine shop_two
      (map it_product_id (shown_items db_two 8)) = Ok cards.
Proof. eexists. vm_compute. reflexivity. Qed.

Lemma grid_pairs_the_cards_witness :
  exists cards,
    product_cards String.eqb placeholder_img cfg_24h env_fine shop_two
      (map it_product_id (shown_items db_two 8)) = Ok cards
    /\ length cards = 2%nat
    /\ length (grid_rows cards) = 1%nat.
Proof.
  destruct cards_of_wishlist_8 as (cards & Hcards). exists cards.
  destruct (grid_pairs_the_cards String.eqb placeholder_img cfg_24h env_fine db_two
              shop_two 8 cards Hcards) as (Hlen & _ & Hrows & _).
  split; [exact Hcards|]. split; [exact Hlen|]. rewrite Hrows, Hlen. reflexivity.
Defined.

(** With a thumbnail id that is no number the cards of wishlist 8 cannot
    be built; those of wishlist 7, whose product has no thumbnail row, can. *)
Example cards_with_bad_thumbnail :
  render_products_html String.eqb placeholder_img cfg_24h env_fine db_two
    shop_bad_thumbnail 8 = Raise ValueError
  /\ exists html,
       render_products_html String.eqb placeholder_img cfg_24h env_fine db_two
         shop_bad_thumbnail 7 = Ok html.
Proof. split; [vm_compute; reflexivity | eexists; vm_compute; reflexivity]. Qed.

End CardsExamples.

(** ** The worker: preview and live run *)

Section PreviewAndLive.
Import Py datetime wishlist_reminder.
Context {St : Store}.

Lemma previews_app (a b : list Line) : previews (a ++ b) = previews a ++ previews b.
Proof. apply omap_app. Qed.

(** The loop over the same candidates with the switch off and on: what is
    previewed is what is handed to [send_email], and both end alike. *)
Lemma send_loop_preview_and_live (cfg : Config) (env : Env) (tpl : string)
    (rows : list Row) :
  forall i wp wl,
    exists lines calls,
      stdout (send_loop (with_SEND_EMAILS false cfg) env tpl i rows wp).1
      = stdout wp ++ lines
      /\ smtp_calls (send_loop (with_SEND_EMAILS true cfg) env tpl i rows wl).1
         = smtp_calls wl ++ calls
      /\ previews lines = map (fun c => mail_to c.1) calls
      /\ (send_loop (with_SEND_EMAILS false cfg) env tpl i rows wp).2
         = (send_loop (with_SEND_EMAILS true cfg) env tpl i rows wl).2.
Proof.
  induction rows as [|r rest IH]; intros i wp wl; cbn [send_loop].
  - exists [], []. rewrite !app_nil_r. auto.
  - change (render_template (with_SEND_EMAILS false cfg) env i (wishlist_id r) tpl)
      with (render_template cfg env i (wishlist_id r) tpl).
    change (render_template (with_SEND_EMAILS true cfg) env i (wishlist_id r) tpl)
      with (render_template cfg env i (wishlist_id r) tpl).
    destruct (render_template cfg env i (wishlist_id r) tpl) as [html|e].
    2:{ exists [], []. rewrite !app_nil_r. auto. }
    cbn [with_SEND_EMAILS SEND_EMAILS SUBJECT CAMPAIGN_KEY].
    unfold send_email, insert_log_conn.
    destruct (env_smtp env i _) as [id|e];
      [destruct (env_insert_fault env i) as [e|]|];
      match goal with
      | |- context [send_loop (with_SEND_EMAILS false cfg) env tpl (Datatypes.S i) rest ?w1] =>
          match goal with
          | |- context [send_loop (with_SEND_EMAILS true cfg) env tpl (Datatypes.S i) rest ?w2] =>
              destruct (IH (Datatypes.S i) w1 w2) as (lines & calls & Hl & Hc & Hp & He)
          end
      end;
      rewrite Hl, Hc, He; cbn [print stdout smtp_calls]; rewrite <- !app_assoc;
      eexists (_ :: lines), (_ :: calls);
      (split; [reflexivity|]); (split; [reflexivity|]);
      (split; [cbn; f_equal; exact Hp | reflexivity]).
Qed.

(** X24. A run with SEND_EMAILS off shows what the same run with
    SEND_EMAILS on does: the addresses of its [PREVIEW] lines are, one for
    one and in order, the addresses that the live run hands to
    [send_email], and both runs end with the same exit status. *)
Theorem preview_lists_the_recipients (cfg : Config) (env : Env) (w : World) :
  exists lines calls,
    stdout (script (with_SEND_EMAILS false cfg) env w).1 = stdout w ++ lines
    /\ smtp_calls (script (with_SEND_EMAILS true cfg) env w).1 = smtp_calls w ++ calls
    /\ previews lines = map (fun c => mail_to c.1) calls
    /\ (script (with_SEND_EMAILS false cfg) env w).2
       = (script (with_SEND_EMAILS true cfg) env w).2.
Proof.
  unfold script, main.
  change (compute_window (with_SEND_EMAILS false cfg) (env_now_utc env))
    with (compute_window cfg (env_now_utc env)).
  change (compute_window (with_SEND_EMAILS true cfg) (env_now_utc env))
    with (compute_window cfg (env_now_utc env)).
  destruct (compute_window cfg (env_now_utc env)) as [[[s e] mode]|x].
  2:{ exists [Fatal x], []. rewrite app_nil_r. auto. }
  destruct (env_load_template env) as [tpl|x].
  2:{ exists [ErrorTemplate], []. rewrite app_nil_r. auto. }
  destruct (env_mysql_conn env) as [c|x].
  2:{ exists [ErrorMySQL], []. rewrite app_nil_r. auto. }
  change (select_candidates (with_SEND_EMAILS false cfg) (db (print Boot w)) s e)
    with (select_candidates cfg (db (print Boot w)) s e).
  change (select_candidates (with_SEND_EMAILS true cfg) (db (print Boot w)) s e)
    with (select_candidates cfg (db (print Boot w)) s e).
  destruct (match env_select_fault env with
            | Some x => Raise x
            | None => select_candidates cfg (db (print Boot w)) s e
            end) as [rows|x].
  2:{ exists [Boot; Fatal x], []. rewrite app_nil_r. cbn [fst snd print stdout smtp_calls].
      rewrite <- app_assoc. auto. }
  destruct rows as [|r rest].
  { exists [Boot; DebugCandidates 0; NoRecipients], []. rewrite app_nil_r.
    cbn [fst snd print stdout smtp_calls length]. rewrite <- !app_assoc. auto. }
  destruct (send_loop_preview_and_live cfg env tpl (r :: rest) 0%nat
              (print (DebugCandidates (length (r :: rest))) (print Boot w))
              (print (DebugCandidates (length (r :: rest))) (print Boot w)))
    as (lines & calls & Hl & Hc & Hp & He).
  destruct (send_loop (with_SEND_EMAILS false cfg) env tpl 0 (r :: rest) _)
    as [wp [up|xp]];
    destruct (send_loop (with_SEND_EMAILS true cfg) env tpl 0 (r :: rest) _)
      as [wl [ul|xl]];
    cbn [fst snd] in *; try discriminate.
  - exists (Boot :: DebugCandidates (length (r :: rest)) :: lines), calls.
    rewrite Hl, Hc. cbn [print stdout smtp_calls]. rewrite <- !app_assoc.
    split; [reflexivity|]. split; [reflexivity|]. split; [exact Hp | reflexivity].
  - exists (Boot :: DebugCandidates (length (r :: rest)) :: lines ++ [Fatal xp]), calls.
    cbn [print stdout smtp_calls] in *. rewrite Hl, Hc, <- !app_assoc.
    split; [reflexivity|]. split; [reflexivity|].
    split; [|reflexivity].
    change (previews (Boot :: DebugCandidates (length (r :: rest)) :: lines ++ [Fatal xp]))
      with (previews (lines ++ [Fatal xp])).
    rewrite previews_app. cbn. rewrite app_nil_r. exact Hp.
Qed.

End PreviewAndLive.

(** ** The orchestrator: the pauses of the local test mode *)

Section TestMode.
Import Py orchestrator Samples.

Ltac trace_simpl :=
  repeat (unfold sleep, log, emit in *; cbn [trace lock_file calls] in * ).

Lemma countdown_world (n : nat) :
  forall w, exists evs,
    countdown n w = {| lock_file := lock_file w; calls := calls w; trace := trace w ++ evs |}
    /\ sleeps evs = replicate n 1
    /\ runs evs = [].
Proof.
  induction n as [|n IH]; intros w.
  - exists []. rewrite app_nil_r. destruct w; auto.
  - cbn [countdown].
    destruct ((Z.of_nat (Datatypes.S n) mod 10 =? 0) || (Z.of_nat (Datatypes.S n) <=? 5)).
    + destruct (IH (log (Remaining (Z.of_nat (Datatypes.S n))) (sleep 1 w)))
        as (evs & -> & Hs & Hr).
      trace_simpl. eexists (_ :: _ :: evs). rewrite <- !app_assoc.
      split; [reflexivity|]. split; [cbn; f_equal; exact Hs | exact Hr].
    + destruct (IH (sleep 1 w)) as (evs & -> & Hs & Hr).
      trace_simpl. eexists (_ :: evs). rewrite <- !app_assoc.
      split; [reflexivity|]. split; [cbn; f_equal; exact Hs | exact Hr].
Qed.

(** The pause after a stage in local test mode, as long as its delay can
    be read. *)
Lemma pause_after_world (env : Env) (st : Stage) (w : World) (d : Z) :
  flag (getenv env "LOCAL_TEST_MODE" "false") = true ->
  delay_min_of env st = Ok d ->
  exists evs,
    pause_after env st w
    = ({| lock_file := lock_file w; calls := calls w; trace := trace w ++ evs |}, Ok tt)
    /\ sleeps evs = replicate (Z.to_nat (60 * d)) 1
    /\ runs evs = [].
Proof.
  intros Hmode Hd. unfold pause_after. rewrite Hmode.
  unfold delay_min_of in Hd. rewrite Hd.
  destruct (d >? 0) eqn:Hpos.
  - destruct (countdown_world (Z.to_nat (d * 60)) (log (Waiting d) w))
      as (evs & -> & Hs & Hr).
    trace_simpl. exists (Log (Waiting d) :: evs). rewrite <- app_assoc.
    split; [reflexivity|]. replace (60 * d) with (d * 60) by lia.
    split; [exact Hs | exact Hr].
  - exists []. rewrite app_nil_r. replace (Z.to_nat (60 * d)) with 0%nat by lia.
    destruct w; auto.
Qed.

Lemma sleeps_worker_events (env : Env) (ov : gmap string string) (n : nat) :
  sleeps (worker_events env ov n) = [].
Proof. unfold worker_events. destruct (worker_exists env n); reflexivity. Qed.

(** X25. In local test mode, with a worker that succeeds at every call, a
    run pauses after each of the three stages for the delay of the stage,
    one second at a time, before it removes the lock: TEST_DELAY_MIN, when
    it is set, also makes it wait after the last stage, whose own delay is
    0; without it the run sleeps 240 seconds. *)
Theorem test_mode_pauses_after_every_stage (env : Env) (w : World) (d1 d2 d3 : Z) :
  flag (getenv env "LOCAL_TEST_MODE" "false") = true ->
  (forall n, call_result env n = 0) ->
  lock_file w = None ->
  delay_min_of env stage_24 = Ok d1 ->
  delay_min_of env stage_48 = Ok d2 ->
  delay_min_of env stage_72 = Ok d3 ->
  (exists w',
      main env w = Some (w', Returned 0)
      /\ lock_file w' = None
      /\ runs (new_events w w') = [(Some "24", 0); (Some "48", 0); (Some "72", 0)]
      /\ sleeps (new_events w w')
         = replicate (Z.to_nat (60 * d1) + Z.to_nat (60 * d2) + Z.to_nat (60 * d3)) 1)
  /\ (environ env !! "TEST_DELAY_MIN" = None -> d1 = 2 /\ d2 = 2 /\ d3 = 0)
  /\ (forall c t, environ env !! "TEST_DELAY_MIN" = Some (String c t) ->
        d2 = d1 /\ d3 = d1).
Proof.
  intros Hmode Hok Hfree H1 H2 H3. split; [|split].
  - rewrite main_unfold, Hfree. unfold stages, retry_fuel.
    cbn [run_stages retry_loop].
    rewrite run_worker_eq, Hok. cbn [Z.eqb].
    match goal with |- context [pause_after env stage_24 ?w1] =>
      destruct (pause_after_world env stage_24 w1 d1 Hmode H1) as (e1 & -> & Hs1 & Hr1) end.
    rewrite run_worker_eq, Hok. cbn [Z.eqb].
    match goal with |- context [pause_after env stage_48 ?w1] =>
      destruct (pause_after_world env stage_48 w1 d2 Hmode H2) as (e2 & -> & Hs2 & Hr2) end.
    rewrite run_worker_eq, Hok. cbn [Z.eqb].
    match goal with |- context [pause_after env stage_72 ?w1] =>
      destruct (pause_after_world env stage_72 w1 d3 Hmode H3) as (e3 & -> & Hs3 & Hr3) end.
    eexists. split; [reflexivity|]. split; [reflexivity|].
    unfold new_events, release_lock. cbn [trace lock_file calls].
    rewrite <- !app_assoc, drop_app_length.
    split.
    + rewrite !runs_app, runs_mode_logs, Hr1, Hr2, Hr3, !runs_worker_events, !stage_label,
        !Hok. reflexivity.
    + rewrite !sleeps_app, sleeps_mode_logs, Hs1, Hs2, Hs3, !sleeps_worker_events.
      cbn [app]. rewrite <- !replicate_add, Nat.add_assoc. reflexivity.
  - intros Hnone. unfold delay_min_of in H1, H2, H3. rewrite Hnone in H1, H2, H3.
    cbn in H1, H2, H3. split; [|split]; congruence.
  - intros c t Hsome. unfold delay_min_of in H1, H2, H3. rewrite Hsome in H1, H2, H3.
    split; congruence.
Qed.

Lemma test_mode_pauses_after_every_stage_witness :
  exists w',
    main env_test_mode world_free = Some (w', Returned 0)
    /\ sleeps (new_events world_free w') = replicate 180 1.
Proof.
  destruct (test_mode_pauses_after_every_stage env_test_mode world_free 1 1 1
              eq_refl (fun _ => eq_refl) eq_refl eq_refl eq_refl eq_refl)
    as ((w' & Hmain & _ & _ & Hs) & _).
  exists w'. split; [exact Hmain | exact Hs].
Defined.

End TestMode.
